(** * PyGameMaker IDE: the resource-reference and scene-document model

    A shallow embedding of [gamemaker_03.py]: the data classes
    ([Sprite], [BackgroundResource], [GameObjectType],
    [GameObjectInstance], [Level]), the collections held by
    [GameMakerIDE] with their add / rename / delete actions and the
    cascades these run on the foreign keys, the canvas hit test of
    [GameCanvas.mousePressEvent], and the project file written by
    [save_project] and read back by [open_project]; then the dialogs of
    the object type and of the level size, the grid menu, the repaint
    of the canvas, and the playback program [runner_03.py], which reads
    the same project file.

    Conventions of the embedding.
    - Python [int] is [Z]; [None]-or-int is [option Z]; [bytes] is
      [list byte]; [str] is [string]; Python lists are Rocq lists.
    - The Qt widgets (the [QListWidget]s) mirror the collections and
      hold no state of their own that the model needs; they are left
      out.  The repaint of the canvas is the list of the calls it makes
      on its painter.  What a modal dialog returns is an argument of
      the action that opens it.
    - An action that catches its own exceptions returns the state it
      leaves behind together with an outcome.
    - The calls into Qt are taken to accept what they are handed: the
      model does not follow the conversion of a Python [int] to a C
      [int]. *)

From Stdlib Require Import ZArith Lia List String Ascii Bool.
From Stdlib.Strings Require Import Byte.
From stdpp Require Import base list strings.

Local Open Scope Z_scope.

(** ** Python values and exceptions *)

Inductive PyExc : Type :=
| KeyError (key : string)
| IndexError
| TypeError
| AttributeError
| ValueError
| Base64Error
| OSError
| OutsideFormat.

(** [OutsideFormat] is not an exception of Python.  It marks a project
    file in which a leaf has another type than the file format gives it
    (a number for a name, say).  Python, being untyped, may store such a
    value and fail later or not at all; the model, whose fields are
    typed, stops following the code at the place where the leaf is
    read. *)

Inductive result (A : Type) : Type :=
| Ok (a : A)
| Raise (e : PyExc).

Arguments Ok {A} a.
Arguments Raise {A} e.

(** Sequencing with exception propagation, written [x ← r; k]. *)
#[global] Instance result_ret : MRet result := fun _ a => Ok a.
#[global] Instance result_bind : MBind result := fun _ _ k r =>
  match r with
  | Ok a => k a
  | Raise e => Raise e
  end.

Definition bytes := list byte.

(** [len(l)] as a Python int. *)
Definition len {A} (l : list A) : Z := Z.of_nat (length l).

(** [0 <= i < len(l)] *)
Definition in_range {A} (i : Z) (l : list A) : bool :=
  (0 <=? i) && (i <? len l).

(** [idx is not None and 0 <= idx < len(l)] *)
Definition selected_in {A} (idx : option Z) (l : list A) : option Z :=
  match idx with
  | Some i => if in_range i l then Some i else None
  | None => None
  end.

(** [l[i]]: a negative index counts from the end; out of range raises. *)
Definition getitem {A} (l : list A) (i : Z) : result A :=
  let j := if i <? 0 then i + len l else i in
  if in_range j l then
    match l !! Z.to_nat j with
    | Some a => Ok a
    | None => Raise IndexError
    end
  else Raise IndexError.

(** [del l[i]], used by the code only under the guard [0 <= i < len(l)]. *)
Definition del {A} (l : list A) (i : Z) : list A := delete (Z.to_nat i) l.

(** [l[i].field = v] under the same guard: the entry is updated in place. *)
Definition setitem {A} (l : list A) (i : Z) (f : A -> A) : list A :=
  alter f (Z.to_nat i) l.

(** Python's [str.isspace] on the code points below 128, and the
    truth value of [name.strip()]: false exactly on a name made of
    white space only (the empty name included). *)
Definition is_space (c : ascii) : bool :=
  let n := nat_of_ascii c in
  ((9 <=? n) && (n <=? 13) || (28 <=? n) && (n <=? 32))%nat.

Fixpoint strip_nonempty (s : string) : bool :=
  match s with
  | EmptyString => false
  | String c s' => if is_space c then strip_nonempty s' else true
  end.

(** ** Data classes *)

(** [QColor] as the four channels its accessors return. *)
Record QColor := mkQColor { red : Z; green : Z; blue : Z; alpha : Z }.

(** [QColor(200,200,255)]: the alpha channel defaults to 255. *)
Definition default_color : QColor := mkQColor 200 200 255 255.

(** A [QPixmap] as far as the model looks at it: its size. *)
Record QPixmap := mkQPixmap { pix_width : Z; pix_height : Z }.

(** [str.lower()] on the code points below 128. *)
Definition lower_ascii (c : ascii) : ascii :=
  let n := nat_of_ascii c in
  if ((65 <=? n) && (n <=? 90))%nat then ascii_of_nat (n + 32) else c.

Fixpoint lower (s : string) : string :=
  match s with
  | EmptyString => EmptyString
  | String c s' => String (lower_ascii c) (lower s')
  end.

(** [s.endswith(suffix)] *)
Definition endswith (s suffix : string) : bool :=
  let n := String.length s in
  let m := String.length suffix in
  if (m <=? n)%nat then String.eqb (String.substring (n - m) m s) suffix
  else false.

(** The flag [_is_gif] that both image classes compute in [__init__]:
    [img_format.lower() == "gif" or (name and
    name.lower().endswith(".gif"))]. *)
Definition gif_flag (img_format name : string) : bool :=
  String.eqb (lower img_format) "gif"
  || (negb (String.eqb name "") && endswith (lower name) ".gif").

Module Sprite.
(** [_is_gif] is computed once, in [__init__], and kept when the name
    changes.  The movie and the pixmap that [_prepare] derives from the
    bytes are not fields of the model: [Sprite_pixmap] below gets them
    from the codec. *)
Record t := mk {
  name : string;
  img_bytes : option bytes;
  img_format : string;
  _is_gif : bool
}.

(** [Sprite.__init__] *)
Definition new (name : string) (img_bytes : option bytes) (img_format : string) : t :=
  mk name img_bytes img_format (gif_flag img_format name).

(** [sprite.name = n] *)
Definition set_name (n : string) (s : t) : t :=
  mk n (img_bytes s) (img_format s) (_is_gif s).
End Sprite.

Module BackgroundResource.
Record t := mk {
  name : string;
  mode : string;
  color : QColor;
  img_bytes : option bytes;
  img_format : string;
  tiled : bool;
  _is_gif : bool
}.

(** [BackgroundResource.__init__]: [self.color = color or QColor(200,200,255)] *)
Definition new (name mode : string) (color : option QColor)
    (img_bytes : option bytes) (img_format : string) (tiled : bool) : t :=
  mk name mode (default default_color color) img_bytes img_format tiled
    (gif_flag img_format name).

(** [bg.name = n] *)
Definition set_name (n : string) (b : t) : t :=
  mk n (mode b) (color b) (img_bytes b) (img_format b) (tiled b) (_is_gif b).
End BackgroundResource.

Module GameObjectType.
Record t := mk { name : string; sprite_index : option Z }.

Definition set_name (n : string) (o : t) : t := mk n (sprite_index o).
Definition set_sprite_index (i : option Z) (o : t) : t := mk (name o) i.
End GameObjectType.

Module GameObjectInstance.
Record t := mk { x : Z; y : Z; object_index : Z }.

Definition set_object_index (i : Z) (inst : t) : t := mk (x inst) (y inst) i.
End GameObjectInstance.

Module Level.
Record t := mk {
  name : string;
  width : Z;
  height : Z;
  background_index : option Z;
  instances : list GameObjectInstance.t
}.

(** [Level.__init__]: a new level has no instances. *)
Definition new (name : string) (width height : Z) (background_index : option Z) : t :=
  mk name width height background_index [].

Definition set_name (n : string) (l : t) : t :=
  mk n (width l) (height l) (background_index l) (instances l).
Definition set_size (w h : Z) (l : t) : t :=
  mk (name l) w h (background_index l) (instances l).
Definition set_background_index (b : option Z) (l : t) : t :=
  mk (name l) (width l) (height l) b (instances l).
Definition set_instances (insts : list GameObjectInstance.t) (l : t) : t :=
  mk (name l) (width l) (height l) (background_index l) insts.
End Level.

(** ** Text helpers of the size dialog *)

(** [text.split(",")] *)
Fixpoint split_comma_aux (s : string) (cur : string) : list string :=
  match s with
  | EmptyString => [String.rev cur]
  | String c s' =>
      if Ascii.eqb c "," then String.rev cur :: split_comma_aux s' EmptyString
      else split_comma_aux s' (String c cur)
  end.

Definition split_comma (s : string) : list string := split_comma_aux s EmptyString.

Definition is_digit (c : ascii) : bool :=
  let n := nat_of_ascii c in ((48 <=? n) && (n <=? 57))%nat.

Definition digit_value (c : ascii) : Z := Z.of_nat (nat_of_ascii c) - 48.

Fixpoint all_space (s : string) : bool :=
  match s with
  | EmptyString => true
  | String c s' => is_space c && all_space s'
  end.

Fixpoint lstrip (s : string) : string :=
  match s with
  | EmptyString => EmptyString
  | String c s' => if is_space c then lstrip s' else s
  end.

(** The digits of a decimal literal: single underscores may separate
    digits, white space may follow the last digit. *)
Fixpoint int_digits (s : string) (acc : Z) (after_digit : bool) : option Z :=
  match s with
  | EmptyString => if after_digit then Some acc else None
  | String c s' =>
      if is_digit c then int_digits s' (acc * 10 + digit_value c) true
      else if Ascii.eqb c "_" then
        if after_digit then
          match s' with
          | String d _ => if is_digit d then int_digits s' acc false else None
          | EmptyString => None
          end
        else None
      else if is_space c then
        if after_digit && all_space s' then Some acc else None
      else None
  end.

(** [int(s)] for a [str] argument, base 10; [None] is [ValueError]. *)
Definition py_int (s : string) : option Z :=
  match lstrip s with
  | String "-" s' => Z.opp <$> int_digits s' 0 false
  | String "+" s' => int_digits s' 0 false
  | s' => int_digits s' 0 false
  end.

(** [w, h = map(int, text.split(","))]: any failure (a piece that is
    not an integer, fewer or more than two pieces) is an exception. *)
Definition parse_size (text : string) : option (Z * Z) :=
  match split_comma text with
  | [a; b] =>
      match py_int a, py_int b with
      | Some w, Some h => Some (w, h)
      | _, _ => None
      end
  | _ => None
  end.

(** ** The canvas and the main window *)

Module GameCanvas.
(** The fields of [GameCanvas]. [dragged_instance] holds the instance
    picked up by the last left click, as it was when picked. *)
Record t := mk {
  dragged_instance : option GameObjectInstance.t;
  drag_offset : Z * Z;
  grid_size : Z;
  show_grid : bool
}.

(** [GameCanvas.__init__] *)
Definition new : t := mk None (0, 0) 32 true.

Definition set_drag (inst : GameObjectInstance.t) (off : Z * Z) (c : t) : t :=
  mk (Some inst) off (grid_size c) (show_grid c).
End GameCanvas.

(** What an action that reports to the user leaves on screen: nothing,
    or a message box (the text of a warning is given without the
    exception it quotes).  [NotFollowed] is the outcome of the model on
    a file that is [OutsideFormat]. *)
Inductive outcome : Type :=
| Silent
| Information (title text : string)
| Warning (title text : string)
| NotFollowed.

Module GameMakerIDE.
Record t := mk {
  sprites : list Sprite.t;
  objects : list GameObjectType.t;
  levels : list Level.t;
  backgrounds : list BackgroundResource.t;
  selected_sprite_index : option Z;
  selected_object_index : option Z;
  selected_level_index : option Z;
  selected_background_index : option Z;
  canvas : GameCanvas.t
}.

Definition set_sprites v (s : t) : t :=
  mk v (objects s) (levels s) (backgrounds s) (selected_sprite_index s)
     (selected_object_index s) (selected_level_index s)
     (selected_background_index s) (canvas s).
Definition set_objects v (s : t) : t :=
  mk (sprites s) v (levels s) (backgrounds s) (selected_sprite_index s)
     (selected_object_index s) (selected_level_index s)
     (selected_background_index s) (canvas s).
Definition set_levels v (s : t) : t :=
  mk (sprites s) (objects s) v (backgrounds s) (selected_sprite_index s)
     (selected_object_index s) (selected_level_index s)
     (selected_background_index s) (canvas s).
Definition set_backgrounds v (s : t) : t :=
  mk (sprites s) (objects s) (levels s) v (selected_sprite_index s)
     (selected_object_index s) (selected_level_index s)
     (selected_background_index s) (canvas s).
Definition set_selected_sprite_index v (s : t) : t :=
  mk (sprites s) (objects s) (levels s) (backgrounds s) v
     (selected_object_index s) (selected_level_index s)
     (selected_background_index s) (canvas s).
Definition set_selected_object_index v (s : t) : t :=
  mk (sprites s) (objects s) (levels s) (backgrounds s) (selected_sprite_index s)
     v (selected_level_index s) (selected_background_index s) (canvas s).
Definition set_selected_level_index v (s : t) : t :=
  mk (sprites s) (objects s) (levels s) (backgrounds s) (selected_sprite_index s)
     (selected_object_index s) v (selected_background_index s) (canvas s).
Definition set_selected_background_index v (s : t) : t :=
  mk (sprites s) (objects s) (levels s) (backgrounds s) (selected_sprite_index s)
     (selected_object_index s) (selected_level_index s) v (canvas s).
Definition set_canvas v (s : t) : t :=
  mk (sprites s) (objects s) (levels s) (backgrounds s) (selected_sprite_index s)
     (selected_object_index s) (selected_level_index s)
     (selected_background_index s) v.

(** The fields as [__init__] sets them before it adds the default
    resources. *)
Definition empty : t := mk [] [] [] [] None None None None GameCanvas.new.

(** *** Backgrounds *)

(** What [BackgroundEditDialog.get_values] returns. *)
Definition background_values : Type :=
  string * string * QColor * option bytes * string * bool.

(** [dlg] is [None] when the dialog is cancelled. *)
Definition add_background (init : bool) (dlg : option background_values) (s : t) : t :=
  let vals :=
    if init then
      Some ("Background 1"%string, "color"%string, default_color, None, "PNG"%string, true)
    else dlg in
  match vals with
  | Some (name, mode, color, img_bytes, img_format, tiled) =>
      let bg := BackgroundResource.new name mode (Some color) img_bytes img_format tiled in
      set_backgrounds (backgrounds s ++ [bg]) s
  | None => s
  end.

(** [dlg] is the pair [(name, ok)] that [QInputDialog.getText] returns. *)
Definition rename_background (dlg : string * bool) (s : t) : t :=
  match selected_in (selected_background_index s) (backgrounds s) with
  | Some idx =>
      let '(name, ok) := dlg in
      if ok && strip_nonempty name then
        set_backgrounds (setitem (backgrounds s) idx (BackgroundResource.set_name name)) s
      else s
  | None => s
  end.

(** The loop body of [delete_background] on one level. *)
Definition cascade_background (idx : Z) (lvl : Level.t) : Level.t :=
  match Level.background_index lvl with
  | Some b =>
      if b =? idx then Level.set_background_index None lvl
      else if b >? idx then Level.set_background_index (Some (b - 1)) lvl
      else lvl
  | None => lvl
  end.

(** [confirm] tells whether the message box was answered with Yes. *)
Definition delete_background (confirm : bool) (s : t) : t :=
  match selected_in (selected_background_index s) (backgrounds s) with
  | Some idx =>
      if confirm then
        let s := set_levels (cascade_background idx <$> levels s) s in
        let s := set_backgrounds (del (backgrounds s) idx) s in
        set_selected_background_index None s
      else s
  | None => s
  end.

Definition on_background_selected (row : Z) (s : t) : t :=
  set_selected_background_index (Some row) s.

(** *** Sprites *)

(** What [SpriteEditDialog.get_values] returns. *)
Definition sprite_values : Type := string * option bytes * string.

Definition add_sprite (init : bool) (dlg : option sprite_values) (s : t) : t :=
  let vals :=
    if init then Some ("Sprite 1"%string, None, "PNG"%string) else dlg in
  match vals with
  | Some (name, img_bytes, img_format) =>
      set_sprites (sprites s ++ [Sprite.new name img_bytes img_format]) s
  | None => s
  end.

Definition rename_sprite (dlg : string * bool) (s : t) : t :=
  match selected_in (selected_sprite_index s) (sprites s) with
  | Some idx =>
      let '(name, ok) := dlg in
      if ok && strip_nonempty name then
        set_sprites (setitem (sprites s) idx (Sprite.set_name name)) s
      else s
  | None => s
  end.

(** The loop body of [delete_sprite] on one object type. *)
Definition cascade_sprite (idx : Z) (obj : GameObjectType.t) : GameObjectType.t :=
  match GameObjectType.sprite_index obj with
  | Some i =>
      if i =? idx then GameObjectType.set_sprite_index None obj
      else if i >? idx then GameObjectType.set_sprite_index (Some (i - 1)) obj
      else obj
  | None => obj
  end.

Definition delete_sprite (confirm : bool) (s : t) : t :=
  match selected_in (selected_sprite_index s) (sprites s) with
  | Some idx =>
      if confirm then
        let s := set_objects (cascade_sprite idx <$> objects s) s in
        let s := set_sprites (del (sprites s) idx) s in
        set_selected_sprite_index None s
      else s
  | None => s
  end.

Definition on_sprite_selected (row : Z) (s : t) : t :=
  set_selected_sprite_index (Some row) s.

(** *** Objects *)

Definition add_object (init : bool) (dlg : string * bool) (s : t) : t :=
  let vals :=
    if init then Some "Object 1"%string
    else
      let '(name, ok) := dlg in
      if negb ok || negb (strip_nonempty name) then None else Some name in
  match vals with
  | Some name =>
      let s := set_objects (objects s ++ [GameObjectType.mk name None]) s in
      set_selected_object_index (Some (len (objects s) - 1)) s
  | None => s
  end.

Definition rename_object (dlg : string * bool) (s : t) : t :=
  match selected_in (selected_object_index s) (objects s) with
  | Some idx =>
      let '(name, ok) := dlg in
      if ok && strip_nonempty name then
        set_objects (setitem (objects s) idx (GameObjectType.set_name name)) s
      else s
  | None => s
  end.

(** The second loop of [delete_object] on one surviving instance. *)
Definition shift_instance (idx : Z) (inst : GameObjectInstance.t) : GameObjectInstance.t :=
  if GameObjectInstance.object_index inst >? idx then
    GameObjectInstance.set_object_index (GameObjectInstance.object_index inst - 1) inst
  else inst.

(** The loop body of [delete_object] on one level: the list
    comprehension, then the in-place decrement of the survivors. *)
Definition cascade_object (idx : Z) (lvl : Level.t) : Level.t :=
  let kept :=
    filter (fun inst => GameObjectInstance.object_index inst ≠ idx) (Level.instances lvl) in
  Level.set_instances (shift_instance idx <$> kept) lvl.

Definition delete_object (confirm : bool) (s : t) : t :=
  match selected_in (selected_object_index s) (objects s) with
  | Some idx =>
      if confirm then
        let s := set_levels (cascade_object idx <$> levels s) s in
        let s := set_objects (del (objects s) idx) s in
        set_selected_object_index None s
      else s
  | None => s
  end.

Definition on_object_selected (row : Z) (s : t) : t :=
  set_selected_object_index (Some row) s.

(** *** Levels *)

Definition add_level (init : bool) (dlg : string * bool) (s : t) : t :=
  let vals :=
    if init then Some ("Level 1"%string, 640, 360, Some 0)
    else
      let '(name, ok) := dlg in
      if negb ok || negb (strip_nonempty name) then None
      else
        Some (name, 640, 360,
              match backgrounds s with [] => None | _ :: _ => Some 0 end) in
  match vals with
  | Some (name, width, height, background_index) =>
      let s := set_levels (levels s ++ [Level.new name width height background_index]) s in
      set_selected_level_index (Some (len (levels s) - 1)) s
  | None => s
  end.

Definition rename_level (dlg : string * bool) (s : t) : t :=
  match selected_in (selected_level_index s) (levels s) with
  | Some idx =>
      let '(name, ok) := dlg in
      if ok && strip_nonempty name then
        set_levels (setitem (levels s) idx (Level.set_name name)) s
      else s
  | None => s
  end.

(** The index of the level [get_current_level] returns, if any. *)
Definition current_level_index (s : t) : option Z :=
  selected_in (selected_level_index s) (levels s).

Definition get_current_level (s : t) : option Level.t :=
  idx ← current_level_index s; levels s !! Z.to_nat idx.

(** [dlg] is the text of the dialog when it is accepted. The two
    assignments come after the text is parsed; any exception of the
    parse is caught and answered with the warning. *)
Definition set_level_screen_size (dlg : option string) (s : t) : t * outcome :=
  match current_level_index s with
  | None => (s, Silent)
  | Some idx =>
      match dlg with
      | None => (s, Silent)
      | Some text =>
          match parse_size text with
          | Some (w, h) =>
              (set_levels (setitem (levels s) idx (Level.set_size w h)) s, Silent)
          | None => (s, Warning "Error" "Invalid format.")
          end
      end
  end.

(** [dlg] is the pair [(idx, ok)] of [QInputDialog.getInt], which
    keeps [idx] within [0 .. len(backgrounds)-1]. *)
Definition set_level_background (dlg : Z * bool) (s : t) : t * outcome :=
  match current_level_index s with
  | None => (s, Silent)
  | Some cur =>
      match backgrounds s with
      | [] => (s, Warning "Error" "No backgrounds defined.")
      | _ :: _ =>
          let '(idx, ok) := dlg in
          if ok then
            (set_levels
               (setitem (levels s) cur (Level.set_background_index (Some idx))) s,
             Silent)
          else (s, Silent)
      end
  end.

Definition delete_level (confirm : bool) (s : t) : t :=
  match selected_in (selected_level_index s) (levels s) with
  | Some idx =>
      if confirm then
        let s := set_levels (del (levels s) idx) s in
        match levels s with
        | _ :: _ => set_selected_level_index (Some (Z.min idx (len (levels s) - 1))) s
        | [] => set_selected_level_index None s
        end
      else s
  | None => s
  end.

Definition on_level_selected (row : Z) (s : t) : t :=
  set_selected_level_index (Some row) s.

(** The default resources that [__init__] adds, in its order. *)
Definition init : t :=
  add_sprite true None
    (add_object true (EmptyString, false)
       (add_level true (EmptyString, false)
          (add_background true None empty))).
End GameMakerIDE.

(** ** Hit testing and the mouse on the canvas

    The image codec is Qt's: [QPixmap.loadFromData] for a still image,
    [QMovie.currentPixmap] for a GIF.  The model takes it as a function
    from the flag [_is_gif] and the stored bytes to the pixmap that
    [Sprite.pixmap] hands out (a null pixmap has size 0 by 0). *)

Section Canvas.
Variable codec : bool -> bytes -> QPixmap.

(** [Sprite.pixmap]: without bytes ([None] or [b""]) neither the movie
    nor the pixmap is prepared and the placeholder is returned. *)
Definition Sprite_pixmap (s : Sprite.t) : QPixmap :=
  match Sprite.img_bytes s with
  | Some (b :: bs) => codec (Sprite._is_gif s) (b :: bs)
  | Some [] | None => mkQPixmap 40 40
  end.

(** [GameObjectInstance.contains_point] *)
Definition contains_point (inst : GameObjectInstance.t) (px py : Z)
    (objects : list GameObjectType.t) (sprites : list Sprite.t) : result bool :=
  obj ← getitem objects (GameObjectInstance.object_index inst);
  match GameObjectType.sprite_index obj with
  | None => Ok false
  | Some si =>
      if si >=? len sprites then Ok false
      else
        sprite ← getitem sprites si;
        let pix := Sprite_pixmap sprite in
        let x := GameObjectInstance.x inst in
        let y := GameObjectInstance.y inst in
        Ok ((x <=? px) && (px <=? x + pix_width pix)
            && ((y <=? py) && (py <=? y + pix_height pix)))
  end.

(** [for i in reversed(range(n))]: the first [i], counting down from
    [n - 1], whose instance contains the point. *)
Fixpoint hit_below (n : nat) (insts : list GameObjectInstance.t) (px py : Z)
    (objects : list GameObjectType.t) (sprites : list Sprite.t) : result (option nat) :=
  match n with
  | O => Ok None
  | S i =>
      match insts !! i with
      | Some inst =>
          hit ← contains_point inst px py objects sprites;
          if hit : bool then Ok (Some i)
          else hit_below i insts px py objects sprites
      | None => Raise IndexError
      end
  end.

(** The search both mouse buttons start with. *)
Definition hitTest (lvl : Level.t) (px py : Z)
    (objects : list GameObjectType.t) (sprites : list Sprite.t) : result (option nat) :=
  hit_below (length (Level.instances lvl)) (Level.instances lvl) px py objects sprites.

(** [level.instances.append(level.instances.pop(i))] *)
Definition bringToFront (i : nat) (insts : list GameObjectInstance.t)
  : list GameObjectInstance.t :=
  match insts !! i with
  | Some inst => delete i insts ++ [inst]
  | None => insts
  end.

Inductive MouseButton : Type := LeftButton | RightButton | MidButton.

(** [GameCanvas.mousePressEvent] with the event's button and position.
    An [IndexError] of [contains_point] leaves the handler before it
    has changed anything. *)
Definition mousePressEvent (button : MouseButton) (ex ey : Z)
    (s : GameMakerIDE.t) : result GameMakerIDE.t :=
  match GameMakerIDE.current_level_index s, GameMakerIDE.get_current_level s with
  | Some cur, Some level =>
      let objects := GameMakerIDE.objects s in
      let sprites := GameMakerIDE.sprites s in
      let cv := GameMakerIDE.canvas s in
      let put insts :=
        GameMakerIDE.set_levels
          (setitem (GameMakerIDE.levels s) cur (Level.set_instances insts)) s in
      match button with
      | LeftButton =>
          hit ← hitTest level ex ey objects sprites;
          match hit with
          | Some i =>
              match Level.instances level !! i with
              | Some inst =>
                  let off := (ex - GameObjectInstance.x inst,
                              ey - GameObjectInstance.y inst) in
                  Ok (GameMakerIDE.set_canvas (GameCanvas.set_drag inst off cv)
                        (put (bringToFront i (Level.instances level))))
              | None => Raise IndexError
              end
          | None =>
              match GameMakerIDE.selected_object_index s with
              | Some sel =>
                  let g := GameCanvas.grid_size cv in
                  let snap_x := (ex / g) * g in
                  let snap_y := (ey / g) * g in
                  Ok (put (Level.instances level
                             ++ [GameObjectInstance.mk snap_x snap_y sel]))
              | None => Ok s
              end
          end
      | RightButton =>
          hit ← hitTest level ex ey objects sprites;
          match hit with
          | Some i => Ok (put (delete i (Level.instances level)))
          | None => Ok s
          end
      | MidButton => Ok s
      end
  | _, _ => Ok s
  end.
End Canvas.

(** ** Base64, as [base64.b64encode] and [base64.b64decode] compute it

    Python's standard library, not this repository's code: the encoder
    of RFC 4648 with padding, and the lenient decoder of
    [binascii.a2b_base64] (characters outside the alphabet are skipped,
    decoding stops at a complete pad sequence, a dangling group is an
    error).  Shifts and masks are written with [/], [mod] and [*]. *)

Definition byte_val (b : byte) : Z := Z.of_N (Byte.to_N b).

Definition byte_of (z : Z) : byte :=
  default x00 (Byte.of_N (Z.to_N (z mod 256))).

Definition ascii_val (c : ascii) : Z := Z.of_N (N_of_ascii c).

Definition ascii_of (z : Z) : ascii := ascii_of_N (Z.to_N z).

(** [table_b2a_base64] *)
Definition b2a (n : Z) : ascii :=
  if n <? 26 then ascii_of (65 + n)
  else if n <? 52 then ascii_of (97 + (n - 26))
  else if n <? 62 then ascii_of (48 + (n - 52))
  else if n =? 62 then "+"%char
  else "/"%char.

(** [table_a2b_base64]; [None] for a character outside the alphabet. *)
Definition a2b (c : ascii) : option Z :=
  let v := ascii_val c in
  if (65 <=? v) && (v <=? 90) then Some (v - 65)
  else if (97 <=? v) && (v <=? 122) then Some (v - 97 + 26)
  else if (48 <=? v) && (v <=? 57) then Some (v - 48 + 52)
  else if v =? 43 then Some 62
  else if v =? 47 then Some 63
  else None.

(** A check of the two tables against each other: the character of
    [n] decodes to [n], is not the pad and is ASCII. *)
Definition alphabet_ok (n : Z) : bool :=
  match a2b (b2a n) with
  | Some m => (m =? n) && negb (Ascii.eqb (b2a n) "=") && (ascii_val (b2a n) <? 128)
  | None => false
  end.

Fixpoint b64encode (data : bytes) : string :=
  match data with
  | [] => EmptyString
  | [a] =>
      let a := byte_val a in
      String (b2a (a / 4)) (String (b2a (a mod 4 * 16)) "==")
  | [a; b] =>
      let a := byte_val a in
      let b := byte_val b in
      String (b2a (a / 4))
        (String (b2a (a mod 4 * 16 + b / 16))
           (String (b2a (b mod 16 * 4)) "="))
  | a :: b :: c :: rest =>
      let a := byte_val a in
      let b := byte_val b in
      let c := byte_val c in
      String (b2a (a / 4))
        (String (b2a (a mod 4 * 16 + b / 16))
           (String (b2a (b mod 16 * 4 + c / 64))
              (String (b2a (c mod 64)) (b64encode rest))))
  end.

(** The loop of [a2b_base64]: [quad_pos] counts the characters of the
    current group, [leftchar] holds the bits not yet written, [pads]
    the pad characters seen in a row.  [None] is [binascii.Error]. *)
Fixpoint a2b_base64_loop (s : string) (quad_pos leftchar pads : Z) : option bytes :=
  match s with
  | EmptyString => if quad_pos =? 0 then Some [] else None
  | String c s' =>
      if Ascii.eqb c "=" then
        if (2 <=? quad_pos) && (4 <=? quad_pos + (pads + 1)) then Some []
        else
          a2b_base64_loop s' quad_pos leftchar
            (if 2 <=? quad_pos then pads + 1 else pads)
      else
        match a2b c with
        | None => a2b_base64_loop s' quad_pos leftchar pads
        | Some this_ch =>
            if quad_pos =? 0 then a2b_base64_loop s' 1 this_ch 0
            else if quad_pos =? 1 then
              cons (byte_of (leftchar * 4 + this_ch / 16))
                <$> a2b_base64_loop s' 2 (this_ch mod 16) 0
            else if quad_pos =? 2 then
              cons (byte_of (leftchar * 16 + this_ch / 4))
                <$> a2b_base64_loop s' 3 (this_ch mod 4) 0
            else
              cons (byte_of (leftchar * 64 + this_ch))
                <$> a2b_base64_loop s' 0 0 0
        end
  end.

Fixpoint is_ascii_str (s : string) : bool :=
  match s with
  | EmptyString => true
  | String c s' => (ascii_val c <? 128) && is_ascii_str s'
  end.

(** [base64.b64decode(s)] for a [str]: the text must be ASCII. *)
Definition b64decode (s : string) : result bytes :=
  if is_ascii_str s then
    match a2b_base64_loop s 0 0 0 with
    | Some data => Ok data
    | None => Raise Base64Error
    end
  else Raise ValueError.

(** ** The project file

    [json.dump] followed by [json.load] gives back the value it was
    handed, a tuple coming back as a list: the model identifies the text
    of a project file with the JSON value it denotes.  Numbers are
    integers, as the editor writes them. *)

#[local] Set Warnings "-register-all".
Inductive json : Type :=
| JNull
| JBool (b : bool)
| JInt (n : Z)
| JStr (s : string)
| JList (items : list json)
| JObj (fields : list (string * json)).
#[local] Set Warnings "register-all".

Fixpoint assoc (k : string) (fields : list (string * json)) : option json :=
  match fields with
  | [] => None
  | (k', v) :: rest => if String.eqb k k' then Some v else assoc k rest
  end.

(** [d[k]] *)
Definition subscript (d : json) (k : string) : result json :=
  match d with
  | JObj fields =>
      match assoc k fields with
      | Some v => Ok v
      | None => Raise (KeyError k)
      end
  | _ => Raise TypeError
  end.

(** [d.get(k)] *)
Definition dict_get (d : json) (k : string) : result (option json) :=
  match d with
  | JObj fields => Ok (assoc k fields)
  | _ => Raise AttributeError
  end.

(** The truth value of a value, as [if v] tests it. *)
Definition truthy (v : json) : bool :=
  match v with
  | JNull => false
  | JBool b => b
  | JInt n => negb (n =? 0)
  | JStr s => negb (String.eqb s EmptyString)
  | JList items => match items with [] => false | _ => true end
  | JObj fields => match fields with [] => false | _ => true end
  end.

Fixpoint chars (s : string) : list json :=
  match s with
  | EmptyString => []
  | String c s' => JStr (String c EmptyString) :: chars s'
  end.

(** [for x in v]: a list gives its items, a dict its keys, a string
    its characters; nothing else can be iterated. *)
Definition iterate (v : json) : result (list json) :=
  match v with
  | JList items => Ok items
  | JObj fields => Ok ((fun kv => JStr (fst kv)) <$> fields)
  | JStr s => Ok (chars s)
  | _ => Raise TypeError
  end.

(** The leaves of a project file have the types the editor writes:
    the readers below give [OutsideFormat] on a leaf of another type. *)
Definition as_str (v : json) : result string :=
  match v with JStr s => Ok s | _ => Raise OutsideFormat end.

Definition as_int (v : json) : result Z :=
  match v with JInt n => Ok n | _ => Raise OutsideFormat end.

Definition as_bool (v : json) : result bool :=
  match v with JBool b => Ok b | _ => Raise OutsideFormat end.

Definition as_opt_int (v : option json) : result (option Z) :=
  match v with
  | None | Some JNull => Ok None
  | Some (JInt n) => Ok (Some n)
  | Some _ => Raise OutsideFormat
  end.

(** [base64.b64encode(b).decode("utf-8") if b else None] *)
Definition encode_image (img_bytes : option bytes) : json :=
  match img_bytes with
  | Some (b :: bs) => JStr (b64encode (b :: bs))
  | Some [] | None => JNull
  end.

(** [base64.b64decode(d["img_bytes"]) if d.get("img_bytes") else None];
    [b64decode] raises [TypeError] on what is not a string. *)
Definition decode_image (d : json) : result (option bytes) :=
  v ← dict_get d "img_bytes";
  match v with
  | Some (JStr s) =>
      if truthy (JStr s) then
        data ← b64decode s;
        Ok (Some data)
      else Ok None
  | Some v => if truthy v then Raise TypeError else Ok None
  | None => Ok None
  end.

(** [QColor(r, g, b, a)]: channels out of range give the invalid
    colour, whose accessors return 0, 0, 0 and 255. *)
Definition valid_color (c : QColor) : bool :=
  forallb (fun v => (0 <=? v) && (v <=? 255)) [red c; green c; blue c; alpha c].

Definition QColor_new (r g b a : Z) : QColor :=
  let c := mkQColor r g b a in
  if valid_color c then c else mkQColor 0 0 0 255.

(** The colour of [from_dict]: the list under ["color"], unpacked
    into the arguments of [QColor], if it is there and not empty;
    [QColor(200,200,255)] otherwise. *)
Definition decode_color (d : json) : result QColor :=
  v ← dict_get d "color";
  match v with
  | Some v =>
      if truthy v then
        match v with
        | JList [JInt r; JInt g; JInt b; JInt a] => Ok (QColor_new r g b a)
        | JList [JInt r; JInt g; JInt b] => Ok (QColor_new r g b 255)
        | _ => Raise OutsideFormat
        end
      else Ok default_color
  | None => Ok default_color
  end.

(** [d.get(k, dflt)] read at the type of [dflt]. *)
Definition get_str (d : json) (k dflt : string) : result string :=
  v ← dict_get d k;
  match v with Some v => as_str v | None => Ok dflt end.

Definition get_bool (d : json) (k : string) (dflt : bool) : result bool :=
  v ← dict_get d k;
  match v with Some v => as_bool v | None => Ok dflt end.

Definition Sprite_to_dict (s : Sprite.t) : json :=
  JObj [("name", JStr (Sprite.name s));
        ("img_bytes", encode_image (Sprite.img_bytes s));
        ("img_format", JStr (Sprite.img_format s))]%string.

Definition Sprite_from_dict (d : json) : result Sprite.t :=
  img_bytes ← decode_image d;
  name ← subscript d "name" ≫= as_str;
  img_format ← get_str d "img_format" "PNG";
  Ok (Sprite.new name img_bytes img_format).

Definition BackgroundResource_to_dict (b : BackgroundResource.t) : json :=
  let c := BackgroundResource.color b in
  JObj [("name", JStr (BackgroundResource.name b));
        ("mode", JStr (BackgroundResource.mode b));
        ("color", JList [JInt (red c); JInt (green c); JInt (blue c); JInt (alpha c)]);
        ("img_bytes", encode_image (BackgroundResource.img_bytes b));
        ("img_format", JStr (BackgroundResource.img_format b));
        ("tiled", JBool (BackgroundResource.tiled b))]%string.

Definition BackgroundResource_from_dict (d : json) : result BackgroundResource.t :=
  img_bytes ← decode_image d;
  color ← decode_color d;
  name ← subscript d "name" ≫= as_str;
  mode ← get_str d "mode" "color";
  img_format ← get_str d "img_format" "PNG";
  tiled ← get_bool d "tiled" true;
  Ok (BackgroundResource.new name mode (Some color) img_bytes img_format tiled).

(** *** Saving *)

(** An index or [None], as [json.dump] writes it. *)
Definition opt_int (i : option Z) : json :=
  match i with Some n => JInt n | None => JNull end.

Definition GameObjectType_to_dict (obj : GameObjectType.t) : json :=
  JObj [("name", JStr (GameObjectType.name obj));
        ("sprite_index", opt_int (GameObjectType.sprite_index obj))]%string.

Definition GameObjectInstance_to_dict (inst : GameObjectInstance.t) : json :=
  JObj [("x", JInt (GameObjectInstance.x inst));
        ("y", JInt (GameObjectInstance.y inst));
        ("object_index", JInt (GameObjectInstance.object_index inst))]%string.

Definition Level_to_dict (lvl : Level.t) : json :=
  JObj [("name", JStr (Level.name lvl));
        ("width", JInt (Level.width lvl));
        ("height", JInt (Level.height lvl));
        ("background_index", opt_int (Level.background_index lvl));
        ("instances", JList (GameObjectInstance_to_dict <$> Level.instances lvl))]%string.

(** The dictionary [data] that [save_project] dumps. *)
Definition project_data (s : GameMakerIDE.t) : json :=
  JObj [("backgrounds", JList (BackgroundResource_to_dict <$> GameMakerIDE.backgrounds s));
        ("sprites", JList (Sprite_to_dict <$> GameMakerIDE.sprites s));
        ("objects", JList (GameObjectType_to_dict <$> GameMakerIDE.objects s));
        ("levels", JList (Level_to_dict <$> GameMakerIDE.levels s));
        ("selected_level_index", opt_int (GameMakerIDE.selected_level_index s));
        ("selected_object_index", opt_int (GameMakerIDE.selected_object_index s));
        ("selected_background_index", opt_int (GameMakerIDE.selected_background_index s))]%string.

(** [save_project]: [file_chosen] tells whether the file dialog gave a
    name, [writable] whether writing the file worked.  The result is
    the content of the file, if one was written. *)
Definition save_project (file_chosen writable : bool) (s : GameMakerIDE.t)
  : option json * outcome :=
  if file_chosen then
    if writable then
      (Some (project_data s), Information "Save" "Project saved successfully!")
    else (None, Warning "Error" "Failed to save project")
  else (None, Silent).

(** *** Opening

    [open_project] assigns to the fields of the window while it reads
    the file, inside one [try]; an exception leaves the fields as they
    are at that moment.  A step of the loader therefore returns the
    state it reached together with [Ok] or the exception. *)

Definition step : Type := GameMakerIDE.t -> GameMakerIDE.t * result unit.

Definition and_then (f g : step) : step := fun s =>
  match f s with
  | (s', Ok _) => g s'
  | (s', Raise e) => (s', Raise e)
  end.

(** [for item in items: body] *)
Fixpoint for_each (items : list json) (body : json -> step) : step := fun s =>
  match items with
  | [] => (s, Ok ())
  | item :: rest => and_then (body item) (for_each rest body) s
  end.

(** [for item in data[key]: body], the key being looked up and the
    iteration started after [reset] has run. *)
Definition rebuild (reset : GameMakerIDE.t -> GameMakerIDE.t) (data : json)
    (key : string) (body : json -> step) : step := fun s =>
  let s := reset s in
  match subscript data key ≫= iterate with
  | Ok items => for_each items body s
  | Raise e => (s, Raise e)
  end.

(** A loop body that builds an entry and appends it. *)
Definition append_with {A} (build : result A)
    (push : A -> GameMakerIDE.t -> GameMakerIDE.t) : step := fun s =>
  match build with
  | Ok a => (push a s, Ok ())
  | Raise e => (s, Raise e)
  end.

Definition load_backgrounds (data : json) : step :=
  rebuild (GameMakerIDE.set_backgrounds []) data "backgrounds" (fun bg_info =>
    append_with (BackgroundResource_from_dict bg_info)
      (fun bg s => GameMakerIDE.set_backgrounds (GameMakerIDE.backgrounds s ++ [bg]) s)).

Definition load_sprites (data : json) : step :=
  rebuild (GameMakerIDE.set_sprites []) data "sprites" (fun sprite_info =>
    append_with (Sprite_from_dict sprite_info)
      (fun sprite s => GameMakerIDE.set_sprites (GameMakerIDE.sprites s ++ [sprite]) s)).

(** [GameObjectType(obj_info["name"], obj_info["sprite_index"])] *)
Definition GameObjectType_from_dict (obj_info : json) : result GameObjectType.t :=
  name ← subscript obj_info "name" ≫= as_str;
  v ← subscript obj_info "sprite_index";
  sprite_index ← as_opt_int (Some v);
  Ok (GameObjectType.mk name sprite_index).

Definition load_objects (data : json) : step :=
  rebuild (GameMakerIDE.set_objects []) data "objects" (fun obj_info =>
    append_with (GameObjectType_from_dict obj_info)
      (fun obj s => GameMakerIDE.set_objects (GameMakerIDE.objects s ++ [obj]) s)).

(** The inner loop of the level reconstruction: an instance whose
    [object_index] is not an index of [objects] is skipped, and its
    coordinates are not read. *)
Fixpoint load_instances (insts : list json) (objects : list GameObjectType.t)
    (lvl : Level.t) : result Level.t :=
  match insts with
  | [] => Ok lvl
  | inst :: rest =>
      object_index ← subscript inst "object_index" ≫= as_int;
      if in_range object_index objects then
        x ← subscript inst "x" ≫= as_int;
        y ← subscript inst "y" ≫= as_int;
        load_instances rest objects
          (Level.set_instances
             (Level.instances lvl ++ [GameObjectInstance.mk x y object_index]) lvl)
      else load_instances rest objects lvl
  end.

Definition Level_from_dict (lvl_info : json) (objects : list GameObjectType.t)
  : result Level.t :=
  name ← subscript lvl_info "name" ≫= as_str;
  width ← subscript lvl_info "width" ≫= as_int;
  height ← subscript lvl_info "height" ≫= as_int;
  background_index ← dict_get lvl_info "background_index" ≫= as_opt_int;
  insts ← subscript lvl_info "instances" ≫= iterate;
  load_instances insts objects (Level.new name width height background_index).

Definition load_levels (data : json) : step :=
  rebuild (GameMakerIDE.set_levels []) data "levels" (fun lvl_info s =>
    append_with (Level_from_dict lvl_info (GameMakerIDE.objects s))
      (fun lvl s => GameMakerIDE.set_levels (GameMakerIDE.levels s ++ [lvl]) s) s).

(** [if collection: if index is None: index = 0] *)
Definition redefault {A} (collection : list A) (index : option Z) : option Z :=
  match collection, index with
  | _ :: _, None => Some 0
  | _, _ => index
  end.

(** [self.selected_..._index = data.get(key)] *)
Definition assign_selection (data : json) (key : string)
    (set : option Z -> GameMakerIDE.t -> GameMakerIDE.t) : step := fun s =>
  match dict_get data key ≫= as_opt_int with
  | Ok index => (set index s, Ok ())
  | Raise e => (s, Raise e)
  end.

(** The three [if] blocks that follow: a selection that is [None] and
    whose collection has entries becomes 0. *)
Definition settle_selection : step := fun s =>
  let s := GameMakerIDE.set_selected_level_index
             (redefault (GameMakerIDE.levels s) (GameMakerIDE.selected_level_index s)) s in
  let s := GameMakerIDE.set_selected_object_index
             (redefault (GameMakerIDE.objects s) (GameMakerIDE.selected_object_index s)) s in
  let s := GameMakerIDE.set_selected_background_index
             (redefault (GameMakerIDE.backgrounds s)
                (GameMakerIDE.selected_background_index s)) s in
  (s, Ok ()).

(** The part of [open_project] under the comment "Handle selected
    indices safely!". *)
Definition load_selection (data : json) : step :=
  and_then
    (assign_selection data "selected_level_index" GameMakerIDE.set_selected_level_index)
    (and_then
       (assign_selection data "selected_object_index"
          GameMakerIDE.set_selected_object_index)
       (and_then
          (assign_selection data "selected_background_index"
             GameMakerIDE.set_selected_background_index)
          settle_selection)).

(** The body of the [try] once [json.load] has returned [data]. *)
Definition reconstruct (data : json) : step :=
  and_then (load_backgrounds data)
    (and_then (load_sprites data)
       (and_then (load_objects data)
          (and_then (load_levels data) (load_selection data)))).

(** What the file dialog and [json.load] hand to [open_project]. *)
Inductive opened : Type :=
| Cancelled
| Unreadable (e : PyExc)
| Parsed (data : json).

Definition open_project (file : opened) (s : GameMakerIDE.t)
  : GameMakerIDE.t * outcome :=
  match file with
  | Cancelled => (s, Silent)
  | Unreadable e => (s, Warning "Error" "Failed to open project")
  | Parsed data =>
      match reconstruct data s with
      | (s', Ok _) => (s', Information "Open" "Project opened successfully!")
      | (s', Raise OutsideFormat) => (s', NotFollowed)
      | (s', Raise _) => (s', Warning "Error" "Failed to open project")
      end
  end.

(** ** Referential integrity and the actions that must keep it *)

(** A foreign key is [None] or an index of its target collection. *)
Definition valid_ref {A} (target : list A) (key : option Z) : Prop :=
  match key with
  | Some i => 0 <= i < len target
  | None => True
  end.

Definition valid_instance (objects : list GameObjectType.t)
    (inst : GameObjectInstance.t) : Prop :=
  0 <= GameObjectInstance.object_index inst < len objects.

Definition valid_level (backgrounds : list BackgroundResource.t)
    (objects : list GameObjectType.t) (lvl : Level.t) : Prop :=
  valid_ref backgrounds (Level.background_index lvl)
  /\ Forall (valid_instance objects) (Level.instances lvl).

Definition valid_object (sprites : list Sprite.t) (obj : GameObjectType.t) : Prop :=
  valid_ref sprites (GameObjectType.sprite_index obj).

Definition referential_integrity (s : GameMakerIDE.t) : Prop :=
  Forall (valid_object (GameMakerIDE.sprites s)) (GameMakerIDE.objects s)
  /\ Forall (valid_level (GameMakerIDE.backgrounds s) (GameMakerIDE.objects s))
       (GameMakerIDE.levels s).

#[global] Instance valid_ref_dec {A} (target : list A) (key : option Z) :
  Decision (valid_ref target key).
Proof. destruct key; simpl; apply _. Defined.

#[global] Instance valid_instance_dec objects inst : Decision (valid_instance objects inst).
Proof. unfold valid_instance. apply _. Defined.

#[global] Instance valid_level_dec backgrounds objects lvl :
  Decision (valid_level backgrounds objects lvl).
Proof. unfold valid_level. apply _. Defined.

#[global] Instance valid_object_dec sprites obj : Decision (valid_object sprites obj).
Proof. unfold valid_object. apply _. Defined.

#[global] Instance referential_integrity_dec s : Decision (referential_integrity s).
Proof. unfold referential_integrity. apply _. Defined.

(** The add, rename and delete buttons of the four resource lists,
    each with what its dialog answers, and the selection of a row,
    which decides the entry a rename or a delete works on. *)
Inductive action : Type :=
| AddBackground (dlg : option GameMakerIDE.background_values)
| RenameBackground (dlg : string * bool)
| DeleteBackground (confirm : bool)
| SelectBackground (row : Z)
| AddSprite (dlg : option GameMakerIDE.sprite_values)
| RenameSprite (dlg : string * bool)
| DeleteSprite (confirm : bool)
| SelectSprite (row : Z)
| AddObject (dlg : string * bool)
| RenameObject (dlg : string * bool)
| DeleteObject (confirm : bool)
| SelectObject (row : Z)
| AddLevel (dlg : string * bool)
| RenameLevel (dlg : string * bool)
| DeleteLevel (confirm : bool)
| SelectLevel (row : Z).

(** A button click calls its slot with [init = False]. *)
Definition perform (a : action) (s : GameMakerIDE.t) : GameMakerIDE.t :=
  match a with
  | AddBackground dlg => GameMakerIDE.add_background false dlg s
  | RenameBackground dlg => GameMakerIDE.rename_background dlg s
  | DeleteBackground confirm => GameMakerIDE.delete_background confirm s
  | SelectBackground row => GameMakerIDE.on_background_selected row s
  | AddSprite dlg => GameMakerIDE.add_sprite false dlg s
  | RenameSprite dlg => GameMakerIDE.rename_sprite dlg s
  | DeleteSprite confirm => GameMakerIDE.delete_sprite confirm s
  | SelectSprite row => GameMakerIDE.on_sprite_selected row s
  | AddObject dlg => GameMakerIDE.add_object false dlg s
  | RenameObject dlg => GameMakerIDE.rename_object dlg s
  | DeleteObject confirm => GameMakerIDE.delete_object confirm s
  | SelectObject row => GameMakerIDE.on_object_selected row s
  | AddLevel dlg => GameMakerIDE.add_level false dlg s
  | RenameLevel dlg => GameMakerIDE.rename_level dlg s
  | DeleteLevel confirm => GameMakerIDE.delete_level confirm s
  | SelectLevel row => GameMakerIDE.on_level_selected row s
  end.

(** The states observed after each action of a sequence. *)
Fixpoint trace (acts : list action) (s : GameMakerIDE.t) : list GameMakerIDE.t :=
  match acts with
  | [] => []
  | a :: rest => let s' := perform a s in s' :: trace rest s'
  end.

(** ** The scenario of the background delete

    An empty project; background "Sky" (colour mode, 200,200,255,255);
    level "L1", which [add_level] makes 640 by 360 on background 0;
    object type "Hero" without sprite; a left click at (32,32), which
    places an instance of the selected object type 0. *)
Definition scenario_setup (codec : bool -> bytes -> QPixmap) : result GameMakerIDE.t :=
  let s := GameMakerIDE.empty in
  let s :=
    GameMakerIDE.add_background false
      (Some ("Sky", "color", mkQColor 200 200 255 255, None, "PNG", true)%string) s in
  let s := GameMakerIDE.add_level false ("L1"%string, true) s in
  let s := GameMakerIDE.add_object false ("Hero"%string, true) s in
  mousePressEvent codec LeftButton 32 32 s.

(** Then: background 0 is selected and deleted. *)
Definition scenario (codec : bool -> bytes -> QPixmap) : result GameMakerIDE.t :=
  s ← scenario_setup codec;
  Ok (GameMakerIDE.delete_background true (GameMakerIDE.on_background_selected 0 s)).

(** ** What the canvas paints

    The loop over the instances in [GameCanvas.paintEvent], for one
    instance: the pixmap drawn at the position of the instance, if any.
    [QPixmap.isNull] holds of a pixmap without extent. *)
Definition isNull (pix : QPixmap) : bool :=
  (pix_width pix <=? 0) || (pix_height pix <=? 0).

Definition paint_instance (codec : bool -> bytes -> QPixmap)
    (inst : GameObjectInstance.t) (objects : list GameObjectType.t)
    (sprites : list Sprite.t) : result (option (Z * Z * QPixmap)) :=
  let obj_idx := GameObjectInstance.object_index inst in
  if obj_idx >=? len objects then Ok None
  else
    obj ← getitem objects obj_idx;
    match GameObjectType.sprite_index obj with
    | Some si =>
        if in_range si sprites then
          sprite ← getitem sprites si;
          let pix := Sprite_pixmap codec sprite in
          if isNull pix then Ok None
          else Ok (Some (GameObjectInstance.x inst, GameObjectInstance.y inst, pix))
        else Ok None
    | None => Ok None
    end.

(** ** The hit rectangle, in the words of the specification

    An instance is hit at [(px, py)] when its object type has a sprite
    that resolves, and the point lies in the rectangle from the position
    of the instance to that position plus the size of the sprite's
    drawable, both edges included. *)
Definition resolves_sprite (objects : list GameObjectType.t) (sprites : list Sprite.t)
    (inst : GameObjectInstance.t) (sprite : Sprite.t) : Prop :=
  exists obj si,
    0 <= GameObjectInstance.object_index inst
    /\ objects !! Z.to_nat (GameObjectInstance.object_index inst) = Some obj
    /\ GameObjectType.sprite_index obj = Some si
    /\ 0 <= si
    /\ sprites !! Z.to_nat si = Some sprite.

Definition in_hit_rectangle (codec : bool -> bytes -> QPixmap)
    (objects : list GameObjectType.t) (sprites : list Sprite.t)
    (inst : GameObjectInstance.t) (px py : Z) : Prop :=
  exists sprite,
    resolves_sprite objects sprites inst sprite
    /\ GameObjectInstance.x inst <= px
        <= GameObjectInstance.x inst + pix_width (Sprite_pixmap codec sprite)
    /\ GameObjectInstance.y inst <= py
        <= GameObjectInstance.y inst + pix_height (Sprite_pixmap codec sprite).

(** No object type counts its sprite from the end of the list. *)
Definition no_negative_sprite_index (objects : list GameObjectType.t) : Prop :=
  Forall (fun obj => forall si, GameObjectType.sprite_index obj = Some si -> 0 <= si)
    objects.

(** ** Documents used as examples *)

(** A codec for the examples: every image decodes to 16 by 16. *)
Definition codec16 : bool -> bytes -> QPixmap := fun _ _ => mkQPixmap 16 16.

(** One sprite without image, one object type whose [sprite_index] is
    -1, one level with one instance of it at the origin. *)
Definition negative_sprite_sprites : list Sprite.t :=
  [Sprite.new "Sprite 1" None "PNG"].

Definition negative_sprite_objects : list GameObjectType.t :=
  [GameObjectType.mk "Object 1" (Some (-1))].

Definition negative_sprite_level : Level.t :=
  Level.mk "Level 1" 640 360 None [GameObjectInstance.mk 0 0 0].

(** The file of the same document. *)
Definition negative_sprite_file : json :=
  JObj [("backgrounds", JList []);
        ("sprites",
         JList [JObj [("name", JStr "Sprite 1"); ("img_bytes", JNull);
                      ("img_format", JStr "PNG")]]);
        ("objects",
         JList [JObj [("name", JStr "Object 1"); ("sprite_index", JInt (-1))]]);
        ("levels",
         JList [JObj [("name", JStr "Level 1"); ("width", JInt 640);
                      ("height", JInt 360); ("background_index", JNull);
                      ("instances",
                       JList [JObj [("x", JInt 0); ("y", JInt 0);
                                    ("object_index", JInt 0)]])]]);
        ("selected_level_index", JInt 0);
        ("selected_object_index", JInt 0);
        ("selected_background_index", JNull)]%string.

(** A project file with one object type, one level and no background,
    whose stored selection is object 5 and background 3. *)
Definition stale_selection_file : json :=
  JObj [("backgrounds", JList []);
        ("sprites", JList []);
        ("objects",
         JList [JObj [("name", JStr "Object 1"); ("sprite_index", JNull)]]);
        ("levels",
         JList [JObj [("name", JStr "Level 1"); ("width", JInt 640);
                      ("height", JInt 360); ("background_index", JNull);
                      ("instances", JList [])]]);
        ("selected_level_index", JInt 0);
        ("selected_object_index", JInt 5);
        ("selected_background_index", JInt 3)]%string.

(** ** What a save followed by an open restores *)

(** An image payload the file can hold: [None], or bytes that are not
    empty ([to_dict] writes an empty payload as [null]). *)
Definition storable_image (img : option bytes) : Prop := img <> Some [].

(** The flag [_is_gif] is not in the file; a load computes it anew.  It
    is restored when it is the flag of the current name and format,
    which a rename to or from a name in ".gif" can undo. *)
Definition storable_sprite (sp : Sprite.t) : Prop :=
  storable_image (Sprite.img_bytes sp)
  /\ Sprite._is_gif sp = gif_flag (Sprite.img_format sp) (Sprite.name sp).

(** A [QColor] has its channels between 0 and 255. *)
Definition storable_background (bg : BackgroundResource.t) : Prop :=
  storable_image (BackgroundResource.img_bytes bg)
  /\ valid_color (BackgroundResource.color bg) = true
  /\ BackgroundResource._is_gif bg
     = gif_flag (BackgroundResource.img_format bg) (BackgroundResource.name bg).

Definition storable_level (objects : list GameObjectType.t) (lvl : Level.t) : Prop :=
  Forall (valid_instance objects) (Level.instances lvl).

Definition storable (doc : GameMakerIDE.t) : Prop :=
  Forall storable_sprite (GameMakerIDE.sprites doc)
  /\ Forall storable_background (GameMakerIDE.backgrounds doc)
  /\ Forall (storable_level (GameMakerIDE.objects doc)) (GameMakerIDE.levels doc).

(** The window after [doc] was saved and the file opened in a window
    that was in state [prev]: the collections of [doc], its three saved
    selections with [None] replaced by 0 where the collection has
    entries, and what the file does not hold left as in [prev]. *)
Definition restored (doc prev : GameMakerIDE.t) : GameMakerIDE.t :=
  GameMakerIDE.mk (GameMakerIDE.sprites doc) (GameMakerIDE.objects doc)
    (GameMakerIDE.levels doc) (GameMakerIDE.backgrounds doc)
    (GameMakerIDE.selected_sprite_index prev)
    (redefault (GameMakerIDE.objects doc) (GameMakerIDE.selected_object_index doc))
    (redefault (GameMakerIDE.levels doc) (GameMakerIDE.selected_level_index doc))
    (redefault (GameMakerIDE.backgrounds doc) (GameMakerIDE.selected_background_index doc))
    (GameMakerIDE.canvas prev).

(** The sprite a save and a load make of a sprite, if the load
    succeeds. *)
Definition reloaded_sprite (sp : Sprite.t) : option Sprite.t :=
  match Sprite_from_dict (Sprite_to_dict sp) with
  | Ok sp' => Some sp'
  | Raise _ => None
  end.

(** The default project with one instance placed by a left click. *)
Definition default_with_instance : GameMakerIDE.t :=
  match mousePressEvent codec16 LeftButton 40 40 GameMakerIDE.init with
  | Ok s => s
  | Raise _ => GameMakerIDE.init
  end.

(** A sprite whose image is the empty byte string. *)
Definition empty_image_sprite : Sprite.t := Sprite.new "blank.png" (Some []) "PNG".

(** A sprite built as a still image and then renamed to a name in
    ".gif". *)
Definition renamed_sprite : Sprite.t :=
  Sprite.set_name "spin.gif" (Sprite.new "spin.png" (Some ["G"%byte]) "PNG").

(** A level that holds an instance of an object type 5. *)
Definition orphan_level : Level.t :=
  Level.mk "L1" 640 360 None [GameObjectInstance.mk 0 0 5].

(** ** What a failed open leaves behind *)

(** The entries built from the items of a list up to the first item
    that cannot be built. *)
Fixpoint built_prefix {A} (build : json -> result A) (items : list json) : list A :=
  match items with
  | [] => []
  | item :: rest =>
      match build item with
      | Ok a => a :: built_prefix build rest
      | Raise _ => []
      end
  end.

(** The backgrounds a file yields, however far the load gets. *)
Definition loaded_backgrounds (data : json) : list BackgroundResource.t :=
  match subscript data "backgrounds" ≫= iterate with
  | Ok items => built_prefix BackgroundResource_from_dict items
  | Raise _ => []
  end.

(** A step leaves a part of the state alone. *)
Definition keeps {X} (part : GameMakerIDE.t -> X) (st : step) : Prop :=
  forall s, part (fst (st s)) = part s.

(** A project file that ends after its backgrounds. *)
Definition truncated_file : json := JObj [("backgrounds"%string, JList [])].

(** A project with two sprites [A] and [B], two object types (the
    first on sprite [B], the second without sprite), two backgrounds and
    one level on the second background with an instance of each object
    type; the first row of every list is selected. *)
Definition example_doc : GameMakerIDE.t :=
  GameMakerIDE.mk
    [Sprite.new "A" None "PNG"; Sprite.new "B" None "PNG"]
    [GameObjectType.mk "Hero" (Some 1); GameObjectType.mk "Wall" None]
    [Level.mk "L1" 640 360 (Some 1)
       [GameObjectInstance.mk 0 0 0; GameObjectInstance.mk 32 0 1]]
    [BackgroundResource.new "Sky" "color" None None "PNG" true;
     BackgroundResource.new "Night" "color" (Some (mkQColor 0 0 32 255)) None "PNG" true]
    (Some 0) (Some 0) (Some 0) (Some 0) GameCanvas.new.

(** * More of the code

    The rest of the editor that the model can follow: the object
    dialog, the grid menu, the painting of the canvas, the text of the
    size dialog, and the playback program [runner_03.py]. *)

(** ** The object dialog *)

(** [l.index(val)]; [None] is [ValueError]. *)
Fixpoint list_index (val : string) (l : list string) : option Z :=
  match l with
  | [] => None
  | a :: rest =>
      if String.eqb a val then Some 0 else Z.succ <$> list_index val rest
  end.

(** The items of the combo box: ["None"] and the names of the sprites. *)
Definition sprite_choices (s : GameMakerIDE.t) : list string :=
  "None"%string :: (Sprite.name <$> GameMakerIDE.sprites s).

(** [GameMakerIDE.edit_object].  [dlg] is the text of the combo box when
    the dialog is accepted.  The text the dialog starts with is looked up
    before the dialog opens, and that lookup can raise. *)
Definition edit_object (dlg : option string) (s : GameMakerIDE.t)
  : result GameMakerIDE.t :=
  match selected_in (GameMakerIDE.selected_object_index s) (GameMakerIDE.objects s) with
  | Some idx =>
      obj ← getitem (GameMakerIDE.objects s) idx;
      let choices := sprite_choices s in
      _ ← match GameObjectType.sprite_index obj with
          | Some si => getitem choices (si + 1)
          | None => getitem choices 0
          end;
      match dlg with
      | Some val =>
          match list_index val choices with
          | Some i =>
              let idx_val := i - 1 in
              let sprite_index := if idx_val >=? 0 then Some idx_val else None in
              Ok (GameMakerIDE.set_objects
                    (setitem (GameMakerIDE.objects s) idx
                       (GameObjectType.set_sprite_index sprite_index)) s)
          | None => Raise ValueError
          end
      | None => Ok s
      end
  | None => Ok s
  end.

(** ** The grid menu *)

(** [str.isdigit] on the code points below 128. *)
Fixpoint all_digits (s : string) : bool :=
  match s with
  | EmptyString => true
  | String c s' => is_digit c && all_digits s'
  end.

Definition isdigit (s : string) : bool :=
  negb (String.eqb s EmptyString) && all_digits s.

(** The sizes the grid dialog offers. *)
Definition grid_sizes : list string := ["8"; "16"; "32"; "64"; "128"]%string.

(** [GameMakerIDE.set_grid_size]; [dlg] is the pair [(new_size, ok)] of
    [QInputDialog.getItem]. *)
Definition set_grid_size (dlg : string * bool) (s : GameMakerIDE.t)
  : result GameMakerIDE.t :=
  let '(new_size, ok) := dlg in
  if ok && isdigit new_size then
    match py_int new_size with
    | Some n =>
        let cv := GameMakerIDE.canvas s in
        Ok (GameMakerIDE.set_canvas
              (GameCanvas.mk (GameCanvas.dragged_instance cv) (GameCanvas.drag_offset cv)
                 n (GameCanvas.show_grid cv)) s)
    | None => Raise ValueError
    end
  else Ok s.

(** [GameMakerIDE.toggle_grid] with the state of the menu entry. *)
Definition toggle_grid (checked : bool) (s : GameMakerIDE.t) : GameMakerIDE.t :=
  let cv := GameMakerIDE.canvas s in
  GameMakerIDE.set_canvas
    (GameCanvas.mk (GameCanvas.dragged_instance cv) (GameCanvas.drag_offset cv)
       (GameCanvas.grid_size cv) checked) s.

(** ** A session at the editor

    What the user can do to the document short of opening a file: the
    buttons of the lists, the mouse on the canvas, the object dialog, the
    size and background dialogs of the level, the grid menu. *)
Inductive ui_event : Type :=
| Button (a : action)
| MousePress (button : MouseButton) (x y : Z)
| EditObject (dlg : option string)
| LevelSize (dlg : option string)
| LevelBackground (dlg : Z * bool)
| GridSize (dlg : string * bool)
| ToggleGrid (checked : bool).

Definition handle (codec : bool -> bytes -> QPixmap) (ev : ui_event)
    (s : GameMakerIDE.t) : result GameMakerIDE.t :=
  match ev with
  | Button a => Ok (perform a s)
  | MousePress button x y => mousePressEvent codec button x y s
  | EditObject dlg => edit_object dlg s
  | LevelSize dlg => Ok (fst (GameMakerIDE.set_level_screen_size dlg s))
  | LevelBackground dlg => Ok (fst (GameMakerIDE.set_level_background dlg s))
  | GridSize dlg => set_grid_size dlg s
  | ToggleGrid checked => Ok (toggle_grid checked s)
  end.

(** The states after each event, up to the first exception. *)
Fixpoint session (codec : bool -> bytes -> QPixmap) (evs : list ui_event)
    (s : GameMakerIDE.t) : result (list GameMakerIDE.t) :=
  match evs with
  | [] => Ok []
  | ev :: rest =>
      s' ← handle codec ev s;
      states ← session codec rest s';
      Ok (s' :: states)
  end.

(** What the widgets see to: a clicked row is a row of its list, the
    combo boxes return one of their items, the spin box of the level
    background stays between 0 and the last background. *)
Definition offered (ev : ui_event) (s : GameMakerIDE.t) : Prop :=
  match ev with
  | Button (SelectBackground row) => 0 <= row < len (GameMakerIDE.backgrounds s)
  | Button (SelectSprite row) => 0 <= row < len (GameMakerIDE.sprites s)
  | Button (SelectObject row) => 0 <= row < len (GameMakerIDE.objects s)
  | Button (SelectLevel row) => 0 <= row < len (GameMakerIDE.levels s)
  | EditObject (Some val) => val ∈ sprite_choices s
  | LevelBackground (idx, _) => 0 <= idx < len (GameMakerIDE.backgrounds s)
  | GridSize (new_size, _) => new_size ∈ grid_sizes
  | _ => True
  end.

(** Every event of a session is one the widgets offer in the state it
    meets. *)
Fixpoint offered_session (codec : bool -> bytes -> QPixmap) (evs : list ui_event)
    (s : GameMakerIDE.t) : Prop :=
  match evs with
  | [] => True
  | ev :: rest =>
      offered ev s
      /\ match handle codec ev s with
         | Ok s' => offered_session codec rest s'
         | Raise _ => True
         end
  end.

(** What the editor keeps true of its state: the foreign keys are valid,
    the selected object type (which a click places) exists, the grid size
    is positive. *)
Definition editor_invariant (s : GameMakerIDE.t) : Prop :=
  referential_integrity s
  /\ valid_ref (GameMakerIDE.objects s) (GameMakerIDE.selected_object_index s)
  /\ 0 < GameCanvas.grid_size (GameMakerIDE.canvas s).

(** ** Painting the canvas *)

(** [range(start, stop, step)] as the list it runs through; a step of 0
    raises [ValueError]. *)
Definition py_range (start stop step : Z) : result (list Z) :=
  if step =? 0 then Raise ValueError
  else
    let n :=
      if 0 <? step then (stop - start + step - 1) / step
      else (start - stop - step - 1) / (- step) in
    Ok ((fun k => start + Z.of_nat k * step) <$> seq 0 (Z.to_nat n)).

(** What [paintEvent] fills a rectangle with. *)
Inductive brush : Type :=
| Colour (c : QColor)
| White.

(** The calls [paintEvent] makes on its painter. *)
Inductive draw_op : Type :=
| FillRect (x y w h : Z) (b : brush)
| DrawLine (x1 y1 x2 y2 : Z)
| DrawPixmap (x y : Z) (pix : QPixmap).

(** [BackgroundResource.pixmap].  The movie or the pixmap was prepared
    in [__init__] if the mode was ["image"] and there were bytes; the
    codec gives what [pixmap] hands out for the prepared image. *)
Definition Background_pixmap (codec : bool -> bytes -> QPixmap)
    (bg : BackgroundResource.t) : QPixmap :=
  if String.eqb (BackgroundResource.mode bg) "color" then mkQPixmap 60 30
  else
    match BackgroundResource.img_bytes bg with
    | Some (b :: bs) =>
        if String.eqb (BackgroundResource.mode bg) "image" then
          codec (BackgroundResource._is_gif bg) (b :: bs)
        else mkQPixmap 60 30
    | Some [] | None => mkQPixmap 60 30
    end.

(** [pix.scaled(w, h, Qt.IgnoreAspectRatio)]: a pixmap of that size, the
    null pixmap when a side is not positive. *)
Definition scaled (pix : QPixmap) (w h : Z) : QPixmap :=
  if (w <=? 0) || (h <=? 0) then mkQPixmap 0 0 else mkQPixmap w h.

(** The two nested loops that tile the background; the inner [range]
    is only built when the outer one yields a column. *)
Definition tiles (pix : QPixmap) (width height : Z) : result (list draw_op) :=
  match py_range 0 width (pix_width pix) with
  | Raise e => Raise e
  | Ok [] => Ok []
  | Ok xs =>
      ys ← py_range 0 height (pix_height pix);
      Ok (concat (map (fun x => map (fun y => DrawPixmap x y pix) ys) xs))
  end.

(** The first part of [paintEvent]: the background of the level. *)
Definition paint_background (codec : bool -> bytes -> QPixmap) (level : Level.t)
    (backgrounds : list BackgroundResource.t) : result (list draw_op) :=
  let width := Level.width level in
  let height := Level.height level in
  match selected_in (Level.background_index level) backgrounds with
  | Some bg_idx =>
      bg ← getitem backgrounds bg_idx;
      if String.eqb (BackgroundResource.mode bg) "color" then
        Ok [FillRect 0 0 width height (Colour (BackgroundResource.color bg))]
      else if String.eqb (BackgroundResource.mode bg) "image" then
        match BackgroundResource.img_bytes bg with
        | Some (_ :: _) =>
            let pix := Background_pixmap codec bg in
            if isNull pix then Ok []
            else if BackgroundResource.tiled bg then tiles pix width height
            else Ok [DrawPixmap 0 0 (scaled pix width height)]
        | Some [] | None => Ok []
        end
      else Ok []
  | None => Ok [FillRect 0 0 width height White]
  end.

(** The second part: the grid. *)
Definition paint_grid (cv : GameCanvas.t) (level : Level.t) : result (list draw_op) :=
  if GameCanvas.show_grid cv then
    xs ← py_range 0 (Level.width level) (GameCanvas.grid_size cv);
    ys ← py_range 0 (Level.height level) (GameCanvas.grid_size cv);
    Ok (map (fun x => DrawLine x 0 x (Level.height level)) xs
        ++ map (fun y => DrawLine 0 y (Level.width level) y) ys)
  else Ok [].

(** The third part: the instances, in the order of the list. *)
Fixpoint paint_instances (codec : bool -> bytes -> QPixmap)
    (insts : list GameObjectInstance.t) (objects : list GameObjectType.t)
    (sprites : list Sprite.t) : result (list draw_op) :=
  match insts with
  | [] => Ok []
  | inst :: rest =>
      drawn ← paint_instance codec inst objects sprites;
      ops ← paint_instances codec rest objects sprites;
      Ok (match drawn with
          | Some (x, y, pix) => DrawPixmap x y pix :: ops
          | None => ops
          end)
  end.

(** [GameCanvas.paintEvent]: the draw calls of one repaint, or the
    exception that ends it. *)
Definition paintEvent (codec : bool -> bytes -> QPixmap) (s : GameMakerIDE.t)
  : result (list draw_op) :=
  match GameMakerIDE.get_current_level s with
  | Some level =>
      bg ← paint_background codec level (GameMakerIDE.backgrounds s);
      grid ← paint_grid (GameMakerIDE.canvas s) level;
      insts ← paint_instances codec (Level.instances level)
                 (GameMakerIDE.objects s) (GameMakerIDE.sprites s);
      Ok (bg ++ grid ++ insts)
  | None => Ok []
  end.

(** ** The playback program [runner_03.py]

    The script reads a project file, opens a window of the size of the
    first level, loads the sprites and then draws the first level sixty
    times a second until the window is closed.  Nothing the drawing
    reads is changed by it, so every pass of the loop draws the same;
    the model follows the script through its set-up and through one
    pass.  What pygame does inside a call is a parameter of the
    model. *)

(** How the script goes on after a step: with a value, with an exception
    of Python, or with an exception raised inside a call of pygame.  The
    script catches nothing, so either exception ends it. *)
Inductive run (A : Type) : Type :=
| Done (a : A)
| PyRaise (e : PyExc)
| PygameRaise.

Arguments Done {A} a.
Arguments PyRaise {A} e.
Arguments PygameRaise {A}.

#[global] Instance run_ret : MRet run := fun _ a => Done a.
#[global] Instance run_bind : MBind run := fun _ _ k r =>
  match r with
  | Done a => k a
  | PyRaise e => PyRaise e
  | PygameRaise => PygameRaise
  end.

Definition py {A} (r : result A) : run A :=
  match r with
  | Ok a => Done a
  | Raise e => PyRaise e
  end.

(** What Python takes as the index of a sequence: an int, or a bool as
    0 or 1. *)
Definition as_index (i : json) : option Z :=
  match i with
  | JInt n => Some n
  | JBool b => Some (if b then 1 else 0)
  | _ => None
  end.

(** [seq[i]] on a Python list. *)
Definition list_item {A} (l : list A) (i : json) : result A :=
  match as_index i with
  | Some n => getitem l n
  | None => Raise TypeError
  end.

(** [v[i]] on what a project file can hold.  A dict of the file has
    strings as keys; asked for another hashable key it raises a
    [KeyError] that is not of a string, which the model files under
    [OutsideFormat]. *)
Definition item (v i : json) : result json :=
  match v with
  | JList items => list_item items i
  | JStr s => list_item (chars s) i
  | JObj _ =>
      match i with
      | JStr k => subscript v k
      | JList _ | JObj _ => Raise TypeError
      | _ => Raise OutsideFormat
      end
  | _ => Raise TypeError
  end.

(** [project["levels"][0]] *)
Definition first_level (project : json) : result json :=
  levels ← subscript project "levels";
  item levels (JInt 0).

Section Runner.
(** A [pygame.Surface]. *)
Variable Surface : Type.
(** [pygame.Surface((40,40))] *)
Variable Surface_40 : Surface.
(** [pygame.image.load(io.BytesIO(b))]: the surface, or [None] where
    pygame raises. *)
Variable image_load : bytes -> option Surface.
(** Whether [pygame.display.set_mode((w, h))] returns. *)
Variable set_mode : json -> json -> bool.
(** Whether [screen.blit(surface, (x, y))] returns. *)
Variable blit : Surface -> json -> json -> bool.

(** [load_image] *)
Definition load_image (sprite : json) : run Surface :=
  v ← py (subscript sprite "img_bytes");
  img_bytes ← py (if truthy v then
                    match v with
                    | JStr s => data ← b64decode s; Ok (Some data)
                    | _ => Raise TypeError
                    end
                  else Ok None);
  match img_bytes with
  | Some (b :: bs) =>
      match image_load (b :: bs) with
      | Some surface => Done surface
      | None => PygameRaise
      end
  | Some [] | None => Done Surface_40
  end.

(** [[load_image(s) for s in ...]] *)
Fixpoint load_images (infos : list json) : run (list Surface) :=
  match infos with
  | [] => Done []
  | info :: rest =>
      surface ← load_image info;
      surfaces ← load_images rest;
      Done (surface :: surfaces)
  end.

(** The script up to its loop: the sprites as surfaces and the level
    that is drawn. *)
Definition setup (project : json) : run (list Surface * json) :=
  WIDTH ← py (level ← first_level project; subscript level "width");
  HEIGHT ← py (level ← first_level project; subscript level "height");
  if set_mode WIDTH HEIGHT then
    infos ← py (subscript project "sprites" ≫= iterate);
    sprites ← load_images infos;
    level ← py (first_level project);
    Done (sprites, level)
  else PygameRaise.

(** The body of the [for] of the drawing loop: the blit it makes, if
    any. *)
Definition blit_instance (project : json) (sprites : list Surface) (inst : json)
  : run (option (Surface * json * json)) :=
  objects ← py (subscript project "objects");
  object_index ← py (subscript inst "object_index");
  obj ← py (item objects object_index);
  sprite_index ← py (subscript obj "sprite_index");
  match sprite_index with
  | JNull => Done None
  | _ =>
      surface ← py (list_item sprites sprite_index);
      x ← py (subscript inst "x");
      y ← py (subscript inst "y");
      if blit surface x y then Done (Some (surface, x, y)) else PygameRaise
  end.

Fixpoint blit_instances (project : json) (sprites : list Surface) (insts : list json)
  : run (list (Surface * json * json)) :=
  match insts with
  | [] => Done []
  | inst :: rest =>
      drawn ← blit_instance project sprites inst;
      blits ← blit_instances project sprites rest;
      Done (match drawn with
            | Some b => b :: blits
            | None => blits
            end)
  end.

(** One pass of the drawing loop: the blits on the white screen, in
    their order. *)
Definition frame (project : json) (sprites : list Surface) (level : json)
  : run (list (Surface * json * json)) :=
  insts ← py (subscript level "instances" ≫= iterate);
  blit_instances project sprites insts.

(** The surface the script makes of a sprite of the editor, if pygame
    loads its image. *)
Definition surface_of (sp : Sprite.t) : option Surface :=
  match Sprite.img_bytes sp with
  | Some (b :: bs) => image_load (b :: bs)
  | Some [] | None => Some Surface_40
  end.

(** What the editor's document has the script draw for an instance. *)
Definition expected_blit (doc : GameMakerIDE.t) (surfaces : list Surface)
    (inst : GameObjectInstance.t) : option (Surface * json * json) :=
  obj ← GameMakerIDE.objects doc !! Z.to_nat (GameObjectInstance.object_index inst);
  si ← GameObjectType.sprite_index obj;
  surface ← surfaces !! Z.to_nat si;
  Some (surface, JInt (GameObjectInstance.x inst), JInt (GameObjectInstance.y inst)).
End Runner.

(** ** More examples *)

(** A level of 100 by 50 on a tiled image background. *)
Definition tiled_backgrounds : list BackgroundResource.t :=
  [BackgroundResource.new "bricks.png" "image" None (Some ["x"%byte]) "PNG" true].

Definition tiled_level : Level.t := Level.mk "Wall" 100 50 (Some 0) [].

(** A session at the editor from the project of [__init__]: place an
    instance, add an object type, put it on the sprite, halve the grid,
    remove the instance, delete the sprite, hide the grid. *)
Definition example_session : list ui_event :=
  [MousePress LeftButton 40 40;
   Button (AddObject ("Coin"%string, true));
   EditObject (Some "Sprite 1"%string);
   GridSize ("16"%string, true);
   MousePress RightButton 40 40;
   Button (SelectSprite 0);
   Button (DeleteSprite true);
   ToggleGrid false].

(** Stand-ins for pygame in the examples: a surface is the bytes it was
    loaded from, or [None] for the blank surface; every call returns. *)
Definition example_image_load : bytes -> option (option bytes) := fun b => Some (Some b).
Definition example_set_mode : json -> json -> bool := fun _ _ => true.
Definition example_blit : option bytes -> json -> json -> bool := fun _ _ _ => true.

(** ** The text the size dialog opens with *)

(** The character of a decimal digit. *)
Definition digit_char (d : Z) : ascii := ascii_of_nat (48 + Z.to_nat d).

(** The decimal digits of [n], written in front of [acc]. *)
Fixpoint str_digits (fuel : nat) (n : Z) (acc : string) : string :=
  match fuel with
  | O => acc
  | S fuel' =>
      let acc' := String (digit_char (n mod 10)) acc in
      if n <? 10 then acc' else str_digits fuel' (n / 10) acc'
  end.

(** [str(n)] for an [int]; a number has no more decimal than binary
    digits. *)
Definition py_str (n : Z) : string :=
  if n <? 0 then
    String "-" (str_digits (S (Z.to_nat (Z.log2 (- n)))) (- n) EmptyString)
  else str_digits (S (Z.to_nat (Z.log2 n))) n EmptyString.

(** [f"{w},{h}"] *)
Definition size_text (w h : Z) : string :=
  (py_str w ++ "," ++ py_str h)%string.

(** A blit of the playback program and a draw call of the editor that
    put their image at the same place. *)
Definition same_place {Surface : Type} (b : Surface * json * json) (op : draw_op) : Prop :=
  exists surface x y pix, b = (surface, JInt x, JInt y) /\ op = DrawPixmap x y pix.

(** * Properties *)

(** Arithmetic on the 6-bit groups of base64. *)
Ltac sextet := lia || (Z.div_mod_to_equations; lia).

(** Looks a key up in the dictionary that [save_project] builds. *)
Ltac read_key :=
  cbn [project_data subscript assoc String.eqb Ascii.eqb Bool.eqb
       mbind result_bind iterate].

(** ** Indexing *)

Lemma len_nonneg {A} (l : list A) : 0 <= len l.
Proof. unfold len. lia. Qed.

Lemma len_app {A} (l k : list A) : len (l ++ k) = len l + len k.
Proof. unfold len. rewrite length_app. lia. Qed.

Lemma len_fmap {A B} (f : A -> B) (l : list A) : len (f <$> l) = len l.
Proof. unfold len. by rewrite length_fmap. Qed.

Lemma in_range_spec {A} (i : Z) (l : list A) :
  in_range i l = true <-> 0 <= i < len l.
Proof. unfold in_range. rewrite andb_true_iff, Z.leb_le, Z.ltb_lt. tauto. Qed.

Lemma selected_in_Some {A} (idx : option Z) (l : list A) (k : Z) :
  selected_in idx l = Some k <-> idx = Some k /\ 0 <= k < len l.
Proof.
  unfold selected_in. destruct idx as [i|]; [|split; [done|intros [? _]; done]].
  destruct (in_range i l) eqn:E.
  - apply in_range_spec in E. split; [intros [= <-]; auto|intros [[= <-] _]; auto].
  - split; [done|]. intros [[= ->] H]. apply in_range_spec in H. congruence.
Qed.

Lemma len_del {A} (l : list A) (k : Z) :
  0 <= k < len l -> len (del l k) = len l - 1.
Proof.
  intros H. unfold del, len in *. rewrite length_delete.
  - lia.
  - apply lookup_lt_is_Some. lia.
Qed.

Lemma len_setitem {A} (l : list A) (k : Z) (f : A -> A) :
  len (setitem l k f) = len l.
Proof. unfold setitem, len. by rewrite length_alter. Qed.

(** ** The cascades of a delete *)

Lemma del_take_drop {A} (l : list A) (k : Z) :
  0 <= k -> del l k = take (Z.to_nat k) l ++ drop (S (Z.to_nat k)) l.
Proof. intros _. unfold del. apply delete_take_drop. Qed.

Lemma delete_sprite_unfold (s : GameMakerIDE.t) (k : Z) :
  GameMakerIDE.selected_sprite_index s = Some k ->
  0 <= k < len (GameMakerIDE.sprites s) ->
  GameMakerIDE.delete_sprite true s =
  GameMakerIDE.mk (del (GameMakerIDE.sprites s) k)
    (GameMakerIDE.cascade_sprite k <$> GameMakerIDE.objects s)
    (GameMakerIDE.levels s) (GameMakerIDE.backgrounds s) None
    (GameMakerIDE.selected_object_index s) (GameMakerIDE.selected_level_index s)
    (GameMakerIDE.selected_background_index s) (GameMakerIDE.canvas s).
Proof.
  intros Hsel Hk. unfold GameMakerIDE.delete_sprite.
  assert (selected_in (GameMakerIDE.selected_sprite_index s) (GameMakerIDE.sprites s)
          = Some k) as -> by (apply selected_in_Some; auto).
  reflexivity.
Qed.

Lemma delete_background_unfold (s : GameMakerIDE.t) (k : Z) :
  GameMakerIDE.selected_background_index s = Some k ->
  0 <= k < len (GameMakerIDE.backgrounds s) ->
  GameMakerIDE.delete_background true s =
  GameMakerIDE.mk (GameMakerIDE.sprites s) (GameMakerIDE.objects s)
    (GameMakerIDE.cascade_background k <$> GameMakerIDE.levels s)
    (del (GameMakerIDE.backgrounds s) k)
    (GameMakerIDE.selected_sprite_index s)
    (GameMakerIDE.selected_object_index s) (GameMakerIDE.selected_level_index s)
    None (GameMakerIDE.canvas s).
Proof.
  intros Hsel Hk. unfold GameMakerIDE.delete_background.
  assert (selected_in (GameMakerIDE.selected_background_index s)
            (GameMakerIDE.backgrounds s) = Some k) as ->
    by (apply selected_in_Some; auto).
  reflexivity.
Qed.

Lemma delete_object_unfold (s : GameMakerIDE.t) (k : Z) :
  GameMakerIDE.selected_object_index s = Some k ->
  0 <= k < len (GameMakerIDE.objects s) ->
  GameMakerIDE.delete_object true s =
  GameMakerIDE.mk (GameMakerIDE.sprites s) (del (GameMakerIDE.objects s) k)
    (GameMakerIDE.cascade_object k <$> GameMakerIDE.levels s)
    (GameMakerIDE.backgrounds s)
    (GameMakerIDE.selected_sprite_index s) None
    (GameMakerIDE.selected_level_index s)
    (GameMakerIDE.selected_background_index s) (GameMakerIDE.canvas s).
Proof.
  intros Hsel Hk. unfold GameMakerIDE.delete_object.
  assert (selected_in (GameMakerIDE.selected_object_index s)
            (GameMakerIDE.objects s) = Some k) as ->
    by (apply selected_in_Some; auto).
  reflexivity.
Qed.

Lemma cascade_sprite_cases (k : Z) (obj : GameObjectType.t) :
  GameObjectType.name (GameMakerIDE.cascade_sprite k obj) = GameObjectType.name obj
  /\ (GameObjectType.sprite_index obj = Some k ->
      GameObjectType.sprite_index (GameMakerIDE.cascade_sprite k obj) = None)
  /\ (forall j, GameObjectType.sprite_index obj = Some j -> k < j ->
      GameObjectType.sprite_index (GameMakerIDE.cascade_sprite k obj) = Some (j - 1))
  /\ (GameObjectType.sprite_index obj = None
      \/ (exists j, GameObjectType.sprite_index obj = Some j /\ j < k) ->
      GameMakerIDE.cascade_sprite k obj = obj).
Proof.
  unfold GameMakerIDE.cascade_sprite.
  destruct (GameObjectType.sprite_index obj) as [i|] eqn:Hi;
    [destruct (Z.eqb_spec i k); [|destruct (Z.gtb_spec i k)]|];
    split_and!; intros; simplify_eq/=; try done; try lia.
  all: match goal with H : _ \/ _ |- _ => destruct H as [?|(j & ? & ?)] end; simplify_eq; lia.
Qed.

(** C2. Deleting the sprite at a valid index [k] (the selected row,
    the question answered with Yes) removes that sprite, keeps the
    object types in place and rewrites their [sprite_index]: equal to
    [k] becomes [None], greater than [k] is decremented by one, anything
    else ([None] or smaller than [k]) is left as it is. *)
Theorem delete_sprite_cascade (s : GameMakerIDE.t) (k : Z) :
  GameMakerIDE.selected_sprite_index s = Some k ->
  0 <= k < len (GameMakerIDE.sprites s) ->
  let s' := GameMakerIDE.delete_sprite true s in
  GameMakerIDE.sprites s'
    = take (Z.to_nat k) (GameMakerIDE.sprites s)
      ++ drop (S (Z.to_nat k)) (GameMakerIDE.sprites s)
  /\ length (GameMakerIDE.objects s') = length (GameMakerIDE.objects s)
  /\ forall (i : nat) (obj : GameObjectType.t),
       GameMakerIDE.objects s !! i = Some obj ->
       exists obj',
         GameMakerIDE.objects s' !! i = Some obj'
         /\ GameObjectType.name obj' = GameObjectType.name obj
         /\ (GameObjectType.sprite_index obj = Some k ->
             GameObjectType.sprite_index obj' = None)
         /\ (forall j, GameObjectType.sprite_index obj = Some j -> k < j ->
             GameObjectType.sprite_index obj' = Some (j - 1))
         /\ (GameObjectType.sprite_index obj = None
             \/ (exists j, GameObjectType.sprite_index obj = Some j /\ j < k) ->
             GameObjectType.sprite_index obj' = GameObjectType.sprite_index obj).
Proof.
  intros Hsel Hk s'. subst s'. rewrite (delete_sprite_unfold s k Hsel Hk). simpl.
  split; [apply del_take_drop; lia|].
  split; [apply length_fmap|].
  intros i obj Hi. exists (GameMakerIDE.cascade_sprite k obj).
  rewrite list_lookup_fmap, Hi. simpl.
  destruct (cascade_sprite_cases k obj) as (Hn & Heq & Hgt & Hother).
  repeat split; auto. intros H. by rewrite Hother.
Qed.

Lemma cascade_background_cases (k : Z) (lvl : Level.t) :
  Level.name (GameMakerIDE.cascade_background k lvl) = Level.name lvl
  /\ Level.width (GameMakerIDE.cascade_background k lvl) = Level.width lvl
  /\ Level.height (GameMakerIDE.cascade_background k lvl) = Level.height lvl
  /\ Level.instances (GameMakerIDE.cascade_background k lvl) = Level.instances lvl
  /\ (Level.background_index lvl = Some k ->
      Level.background_index (GameMakerIDE.cascade_background k lvl) = None)
  /\ (forall j, Level.background_index lvl = Some j -> k < j ->
      Level.background_index (GameMakerIDE.cascade_background k lvl) = Some (j - 1))
  /\ (Level.background_index lvl = None
      \/ (exists j, Level.background_index lvl = Some j /\ j < k) ->
      GameMakerIDE.cascade_background k lvl = lvl).
Proof.
  unfold GameMakerIDE.cascade_background.
  destruct (Level.background_index lvl) as [i|] eqn:Hi;
    [destruct (Z.eqb_spec i k); [|destruct (Z.gtb_spec i k)]|];
    split_and!; intros; simplify_eq/=; try done; try lia.
  all: match goal with H : _ \/ _ |- _ => destruct H as [?|(j & ? & ?)] end; simplify_eq; lia.
Qed.

(** The instances a level keeps when object type [k] is deleted, each
    paired with what it becomes. *)
Lemma cascade_object_instances (k : Z) (lvl : Level.t) :
  Forall2
    (fun old new =>
       GameObjectInstance.x new = GameObjectInstance.x old
       /\ GameObjectInstance.y new = GameObjectInstance.y old
       /\ (k < GameObjectInstance.object_index old ->
           GameObjectInstance.object_index new = GameObjectInstance.object_index old - 1)
       /\ (GameObjectInstance.object_index old < k -> new = old))
    (filter (fun inst => GameObjectInstance.object_index inst <> k) (Level.instances lvl))
    (Level.instances (GameMakerIDE.cascade_object k lvl)).
Proof.
  unfold GameMakerIDE.cascade_object. simpl.
  apply Forall2_fmap_r, Forall_Forall2_diag, Forall_forall.
  intros inst _. unfold compose, GameMakerIDE.shift_instance.
  destruct (Z.gtb_spec (GameObjectInstance.object_index inst) k);
    split_and!; intros; try reflexivity; simpl; lia.
Qed.

(** C3. Deleting the object type at a valid index [k] removes that
    object type and, in every level, drops the instances whose
    [object_index] is [k]; the instances that stay keep their order and
    position, with [object_index] decremented by one when it was greater
    than [k] and untouched when it was smaller.  The other fields of the
    levels do not change. *)
Theorem delete_object_cascade (s : GameMakerIDE.t) (k : Z) :
  GameMakerIDE.selected_object_index s = Some k ->
  0 <= k < len (GameMakerIDE.objects s) ->
  let s' := GameMakerIDE.delete_object true s in
  GameMakerIDE.objects s'
    = take (Z.to_nat k) (GameMakerIDE.objects s)
      ++ drop (S (Z.to_nat k)) (GameMakerIDE.objects s)
  /\ length (GameMakerIDE.levels s') = length (GameMakerIDE.levels s)
  /\ forall (i : nat) (lvl : Level.t),
       GameMakerIDE.levels s !! i = Some lvl ->
       exists lvl',
         GameMakerIDE.levels s' !! i = Some lvl'
         /\ Level.name lvl' = Level.name lvl
         /\ Level.width lvl' = Level.width lvl
         /\ Level.height lvl' = Level.height lvl
         /\ Level.background_index lvl' = Level.background_index lvl
         /\ Forall2
              (fun old new =>
                 GameObjectInstance.x new = GameObjectInstance.x old
                 /\ GameObjectInstance.y new = GameObjectInstance.y old
                 /\ (k < GameObjectInstance.object_index old ->
                     GameObjectInstance.object_index new
                     = GameObjectInstance.object_index old - 1)
                 /\ (GameObjectInstance.object_index old < k -> new = old))
              (filter (fun inst => GameObjectInstance.object_index inst <> k)
                 (Level.instances lvl))
              (Level.instances lvl').
Proof.
  intros Hsel Hk s'. subst s'. rewrite (delete_object_unfold s k Hsel Hk). simpl.
  split; [apply del_take_drop; lia|].
  split; [apply length_fmap|].
  intros i lvl Hi. exists (GameMakerIDE.cascade_object k lvl).
  rewrite list_lookup_fmap, Hi. simpl.
  split_and!; auto. apply cascade_object_instances.
Qed.

(** C4. Deleting the background at a valid index [k] removes that
    background and rewrites [background_index] of every level: equal to
    [k] becomes [None], greater than [k] is decremented by one, anything
    else is left as it is; the instance list of every level is what it
    was.  In the scenario (background "Sky", level "L1" on background 0,
    object type "Hero", one instance placed at (32,32)) the delete of
    background 0 leaves "L1" without background and with its one
    instance. *)
Theorem delete_background_cascade :
  (forall (s : GameMakerIDE.t) (k : Z),
     GameMakerIDE.selected_background_index s = Some k ->
     0 <= k < len (GameMakerIDE.backgrounds s) ->
     let s' := GameMakerIDE.delete_background true s in
     GameMakerIDE.backgrounds s'
       = take (Z.to_nat k) (GameMakerIDE.backgrounds s)
         ++ drop (S (Z.to_nat k)) (GameMakerIDE.backgrounds s)
     /\ length (GameMakerIDE.levels s') = length (GameMakerIDE.levels s)
     /\ forall (i : nat) (lvl : Level.t),
          GameMakerIDE.levels s !! i = Some lvl ->
          exists lvl',
            GameMakerIDE.levels s' !! i = Some lvl'
            /\ Level.instances lvl' = Level.instances lvl
            /\ (Level.background_index lvl = Some k ->
                Level.background_index lvl' = None)
            /\ (forall j, Level.background_index lvl = Some j -> k < j ->
                Level.background_index lvl' = Some (j - 1))
            /\ (Level.background_index lvl = None
                \/ (exists j, Level.background_index lvl = Some j /\ j < k) ->
                Level.background_index lvl' = Level.background_index lvl))
  /\ (forall codec,
       exists before after,
         scenario_setup codec = Ok before
         /\ scenario codec = Ok after
         /\ GameMakerIDE.levels before
            = [Level.mk "L1" 640 360 (Some 0) [GameObjectInstance.mk 32 32 0]]
         /\ GameMakerIDE.levels after
            = [Level.mk "L1" 640 360 None [GameObjectInstance.mk 32 32 0]]
         /\ GameMakerIDE.backgrounds after = []).
Proof.
  split.
  - intros s k Hsel Hk s'. subst s'.
    rewrite (delete_background_unfold s k Hsel Hk). simpl.
    split; [apply del_take_drop; lia|].
    split; [apply length_fmap|].
    intros i lvl Hi. exists (GameMakerIDE.cascade_background k lvl).
    rewrite list_lookup_fmap, Hi. simpl.
    destruct (cascade_background_cases k lvl) as (_ & _ & _ & Hin & Heq & Hgt & Hother).
    split_and!; auto. intros H. by rewrite Hother.
  - intros codec. eexists _, _. split_and!; reflexivity.
Qed.

(** C10. A delete that goes through (the selected row is an index of
    the collection and the question is answered with Yes) leaves the
    selection of that collection at [None], for backgrounds, sprites and
    object types alike. *)
Theorem delete_clears_selection (s : GameMakerIDE.t) (k : Z) :
  (selected_in (GameMakerIDE.selected_background_index s)
     (GameMakerIDE.backgrounds s) = Some k ->
   GameMakerIDE.selected_background_index (GameMakerIDE.delete_background true s) = None)
  /\ (selected_in (GameMakerIDE.selected_sprite_index s)
        (GameMakerIDE.sprites s) = Some k ->
      GameMakerIDE.selected_sprite_index (GameMakerIDE.delete_sprite true s) = None)
  /\ (selected_in (GameMakerIDE.selected_object_index s)
        (GameMakerIDE.objects s) = Some k ->
      GameMakerIDE.selected_object_index (GameMakerIDE.delete_object true s) = None).
Proof.
  split_and!; intros [Hsel Hk]%selected_in_Some.
  - by rewrite (delete_background_unfold s k Hsel Hk).
  - by rewrite (delete_sprite_unfold s k Hsel Hk).
  - by rewrite (delete_object_unfold s k Hsel Hk).
Qed.

(** ** Referential integrity is kept by every action *)

Lemma valid_ref_mono {A} (t t' : list A) (key : option Z) :
  len t <= len t' -> valid_ref t key -> valid_ref t' key.
Proof. destruct key; simpl; [lia|done]. Qed.

Lemma valid_level_mono b b' o o' (lvl : Level.t) :
  len b <= len b' -> len o <= len o' ->
  valid_level b o lvl -> valid_level b' o' lvl.
Proof.
  intros Hb Ho [H1 H2]. split; [by eapply valid_ref_mono|].
  eapply Forall_impl; [exact H2|]. unfold valid_instance. intros; simpl in *; lia.
Qed.

Lemma valid_objects_mono sp sp' (objs : list GameObjectType.t) :
  len sp <= len sp' -> Forall (valid_object sp) objs -> Forall (valid_object sp') objs.
Proof.
  intros H Hf. eapply Forall_impl; [exact Hf|].
  intros obj. unfold valid_object. by apply valid_ref_mono.
Qed.

Lemma valid_levels_mono b b' o o' (lvls : list Level.t) :
  len b <= len b' -> len o <= len o' ->
  Forall (valid_level b o) lvls -> Forall (valid_level b' o') lvls.
Proof.
  intros Hb Ho Hf. eapply Forall_impl; [exact Hf|].
  intros lvl. by apply valid_level_mono.
Qed.

Lemma Forall_setitem {A} (P : A -> Prop) (f : A -> A) (l : list A) (k : Z) :
  (forall a, P a -> P (f a)) -> Forall P l -> Forall P (setitem l k f).
Proof. intros Hf Hl. unfold setitem. apply Forall_alter; auto. Qed.

Lemma Forall_del {A} (P : A -> Prop) (l : list A) (k : Z) :
  Forall P l -> Forall P (del l k).
Proof. apply Forall_delete. Qed.

Lemma cascade_sprite_valid sp (k : Z) (obj : GameObjectType.t) :
  0 <= k < len sp ->
  valid_object sp obj -> valid_object (del sp k) (GameMakerIDE.cascade_sprite k obj).
Proof.
  intros Hk. unfold valid_object, GameMakerIDE.cascade_sprite.
  destruct (GameObjectType.sprite_index obj) as [i|] eqn:Hi; [|by rewrite Hi].
  simpl. intros Hv.
  destruct (Z.eqb_spec i k); [done|].
  destruct (Z.gtb_spec i k); simpl; rewrite ?Hi; simpl;
    rewrite (len_del sp k Hk); lia.
Qed.

Lemma cascade_background_valid b o (k : Z) (lvl : Level.t) :
  0 <= k < len b ->
  valid_level b o lvl -> valid_level (del b k) o (GameMakerIDE.cascade_background k lvl).
Proof.
  intros Hk [H1 H2]. unfold valid_level.
  destruct (cascade_background_cases k lvl) as (_ & _ & _ & -> & _). split; [|done].
  clear H2. revert H1. unfold GameMakerIDE.cascade_background.
  destruct (Level.background_index lvl) as [i|] eqn:Hi; [|by rewrite Hi].
  simpl. intros Hv.
  destruct (Z.eqb_spec i k); [done|].
  destruct (Z.gtb_spec i k); simpl; rewrite ?Hi; simpl;
    rewrite (len_del b k Hk); lia.
Qed.

Lemma cascade_object_valid b o (k : Z) (lvl : Level.t) :
  0 <= k < len o ->
  valid_level b o lvl -> valid_level b (del o k) (GameMakerIDE.cascade_object k lvl).
Proof.
  intros Hk [H1 H2]. split; [exact H1|].
  unfold GameMakerIDE.cascade_object. simpl.
  apply Forall_fmap, Forall_forall. intros inst [Hne Hin]%list_elem_of_filter.
  rewrite Forall_forall in H2. specialize (H2 inst Hin).
  unfold compose, valid_instance, GameMakerIDE.shift_instance in *.
  rewrite (len_del o k Hk).
  destruct (Z.gtb_spec (GameObjectInstance.object_index inst) k); simpl; lia.
Qed.

Lemma perform_keeps_integrity (a : action) (s : GameMakerIDE.t) :
  referential_integrity s -> referential_integrity (perform a s).
Proof.
  intros [Ho Hl]. destruct a; simpl.
  - (* add_background *)
    unfold GameMakerIDE.add_background.
    destruct dlg as [[[[[[name mode] color] img_bytes] img_format] tiled]|]; [|done].
    split; simpl; [done|].
    eapply valid_levels_mono; [| |exact Hl]; rewrite ?len_app; simpl; unfold len; simpl; lia.
  - (* rename_background *)
    unfold GameMakerIDE.rename_background.
    destruct (selected_in _ _); [|done]. destruct dlg as [name ok].
    destruct (ok && strip_nonempty name); [|done].
    split; simpl; [done|].
    eapply valid_levels_mono; [| |exact Hl]; rewrite ?len_setitem; lia.
  - (* delete_background *)
    unfold GameMakerIDE.delete_background.
    destruct (selected_in _ _) as [k|] eqn:Hk; [|done].
    apply selected_in_Some in Hk as [_ Hk]. destruct confirm; [|done].
    split; simpl; [done|].
    apply Forall_fmap. eapply Forall_impl; [exact Hl|].
    intros lvl. by apply cascade_background_valid.
  - (* on_background_selected *) done.
  - (* add_sprite *)
    unfold GameMakerIDE.add_sprite.
    destruct dlg as [[[name img_bytes] img_format]|]; [|done].
    split; simpl; [|done].
    eapply valid_objects_mono; [|exact Ho]. rewrite len_app. unfold len; simpl; lia.
  - (* rename_sprite *)
    unfold GameMakerIDE.rename_sprite.
    destruct (selected_in _ _); [|done]. destruct dlg as [name ok].
    destruct (ok && strip_nonempty name); [|done].
    split; simpl; [|done].
    eapply valid_objects_mono; [|exact Ho]. rewrite len_setitem. lia.
  - (* delete_sprite *)
    unfold GameMakerIDE.delete_sprite.
    destruct (selected_in _ _) as [k|] eqn:Hk; [|done].
    apply selected_in_Some in Hk as [_ Hk]. destruct confirm; [|done].
    split; simpl.
    + apply Forall_fmap. eapply Forall_impl; [exact Ho|].
      intros obj. by apply cascade_sprite_valid.
    + eapply valid_levels_mono; [| |exact Hl]; rewrite ?len_fmap; lia.
  - (* on_sprite_selected *) done.
  - (* add_object *)
    unfold GameMakerIDE.add_object. destruct dlg as [name ok].
    destruct (negb ok || negb (strip_nonempty name)); [done|].
    split; simpl.
    + apply Forall_app. split; [done|]. by repeat constructor.
    + eapply valid_levels_mono; [| |exact Hl]; rewrite ?len_app; unfold len; simpl; lia.
  - (* rename_object *)
    unfold GameMakerIDE.rename_object.
    destruct (selected_in _ _); [|done]. destruct dlg as [name ok].
    destruct (ok && strip_nonempty name); [|done].
    split; simpl.
    + by apply Forall_setitem.
    + eapply valid_levels_mono; [| |exact Hl]; rewrite ?len_setitem; lia.
  - (* delete_object *)
    unfold GameMakerIDE.delete_object.
    destruct (selected_in _ _) as [k|] eqn:Hk; [|done].
    apply selected_in_Some in Hk as [_ Hk]. destruct confirm; [|done].
    split; simpl.
    + by apply Forall_del.
    + apply Forall_fmap. eapply Forall_impl; [exact Hl|].
      intros lvl. by apply cascade_object_valid.
  - (* on_object_selected *) done.
  - (* add_level *)
    unfold GameMakerIDE.add_level. destruct dlg as [name ok].
    destruct (negb ok || negb (strip_nonempty name)); [done|].
    split; simpl; [done|].
    apply Forall_app. split; [done|]. constructor; [|done].
    split; simpl; [|done].
    destruct (GameMakerIDE.backgrounds s); simpl; [done|]. unfold len; simpl; lia.
  - (* rename_level *)
    unfold GameMakerIDE.rename_level.
    destruct (selected_in _ _); [|done]. destruct dlg as [name ok].
    destruct (ok && strip_nonempty name); [|done].
    split; simpl; [done|]. by apply Forall_setitem.
  - (* delete_level *)
    unfold GameMakerIDE.delete_level.
    destruct (selected_in _ _) as [k|]; [|done]. destruct confirm; [|done].
    simpl. assert (Forall (valid_level (GameMakerIDE.backgrounds s) (GameMakerIDE.objects s))
                     (del (GameMakerIDE.levels s) k)) as Hd by by apply Forall_del.
    destruct (del (GameMakerIDE.levels s) k); split; done.
  - (* on_level_selected *) done.
Qed.

(** The project that [__init__] builds is such a document. *)
Lemma init_integrity : referential_integrity GameMakerIDE.init.
Proof. apply (bool_decide_unpack _). vm_compute. exact I. Qed.

(** C1. From a document whose foreign keys are all [None] or valid,
    every state observed along a sequence of add, rename, delete and
    row-selection actions has all its foreign keys ([sprite_index] of the
    object types, [background_index] of the levels, [object_index] of the
    instances) [None] or valid. *)
Theorem integrity_after_each_action (acts : list action) (s : GameMakerIDE.t) :
  referential_integrity s -> Forall referential_integrity (trace acts s).
Proof.
  revert s. induction acts as [|a acts IH]; intros s Hs; simpl; constructor.
  - by apply perform_keeps_integrity.
  - by apply IH, perform_keeps_integrity.
Qed.

(** ** Rejected input: the size and the name dialogs *)

Lemma setitem_lookup {A} (l : list A) (k : Z) (f : A -> A) (a : A) :
  0 <= k -> l !! Z.to_nat k = Some a -> setitem l k f !! Z.to_nat k = Some (f a).
Proof. intros _ H. unfold setitem. by rewrite list_lookup_alter_eq, H. Qed.

Lemma current_level_lookup (s : GameMakerIDE.t) (idx : Z) :
  GameMakerIDE.current_level_index s = Some idx ->
  exists lvl, GameMakerIDE.levels s !! Z.to_nat idx = Some lvl /\ 0 <= idx.
Proof.
  unfold GameMakerIDE.current_level_index. intros [_ H]%selected_in_Some.
  destruct (lookup_lt_is_Some_2 (GameMakerIDE.levels s) (Z.to_nat idx)) as [lvl Hl].
  - unfold len in H. lia.
  - exists lvl. split; [done|lia].
Qed.


(** The blank names are those made of white space only. *)
Lemma strip_nonempty_false (name : string) :
  strip_nonempty name = false <-> all_space name = true.
Proof.
  induction name as [|c name IH]; simpl; [done|].
  destruct (is_space c); simpl; [exact IH|]. split; discriminate.
Qed.



(** ** The selection after a load *)

(** What the loader does with the selection: after a load that
    succeeds each of the three selections is the index stored in the
    file, or, when the file has none or [null], 0 if the collection has
    entries and [None] if it has not. *)
Lemma load_selection_result (data : json) (s s' : GameMakerIDE.t) :
  load_selection data s = (s', Ok ()) ->
  exists lvl obj bg,
    dict_get data "selected_level_index" ≫= as_opt_int = Ok lvl
    /\ dict_get data "selected_object_index" ≫= as_opt_int = Ok obj
    /\ dict_get data "selected_background_index" ≫= as_opt_int = Ok bg
    /\ GameMakerIDE.levels s' = GameMakerIDE.levels s
    /\ GameMakerIDE.objects s' = GameMakerIDE.objects s
    /\ GameMakerIDE.backgrounds s' = GameMakerIDE.backgrounds s
    /\ GameMakerIDE.selected_level_index s' = redefault (GameMakerIDE.levels s) lvl
    /\ GameMakerIDE.selected_object_index s' = redefault (GameMakerIDE.objects s) obj
    /\ GameMakerIDE.selected_background_index s'
       = redefault (GameMakerIDE.backgrounds s) bg.
Proof.
  unfold load_selection, and_then, assign_selection, settle_selection.
  destruct (dict_get data "selected_level_index" ≫= as_opt_int) as [lvl|]; [|done].
  destruct (dict_get data "selected_object_index" ≫= as_opt_int) as [obj|]; [|done].
  destruct (dict_get data "selected_background_index" ≫= as_opt_int) as [bg|]; [|done].
  intros [= <-]. exists lvl, obj, bg. by split_and!.
Qed.

(** C8 does not hold of the code.  The file [stale_selection_file]
    loads without error, and the stored selection of object 5 (of one)
    and of background 3 (of none) is kept as it is: neither is an index
    of its collection afterwards.  A left click on the canvas then places
    an instance of object type 5, which breaks referential integrity, and
    the next click raises [IndexError] in [contains_point]. *)
Theorem open_project_keeps_stale_selection :
  let r := open_project (Parsed stale_selection_file) GameMakerIDE.init in
  let s := fst r in
  snd r = Information "Open" "Project opened successfully!"
  /\ length (GameMakerIDE.objects s) = 1%nat
  /\ GameMakerIDE.selected_object_index s = Some 5
  /\ selected_in (GameMakerIDE.selected_object_index s) (GameMakerIDE.objects s) = None
  /\ GameMakerIDE.backgrounds s = []
  /\ GameMakerIDE.selected_background_index s = Some 3
  /\ exists s',
       mousePressEvent codec16 LeftButton 40 40 s = Ok s'
       /\ ~ referential_integrity s'
       /\ mousePressEvent codec16 LeftButton 40 40 s' = Raise IndexError.
Proof.
  cbv zeta.
  repeat (split; [vm_compute; reflexivity|]).
  eexists. split; [vm_compute; reflexivity|]. split; [|vm_compute; reflexivity].
  intros [_ Hl]. apply Forall_inv in Hl as [_ Hi]. apply Forall_inv in Hi.
  unfold valid_instance in Hi. vm_compute in Hi. destruct Hi as [_ Hi]. discriminate.
Qed.

(** ** Hit testing *)

Lemma getitem_in_range {A} (l : list A) (i : Z) :
  0 <= i < len l -> exists a, l !! Z.to_nat i = Some a /\ getitem l i = Ok a.
Proof.
  intros H. destruct (lookup_lt_is_Some_2 l (Z.to_nat i)) as [a Ha].
  - unfold len in H. lia.
  - exists a. split; [done|]. unfold getitem.
    destruct (Z.ltb_spec i 0); [lia|].
    apply in_range_spec in H. by rewrite H, Ha.
Qed.

Section HitTest.
Variable codec : bool -> bytes -> QPixmap.
Variables (objects : list GameObjectType.t) (sprites : list Sprite.t).
Variables (px py : Z).
Hypothesis sprite_indices : no_negative_sprite_index objects.

(** [contains_point] decides the hit rectangle of the specification on
    an instance whose object type exists. *)
Lemma contains_point_spec (inst : GameObjectInstance.t) :
  valid_instance objects inst ->
  exists hit,
    contains_point codec inst px py objects sprites = Ok hit
    /\ (hit = true <-> in_hit_rectangle codec objects sprites inst px py).
Proof.
  intros Hv. destruct (getitem_in_range objects _ Hv) as (obj & Hobj & Hget).
  unfold contains_point. rewrite Hget. simpl.
  assert (forall si, GameObjectType.sprite_index obj = Some si -> 0 <= si) as Hsi.
  { unfold no_negative_sprite_index in sprite_indices.
    rewrite Forall_forall in sprite_indices.
    apply sprite_indices. eapply list_elem_of_lookup_2, Hobj. }
  unfold valid_instance in Hv.
  destruct (GameObjectType.sprite_index obj) as [si|] eqn:Hidx.
  - specialize (Hsi si eq_refl).
    destruct (Z.geb_spec si (len sprites)) as [Hge|Hlt].
    + exists false. split; [done|]. split; [done|].
      intros (sprite & (obj' & si' & _ & Hobj' & Hidx' & _ & Hsp) & _).
      simplify_eq. apply lookup_lt_Some in Hsp. unfold len in Hge. lia.
    + destruct (getitem_in_range sprites si) as (sprite & Hsp & Hgs); [lia|].
      rewrite Hgs. simpl. eexists. split; [reflexivity|].
      rewrite !andb_true_iff, !Z.leb_le. split.
      * intros [[? ?] [? ?]]. exists sprite. split; [|lia].
        exists obj, si. split_and!; auto; lia.
      * intros (sprite' & (obj' & si' & _ & Hobj' & Hidx' & _ & Hsp') & Hx & Hy).
        simplify_eq. lia.
  - exists false. split; [done|]. split; [done|].
    intros (sprite & (obj' & si' & _ & Hobj' & Hidx' & _) & _). simplify_eq.
Qed.

(** The loop returns the greatest index below [n] whose instance is
    hit, and [None] when there is none. *)
Lemma hit_below_spec (insts : list GameObjectInstance.t) (n : nat) :
  Forall (valid_instance objects) insts ->
  (n <= length insts)%nat ->
  exists r,
    hit_below codec n insts px py objects sprites = Ok r
    /\ match r with
       | Some i =>
           (i < n)%nat
           /\ (exists inst, insts !! i = Some inst
                            /\ in_hit_rectangle codec objects sprites inst px py)
           /\ (forall j inst, (i < j < n)%nat -> insts !! j = Some inst ->
               ~ in_hit_rectangle codec objects sprites inst px py)
       | None =>
           forall j inst, (j < n)%nat -> insts !! j = Some inst ->
           ~ in_hit_rectangle codec objects sprites inst px py
       end.
Proof.
  intros Hv. induction n as [|n IH]; intros Hn; simpl.
  - exists None. split; [done|]. intros; lia.
  - destruct (lookup_lt_is_Some_2 insts n) as [inst Hinst]; [lia|].
    rewrite Hinst.
    assert (valid_instance objects inst) as Hvi.
    { rewrite Forall_forall in Hv. eapply Hv, list_elem_of_lookup_2, Hinst. }
    destruct (contains_point_spec inst Hvi) as (hit & -> & Hhit). simpl.
    destruct hit.
    + exists (Some n). split; [done|]. split_and!; [lia| |intros; lia].
      exists inst. split; [done|]. by apply Hhit.
    + destruct IH as (r & -> & Hr); [lia|]. exists r. split; [done|].
      assert (~ in_hit_rectangle codec objects sprites inst px py) as Hno.
      { intros H. apply Hhit in H. discriminate. }
      destruct r as [i|].
      * destruct Hr as (Hi & Hex & Hlater). split_and!; [lia|done|].
        intros j inst' Hj Hl. destruct (decide (j = n)) as [->|Hne].
        -- by simplify_eq.
        -- apply (Hlater j inst'); [lia|done].
      * intros j inst' Hj Hl. destruct (decide (j = n)) as [->|Hne].
        -- by simplify_eq.
        -- apply (Hr j inst'); [lia|done].
Qed.

(** The hit test on a level whose instances all have an object type:
    it never raises, and it returns the last placed instance whose hit
    rectangle contains the point. *)
Lemma hitTest_topmost (lvl : Level.t) :
  Forall (valid_instance objects) (Level.instances lvl) ->
  exists r,
    hitTest codec lvl px py objects sprites = Ok r
    /\ match r with
       | Some i =>
           (exists inst, Level.instances lvl !! i = Some inst
                         /\ in_hit_rectangle codec objects sprites inst px py)
           /\ (forall j inst, (i < j)%nat -> Level.instances lvl !! j = Some inst ->
               ~ in_hit_rectangle codec objects sprites inst px py)
       | None =>
           forall j inst, Level.instances lvl !! j = Some inst ->
           ~ in_hit_rectangle codec objects sprites inst px py
       end.
Proof.
  intros Hv. unfold hitTest.
  destruct (hit_below_spec (Level.instances lvl) (length (Level.instances lvl)) Hv)
    as (r & Hr & Hspec); [lia|].
  exists r. split; [done|]. destruct r as [i|].
  - destruct Hspec as (_ & Hex & Hlater). split; [done|].
    intros j inst Hj Hl. apply (Hlater j inst); [|done].
    apply lookup_lt_Some in Hl. lia.
  - intros j inst Hl. apply (Hspec j inst); [|done]. by apply lookup_lt_Some in Hl.
Qed.

(** Of two instances that both contain the point, the earlier placed
    one is not the answer: the answer is the later one or one placed
    after it. *)
Lemma hitTest_tie_break (lvl : Level.t) (i j : nat) (a b : GameObjectInstance.t) :
  Forall (valid_instance objects) (Level.instances lvl) ->
  (i < j)%nat ->
  Level.instances lvl !! i = Some a ->
  Level.instances lvl !! j = Some b ->
  in_hit_rectangle codec objects sprites a px py ->
  in_hit_rectangle codec objects sprites b px py ->
  exists k, hitTest codec lvl px py objects sprites = Ok (Some k) /\ (j <= k)%nat.
Proof.
  intros Hv Hij Ha Hb Hina Hinb.
  destruct (hitTest_topmost lvl Hv) as (r & Hr & Hspec). destruct r as [k|].
  - exists k. split; [done|]. destruct Hspec as [_ Hlater].
    destruct (decide (j <= k)%nat); [done|].
    exfalso. apply (Hlater j b); [lia|done..].
  - exfalso. by apply (Hspec j b).
Qed.

(** An instance brought to the front is the one returned wherever its
    hit rectangle contains the point. *)
Lemma hitTest_after_bringToFront (lvl : Level.t) (i : nat) (a : GameObjectInstance.t) :
  Forall (valid_instance objects) (Level.instances lvl) ->
  Level.instances lvl !! i = Some a ->
  in_hit_rectangle codec objects sprites a px py ->
  let lvl' := Level.set_instances (bringToFront i (Level.instances lvl)) lvl in
  exists k,
    hitTest codec lvl' px py objects sprites = Ok (Some k)
    /\ Level.instances lvl' !! k = Some a
    /\ S k = length (Level.instances lvl').
Proof.
  intros Hv Ha Hin lvl'. subst lvl'. simpl.
  unfold hitTest, bringToFront. simpl. rewrite Ha.
  set (front := delete i (Level.instances lvl)).
  rewrite length_app. simpl. rewrite Nat.add_1_r. simpl.
  rewrite lookup_app_r, Nat.sub_diag by lia. simpl.
  assert (valid_instance objects a) as Hva.
  { rewrite Forall_forall in Hv. eapply Hv, list_elem_of_lookup_2, Ha. }
  destruct (contains_point_spec a Hva) as (hit & -> & Hhit). simpl.
  apply Hhit in Hin as ->.
  exists (length front). split_and!; [done| |done].
  by rewrite lookup_app_r, Nat.sub_diag by lia.
Qed.
End HitTest.

(** C9 does not hold of the code where a [sprite_index] is negative.
    The project file [negative_sprite_file] loads without error into one
    sprite, one object type with [sprite_index] -1 and one level with one
    instance.  That [sprite_index] is not an index of the sprite list and
    [paintEvent] draws nothing for the instance, yet [contains_point]
    tests only the upper bound, reads [sprites[-1]] and reports a hit at
    (10,10).  With the hit test restricted to [sprite_index] at least 0,
    [hitTest_topmost], [hitTest_tie_break] and
    [hitTest_after_bringToFront] give what the claim says. *)
Theorem hitTest_hits_negative_sprite_index :
  let s := fst (open_project (Parsed negative_sprite_file) GameMakerIDE.empty) in
  GameMakerIDE.sprites s = negative_sprite_sprites
  /\ GameMakerIDE.objects s = negative_sprite_objects
  /\ GameMakerIDE.levels s = [negative_sprite_level]
  /\ Forall (valid_instance negative_sprite_objects) (Level.instances negative_sprite_level)
  /\ ~ Forall (valid_object negative_sprite_sprites) negative_sprite_objects
  /\ paint_instance codec16 (GameObjectInstance.mk 0 0 0)
       negative_sprite_objects negative_sprite_sprites = Ok None
  /\ hitTest codec16 negative_sprite_level 10 10
       negative_sprite_objects negative_sprite_sprites = Ok (Some 0%nat).
Proof.
  cbv zeta.
  repeat (split; [vm_compute; reflexivity|]).
  split; [repeat constructor; vm_compute; discriminate|].
  split.
  - intros H. apply Forall_inv in H. vm_compute in H. destruct H as [H _]. by apply H.
  - split; vm_compute; reflexivity.
Qed.

(** ** Base64 decodes what it encodes *)

Lemma byte_val_range (b : byte) : 0 <= byte_val b < 256.
Proof.
  unfold byte_val. pose proof (Byte.to_N_bounded b) as H. lia.
Qed.

Lemma byte_of_val (b : byte) : byte_of (byte_val b) = b.
Proof.
  unfold byte_of. pose proof (byte_val_range b) as H.
  rewrite Z.mod_small by lia. unfold byte_val.
  by rewrite N2Z.id, Byte.of_to_N.
Qed.

Lemma alphabet_table : forallb alphabet_ok (Z.of_nat <$> seq 0 64) = true.
Proof. vm_compute. reflexivity. Qed.

Lemma alphabet_ok_range (n : Z) : 0 <= n < 64 -> alphabet_ok n = true.
Proof.
  intros H. pose proof alphabet_table as T. rewrite forallb_forall in T.
  apply T. replace n with (Z.of_nat (Z.to_nat n)) by lia.
  apply in_map, in_seq. lia.
Qed.

Lemma alphabet_ok_inv (n : Z) :
  0 <= n < 64 ->
  a2b (b2a n) = Some n
  /\ Ascii.eqb (b2a n) "=" = false
  /\ (ascii_val (b2a n) <? 128) = true.
Proof.
  intros H. apply alphabet_ok_range in H. unfold alphabet_ok in H.
  destruct (a2b (b2a n)) as [m|]; [|discriminate].
  apply andb_true_iff in H. destruct H as [H H3].
  apply andb_true_iff in H. destruct H as [H1 H2].
  apply Z.eqb_eq in H1. apply negb_true_iff in H2. subst m. auto.
Qed.

Lemma a2b_b2a (n : Z) : 0 <= n < 64 -> a2b (b2a n) = Some n.
Proof. intros H. apply (alphabet_ok_inv n H). Qed.

Lemma b2a_not_pad (n : Z) : 0 <= n < 64 -> Ascii.eqb (b2a n) "=" = false.
Proof. intros H. apply (alphabet_ok_inv n H). Qed.

Lemma b2a_ascii (n : Z) : 0 <= n < 64 -> (ascii_val (b2a n) <? 128) = true.
Proof. intros H. apply (alphabet_ok_inv n H). Qed.

(** One step of the decoder on an alphabet character, in each of the
    four positions of a group. *)
Lemma loop_step0 (n : Z) (s : string) (leftchar pads : Z) :
  0 <= n < 64 ->
  a2b_base64_loop (String (b2a n) s) 0 leftchar pads = a2b_base64_loop s 1 n 0.
Proof. intros H. simpl. by rewrite (b2a_not_pad n H), (a2b_b2a n H). Qed.

Lemma loop_step1 (n : Z) (s : string) (leftchar pads : Z) :
  0 <= n < 64 ->
  a2b_base64_loop (String (b2a n) s) 1 leftchar pads
  = cons (byte_of (leftchar * 4 + n / 16)) <$> a2b_base64_loop s 2 (n mod 16) 0.
Proof. intros H. simpl. by rewrite (b2a_not_pad n H), (a2b_b2a n H). Qed.

Lemma loop_step2 (n : Z) (s : string) (leftchar pads : Z) :
  0 <= n < 64 ->
  a2b_base64_loop (String (b2a n) s) 2 leftchar pads
  = cons (byte_of (leftchar * 16 + n / 4)) <$> a2b_base64_loop s 3 (n mod 4) 0.
Proof. intros H. simpl. by rewrite (b2a_not_pad n H), (a2b_b2a n H). Qed.

Lemma loop_step3 (n : Z) (s : string) (leftchar pads : Z) :
  0 <= n < 64 ->
  a2b_base64_loop (String (b2a n) s) 3 leftchar pads
  = cons (byte_of (leftchar * 64 + n)) <$> a2b_base64_loop s 0 0 0.
Proof. intros H. simpl. by rewrite (b2a_not_pad n H), (a2b_b2a n H). Qed.

(** A complete pad sequence ends the decoding. *)
Lemma loop_pad2 (leftchar : Z) : a2b_base64_loop "==" 2 leftchar 0 = Some [].
Proof. reflexivity. Qed.

Lemma loop_pad1 (leftchar : Z) : a2b_base64_loop "=" 3 leftchar 0 = Some [].
Proof. reflexivity. Qed.

Lemma byte_of_eq (b : byte) (z : Z) : z = byte_val b -> byte_of z = b.
Proof. intros ->. apply byte_of_val. Qed.

Lemma b64_roundtrip_loop (n : nat) :
  forall (data : bytes) (leftchar pads : Z),
    (length data <= n)%nat ->
    a2b_base64_loop (b64encode data) 0 leftchar pads = Some data.
Proof.
  induction n as [|n IH]; intros data leftchar pads Hlen.
  - destruct data; [done|simpl in Hlen; lia].
  - destruct data as [|a [|b [|c rest]]]; [done|..].
    + pose proof (byte_val_range a) as Ha. cbn [b64encode].
      rewrite loop_step0, loop_step1, loop_pad2 by sextet.
      simpl. do 2 f_equal. apply byte_of_eq. sextet.
    + pose proof (byte_val_range a) as Ha. pose proof (byte_val_range b) as Hb.
      cbn [b64encode].
      rewrite loop_step0, loop_step1, loop_step2, loop_pad1 by sextet.
      simpl. f_equal. f_equal; [|f_equal]; apply byte_of_eq; sextet.
    + pose proof (byte_val_range a) as Ha. pose proof (byte_val_range b) as Hb.
      pose proof (byte_val_range c) as Hc.
      cbn [b64encode].
      rewrite loop_step0, loop_step1, loop_step2, loop_step3 by sextet.
      rewrite IH by (simpl in Hlen; lia).
      simpl. f_equal. f_equal; [|f_equal; [|f_equal]]; apply byte_of_eq; sextet.
Qed.

Lemma b64encode_ascii (n : nat) :
  forall data : bytes, (length data <= n)%nat -> is_ascii_str (b64encode data) = true.
Proof.
  induction n as [|n IH]; intros data Hlen.
  - destruct data; [done|simpl in Hlen; lia].
  - destruct data as [|a [|b [|c rest]]]; [done|..];
      pose proof (byte_val_range a) as Ha;
      try pose proof (byte_val_range b) as Hb;
      try pose proof (byte_val_range c) as Hc;
      cbn [b64encode is_ascii_str];
      rewrite ?b2a_ascii by sextet; simpl; [done..|].
    apply IH. simpl in Hlen. lia.
Qed.

Lemma b64_roundtrip (data : bytes) : b64decode (b64encode data) = Ok data.
Proof.
  unfold b64decode.
  by rewrite (b64encode_ascii (length data)), (b64_roundtrip_loop (length data)).
Qed.

Lemma b64encode_nonempty (b : byte) (bs : bytes) :
  String.eqb (b64encode (b :: bs)) EmptyString = false.
Proof. by destruct bs as [|? [|? ?]]. Qed.

(** ** Reading back what was written *)

Lemma decode_image_encode (d : json) (img : option bytes) :
  storable_image img ->
  dict_get d "img_bytes" = Ok (Some (encode_image img)) ->
  decode_image d = Ok img.
Proof.
  intros Hst Hget. unfold decode_image. rewrite Hget. simpl.
  destruct img as [[|b bs]|]; [by destruct Hst| |done].
  cbn [encode_image truthy]. rewrite b64encode_nonempty.
  pose proof (b64_roundtrip (b :: bs)) as Hrt.
  remember (b64encode (b :: bs)) as text. simpl. by rewrite Hrt.
Qed.

Lemma QColor_new_valid (c : QColor) :
  valid_color c = true -> QColor_new (red c) (green c) (blue c) (alpha c) = c.
Proof. intros H. unfold QColor_new. destruct c. simpl in *. by rewrite H. Qed.

Lemma Sprite_from_to_dict (sp : Sprite.t) :
  storable_sprite sp -> Sprite_from_dict (Sprite_to_dict sp) = Ok sp.
Proof.
  intros [Himg Hflag]. unfold Sprite_from_dict.
  rewrite (decode_image_encode _ (Sprite.img_bytes sp)); [|done|reflexivity].
  destruct sp as [name img fmt flag]. simpl in *. unfold Sprite.new. by rewrite <- Hflag.
Qed.

Lemma BackgroundResource_from_to_dict (bg : BackgroundResource.t) :
  storable_background bg ->
  BackgroundResource_from_dict (BackgroundResource_to_dict bg) = Ok bg.
Proof.
  intros (Himg & Hcol & Hflag). unfold BackgroundResource_from_dict.
  rewrite (decode_image_encode _ (BackgroundResource.img_bytes bg)); [|done|reflexivity].
  destruct bg as [name mode color img fmt tiled flag]. simpl in *.
  unfold decode_color. simpl. rewrite (QColor_new_valid color Hcol). simpl.
  unfold BackgroundResource.new. simpl. by rewrite <- Hflag.
Qed.

Lemma GameObjectType_from_to_dict (obj : GameObjectType.t) :
  GameObjectType_from_dict (GameObjectType_to_dict obj) = Ok obj.
Proof. by destruct obj as [name [i|]]. Qed.

Lemma load_instances_to_dict (objects : list GameObjectType.t)
    (insts : list GameObjectInstance.t) :
  Forall (valid_instance objects) insts ->
  forall lvl,
    load_instances (GameObjectInstance_to_dict <$> insts) objects lvl
    = Ok (Level.set_instances (Level.instances lvl ++ insts) lvl).
Proof.
  induction 1 as [|inst insts Hv _ IH]; intros lvl.
  - simpl. rewrite app_nil_r. by destruct lvl.
  - cbn [fmap list_fmap load_instances]. simpl.
    apply in_range_spec in Hv. rewrite Hv. rewrite IH. simpl.
    rewrite <- app_assoc. destruct inst. reflexivity.
Qed.

Lemma Level_from_to_dict (objects : list GameObjectType.t) (lvl : Level.t) :
  storable_level objects lvl -> Level_from_dict (Level_to_dict lvl) objects = Ok lvl.
Proof.
  intros Hv. unfold Level_from_dict, storable_level in *.
  destruct lvl as [name width height [b|] insts]; simpl in *;
    by rewrite (load_instances_to_dict objects insts Hv).
Qed.

(** ** The loader, stage by stage *)

Lemma for_each_build {A} (build : json -> GameMakerIDE.t -> result A)
    (push : A -> GameMakerIDE.t -> GameMakerIDE.t) (enc : A -> json)
    (Inv : GameMakerIDE.t -> Prop) (l : list A) :
  (forall s a, Inv s -> a ∈ l -> build (enc a) s = Ok a) ->
  (forall s a, Inv s -> Inv (push a s)) ->
  forall s, Inv s ->
    for_each (enc <$> l) (fun item s => append_with (build item s) push s) s
    = (foldl (fun s a => push a s) s l, Ok ()).
Proof.
  intros Hbuild Hpush. induction l as [|a l IH]; intros s Hs; [done|].
  cbn [fmap list_fmap for_each foldl]. unfold and_then, append_with at 1.
  rewrite (Hbuild s a Hs) by apply list_elem_of_here.
  apply IH; [|by apply Hpush].
  intros s' a' Hs' Hin. apply Hbuild; [done|]. by apply list_elem_of_further.
Qed.

Lemma push_backgrounds (l : list BackgroundResource.t) (s : GameMakerIDE.t) :
  foldl (fun s bg => GameMakerIDE.set_backgrounds (GameMakerIDE.backgrounds s ++ [bg]) s) s l
  = GameMakerIDE.set_backgrounds (GameMakerIDE.backgrounds s ++ l) s.
Proof.
  revert s. induction l as [|a l IH]; intros s; simpl.
  - rewrite app_nil_r. by destruct s.
  - rewrite IH. unfold GameMakerIDE.set_backgrounds. simpl. by rewrite <- app_assoc.
Qed.

Lemma push_sprites (l : list Sprite.t) (s : GameMakerIDE.t) :
  foldl (fun s sp => GameMakerIDE.set_sprites (GameMakerIDE.sprites s ++ [sp]) s) s l
  = GameMakerIDE.set_sprites (GameMakerIDE.sprites s ++ l) s.
Proof.
  revert s. induction l as [|a l IH]; intros s; simpl.
  - rewrite app_nil_r. by destruct s.
  - rewrite IH. unfold GameMakerIDE.set_sprites. simpl. by rewrite <- app_assoc.
Qed.

Lemma push_objects (l : list GameObjectType.t) (s : GameMakerIDE.t) :
  foldl (fun s obj => GameMakerIDE.set_objects (GameMakerIDE.objects s ++ [obj]) s) s l
  = GameMakerIDE.set_objects (GameMakerIDE.objects s ++ l) s.
Proof.
  revert s. induction l as [|a l IH]; intros s; simpl.
  - rewrite app_nil_r. by destruct s.
  - rewrite IH. unfold GameMakerIDE.set_objects. simpl. by rewrite <- app_assoc.
Qed.

Lemma push_levels (l : list Level.t) (s : GameMakerIDE.t) :
  foldl (fun s lvl => GameMakerIDE.set_levels (GameMakerIDE.levels s ++ [lvl]) s) s l
  = GameMakerIDE.set_levels (GameMakerIDE.levels s ++ l) s.
Proof.
  revert s. induction l as [|a l IH]; intros s; simpl.
  - rewrite app_nil_r. by destruct s.
  - rewrite IH. unfold GameMakerIDE.set_levels. simpl. by rewrite <- app_assoc.
Qed.

Lemma load_backgrounds_saved (doc s : GameMakerIDE.t) :
  Forall storable_background (GameMakerIDE.backgrounds doc) ->
  load_backgrounds (project_data doc) s
  = (GameMakerIDE.set_backgrounds (GameMakerIDE.backgrounds doc) s, Ok ()).
Proof.
  intros Hst. unfold load_backgrounds, rebuild. read_key.
  rewrite (for_each_build (fun item _ => BackgroundResource_from_dict item) _
             BackgroundResource_to_dict (fun _ => True)); [|..|done].
  - rewrite push_backgrounds. by destruct s.
  - intros _ bg _ Hin. apply BackgroundResource_from_to_dict.
    rewrite Forall_forall in Hst. by apply Hst.
  - done.
Qed.

Lemma load_sprites_saved (doc s : GameMakerIDE.t) :
  Forall storable_sprite (GameMakerIDE.sprites doc) ->
  load_sprites (project_data doc) s
  = (GameMakerIDE.set_sprites (GameMakerIDE.sprites doc) s, Ok ()).
Proof.
  intros Hst. unfold load_sprites, rebuild. read_key.
  rewrite (for_each_build (fun item _ => Sprite_from_dict item) _
             Sprite_to_dict (fun _ => True)); [|..|done].
  - rewrite push_sprites. by destruct s.
  - intros _ sp _ Hin. apply Sprite_from_to_dict.
    rewrite Forall_forall in Hst. by apply Hst.
  - done.
Qed.

Lemma load_objects_saved (doc s : GameMakerIDE.t) :
  load_objects (project_data doc) s
  = (GameMakerIDE.set_objects (GameMakerIDE.objects doc) s, Ok ()).
Proof.
  unfold load_objects, rebuild. read_key.
  rewrite (for_each_build (fun item _ => GameObjectType_from_dict item) _
             GameObjectType_to_dict (fun _ => True)); [|..|done].
  - rewrite push_objects. by destruct s.
  - intros _ obj _ _. apply GameObjectType_from_to_dict.
  - done.
Qed.

Lemma load_levels_saved (doc s : GameMakerIDE.t) :
  GameMakerIDE.objects s = GameMakerIDE.objects doc ->
  Forall (storable_level (GameMakerIDE.objects doc)) (GameMakerIDE.levels doc) ->
  load_levels (project_data doc) s
  = (GameMakerIDE.set_levels (GameMakerIDE.levels doc) s, Ok ()).
Proof.
  intros Hobj Hst. unfold load_levels, rebuild. read_key.
  rewrite (for_each_build (fun item s => Level_from_dict item (GameMakerIDE.objects s)) _
             Level_to_dict
             (fun s => GameMakerIDE.objects s = GameMakerIDE.objects doc)); [|..|done].
  - rewrite push_levels. by destruct s.
  - intros s' lvl -> Hin. apply Level_from_to_dict.
    rewrite Forall_forall in Hst. by apply Hst.
  - by intros s' lvl.
Qed.

Lemma load_selection_saved (doc s : GameMakerIDE.t) :
  load_selection (project_data doc) s
  = (GameMakerIDE.mk (GameMakerIDE.sprites s) (GameMakerIDE.objects s)
       (GameMakerIDE.levels s) (GameMakerIDE.backgrounds s)
       (GameMakerIDE.selected_sprite_index s)
       (redefault (GameMakerIDE.objects s) (GameMakerIDE.selected_object_index doc))
       (redefault (GameMakerIDE.levels s) (GameMakerIDE.selected_level_index doc))
       (redefault (GameMakerIDE.backgrounds s) (GameMakerIDE.selected_background_index doc))
       (GameMakerIDE.canvas s),
     Ok ()).
Proof.
  unfold load_selection, and_then, assign_selection, settle_selection, project_data.
  destruct (GameMakerIDE.selected_level_index doc),
    (GameMakerIDE.selected_object_index doc),
    (GameMakerIDE.selected_background_index doc); reflexivity.
Qed.

Lemma reconstruct_saved (doc prev : GameMakerIDE.t) :
  storable doc -> reconstruct (project_data doc) prev = (restored doc prev, Ok ()).
Proof.
  intros (Hsp & Hbg & Hlvl). unfold reconstruct, and_then.
  rewrite (load_backgrounds_saved doc prev Hbg).
  rewrite (load_sprites_saved doc _ Hsp).
  rewrite load_objects_saved.
  rewrite load_levels_saved; [|reflexivity|exact Hlvl].
  by rewrite load_selection_saved.
Qed.

(** ** Save, then open *)



(** An empty image payload is not restored either: it is written as
    [null] and read back as [None]. *)
Lemma empty_payload_not_restored :
  Sprite_from_dict (Sprite_to_dict empty_image_sprite)
  = Ok (Sprite.new "blank.png" None "PNG").
Proof. reflexivity. Qed.

(** Nor is the flag [_is_gif] of a sprite that was renamed across the
    ".gif" ending: the file has the new name, from which the load
    computes the flag anew. *)
Lemma renamed_sprite_flag_not_restored :
  Sprite._is_gif renamed_sprite = false
  /\ Sprite._is_gif <$> reloaded_sprite renamed_sprite = Some true.
Proof. split; reflexivity. Qed.

(** Nor is an instance whose object type does not exist: the load
    skips it. *)
Lemma orphan_instance_not_restored :
  Level_from_dict (Level_to_dict orphan_level) [GameObjectType.mk "Hero" None]
  = Ok (Level.mk "L1" 640 360 None []).
Proof. reflexivity. Qed.

Lemma default_with_instance_storable : storable default_with_instance.
Proof.
  unfold storable, storable_sprite, storable_background, storable_level,
    storable_image, valid_instance.
  vm_compute. repeat split; repeat constructor; discriminate.
Defined.


(** ** A load that fails *)

Lemma keeps_and_then {X} (part : GameMakerIDE.t -> X) (f g : step) :
  keeps part f -> keeps part g -> keeps part (and_then f g).
Proof.
  intros Hf Hg s. unfold and_then. specialize (Hf s).
  destruct (f s) as [s' [[]|e]]; simpl in *; [|done].
  by rewrite Hg.
Qed.

Lemma keeps_for_each {X} (part : GameMakerIDE.t -> X) (items : list json)
    (body : json -> step) :
  (forall item, keeps part (body item)) -> keeps part (for_each items body).
Proof.
  intros Hbody. induction items as [|item rest IH]; [done|].
  cbn [for_each]. by apply keeps_and_then.
Qed.

Lemma keeps_rebuild {X} (part : GameMakerIDE.t -> X)
    (reset : GameMakerIDE.t -> GameMakerIDE.t) (data : json) (key : string)
    (body : json -> step) :
  (forall s, part (reset s) = part s) ->
  (forall item, keeps part (body item)) ->
  keeps part (rebuild reset data key body).
Proof.
  intros Hreset Hbody s. unfold rebuild.
  destruct (subscript data key ≫= iterate) as [items|e]; simpl; [|done].
  by rewrite (keeps_for_each part items body Hbody).
Qed.

Lemma keeps_append_with {X A} (part : GameMakerIDE.t -> X) (build : result A)
    (push : A -> GameMakerIDE.t -> GameMakerIDE.t) :
  (forall a s, part (push a s) = part s) -> keeps part (append_with build push).
Proof. intros Hpush s. unfold append_with. destruct build; simpl; auto. Qed.

Lemma load_backgrounds_keeps {X} (part : GameMakerIDE.t -> X) (data : json) :
  (forall v s, part (GameMakerIDE.set_backgrounds v s) = part s) ->
  keeps part (load_backgrounds data).
Proof.
  intros H. apply keeps_rebuild; [done|].
  intros item. by apply keeps_append_with.
Qed.

Lemma load_sprites_keeps {X} (part : GameMakerIDE.t -> X) (data : json) :
  (forall v s, part (GameMakerIDE.set_sprites v s) = part s) ->
  keeps part (load_sprites data).
Proof.
  intros H. apply keeps_rebuild; [done|].
  intros item. by apply keeps_append_with.
Qed.

Lemma load_objects_keeps {X} (part : GameMakerIDE.t -> X) (data : json) :
  (forall v s, part (GameMakerIDE.set_objects v s) = part s) ->
  keeps part (load_objects data).
Proof.
  intros H. apply keeps_rebuild; [done|].
  intros item. by apply keeps_append_with.
Qed.

Lemma load_levels_keeps {X} (part : GameMakerIDE.t -> X) (data : json) :
  (forall v s, part (GameMakerIDE.set_levels v s) = part s) ->
  keeps part (load_levels data).
Proof.
  intros H. apply keeps_rebuild; [done|].
  intros item s. by apply keeps_append_with.
Qed.

Lemma load_selection_keeps {X} (part : GameMakerIDE.t -> X) (data : json) :
  (forall v s, part (GameMakerIDE.set_selected_level_index v s) = part s) ->
  (forall v s, part (GameMakerIDE.set_selected_object_index v s) = part s) ->
  (forall v s, part (GameMakerIDE.set_selected_background_index v s) = part s) ->
  keeps part (load_selection data).
Proof.
  intros Hl Ho Hb. unfold load_selection.
  assert (forall key set, (forall v s, part (set v s) = part s) ->
                          keeps part (assign_selection data key set)) as Hassign.
  { intros key set Hset s. unfold assign_selection.
    destruct (_ ≫= _); simpl; auto. }
  repeat apply keeps_and_then; try by apply Hassign.
  intros s. unfold settle_selection. simpl. by rewrite Hb, Ho, Hl.
Qed.

(** Once the backgrounds are rebuilt nothing writes them again. *)
Lemma after_backgrounds_keeps (data : json) :
  keeps GameMakerIDE.backgrounds
    (and_then (load_sprites data)
       (and_then (load_objects data)
          (and_then (load_levels data) (load_selection data)))).
Proof.
  apply keeps_and_then; [by apply load_sprites_keeps|].
  apply keeps_and_then; [by apply load_objects_keeps|].
  apply keeps_and_then; [by apply load_levels_keeps|].
  by apply load_selection_keeps.
Qed.

Lemma for_each_backgrounds (items : list json) (s : GameMakerIDE.t) :
  GameMakerIDE.backgrounds
    (fst (for_each items
            (fun bg_info =>
               append_with (BackgroundResource_from_dict bg_info)
                 (fun bg s =>
                    GameMakerIDE.set_backgrounds (GameMakerIDE.backgrounds s ++ [bg]) s))
            s))
  = GameMakerIDE.backgrounds s ++ built_prefix BackgroundResource_from_dict items.
Proof.
  revert s. induction items as [|item rest IH]; intros s; simpl.
  - by rewrite app_nil_r.
  - unfold and_then, append_with at 1.
    destruct (BackgroundResource_from_dict item) as [bg|e]; simpl.
    + rewrite IH. simpl. by rewrite <- app_assoc.
    + by rewrite app_nil_r.
Qed.

Lemma load_backgrounds_result (data : json) (s : GameMakerIDE.t) :
  GameMakerIDE.backgrounds (fst (load_backgrounds data s)) = loaded_backgrounds data.
Proof.
  unfold load_backgrounds, rebuild, loaded_backgrounds.
  destruct (subscript data "backgrounds" ≫= iterate) as [items|e]; [|done].
  by rewrite for_each_backgrounds.
Qed.

Lemma reconstruct_backgrounds (data : json) (s : GameMakerIDE.t) :
  GameMakerIDE.backgrounds (fst (reconstruct data s)) = loaded_backgrounds data.
Proof.
  unfold reconstruct. rewrite <- (load_backgrounds_result data s).
  unfold and_then at 1.
  destruct (load_backgrounds data s) as [s' [[]|e]] eqn:E; simpl; [|done].
  apply after_backgrounds_keeps.
Qed.

Lemma reconstruct_keeps {X} (part : GameMakerIDE.t -> X) (data : json) :
  (forall v s, part (GameMakerIDE.set_backgrounds v s) = part s) ->
  (forall v s, part (GameMakerIDE.set_sprites v s) = part s) ->
  (forall v s, part (GameMakerIDE.set_objects v s) = part s) ->
  (forall v s, part (GameMakerIDE.set_levels v s) = part s) ->
  (forall v s, part (GameMakerIDE.set_selected_level_index v s) = part s) ->
  (forall v s, part (GameMakerIDE.set_selected_object_index v s) = part s) ->
  (forall v s, part (GameMakerIDE.set_selected_background_index v s) = part s) ->
  keeps part (reconstruct data).
Proof.
  intros. unfold reconstruct.
  apply keeps_and_then; [by apply load_backgrounds_keeps|].
  apply keeps_and_then; [by apply load_sprites_keeps|].
  apply keeps_and_then; [by apply load_objects_keeps|].
  apply keeps_and_then; [by apply load_levels_keeps|].
  by apply load_selection_keeps.
Qed.

(** C6, as the code has it.  A load that fails before the
    reconstruction starts (the file cannot be read or parsed) leaves the
    document as it was.  A load that fails during the reconstruction is
    answered with the warning and is not undone: the list of backgrounds
    has been emptied and refilled from the file, so that nothing of the
    previous backgrounds is left; when the failure is in the backgrounds,
    the sprites, the object types, the levels and the selection are
    still those of the previous document; the sprite selection and the
    canvas are never written. *)
Theorem failed_load_leaves :
  (forall (s : GameMakerIDE.t) (e : PyExc),
     open_project (Unreadable e) s = (s, Warning "Error" "Failed to open project"))
  /\ (forall (data : json) (s : GameMakerIDE.t) (e : PyExc),
        snd (reconstruct data s) = Raise e ->
        e <> OutsideFormat ->
        let s' := fst (open_project (Parsed data) s) in
        snd (open_project (Parsed data) s) = Warning "Error" "Failed to open project"
        /\ (forall t, GameMakerIDE.backgrounds s'
                      = GameMakerIDE.backgrounds (fst (open_project (Parsed data) t)))
        /\ GameMakerIDE.selected_sprite_index s' = GameMakerIDE.selected_sprite_index s
        /\ GameMakerIDE.canvas s' = GameMakerIDE.canvas s)
  /\ (forall (data : json) (s : GameMakerIDE.t) (e : PyExc),
        snd (load_backgrounds data s) = Raise e ->
        e <> OutsideFormat ->
        let s' := fst (open_project (Parsed data) s) in
        snd (open_project (Parsed data) s) = Warning "Error" "Failed to open project"
        /\ GameMakerIDE.sprites s' = GameMakerIDE.sprites s
        /\ GameMakerIDE.objects s' = GameMakerIDE.objects s
        /\ GameMakerIDE.levels s' = GameMakerIDE.levels s
        /\ GameMakerIDE.selected_level_index s' = GameMakerIDE.selected_level_index s
        /\ GameMakerIDE.selected_object_index s' = GameMakerIDE.selected_object_index s
        /\ GameMakerIDE.selected_background_index s'
           = GameMakerIDE.selected_background_index s).
Proof.
  assert (forall data t, fst (open_project (Parsed data) t) = fst (reconstruct data t))
    as Hfst.
  { intros data t. unfold open_project.
    by destruct (reconstruct data t) as [? [[]|[]]]. }
  assert (forall data s e, snd (reconstruct data s) = Raise e -> e <> OutsideFormat ->
            snd (open_project (Parsed data) s)
            = Warning "Error" "Failed to open project") as Hsnd.
  { intros data s e Hfail He. unfold open_project.
    destruct (reconstruct data s) as [? [[]|e']]; simpl in *; [done|].
    simplify_eq. by destruct e. }
  split_and!.
  - done.
  - intros data s e Hfail He s'. subst s'. rewrite !Hfst. split_and!.
    + by apply (Hsnd data s e).
    + intros t. by rewrite Hfst, !reconstruct_backgrounds.
    + by apply (reconstruct_keeps GameMakerIDE.selected_sprite_index).
    + by apply (reconstruct_keeps GameMakerIDE.canvas).
  - intros data s e Hfail He s'. subst s'.
    assert (reconstruct data s = load_backgrounds data s) as Hrec.
    { unfold reconstruct, and_then at 1.
      by destruct (load_backgrounds data s) as [s1 [[]|e1]]. }
    rewrite Hfst, Hrec. split_and!.
    + apply (Hsnd data s e); [|done]. by rewrite Hrec.
    + by apply (load_backgrounds_keeps GameMakerIDE.sprites).
    + by apply (load_backgrounds_keeps GameMakerIDE.objects).
    + by apply (load_backgrounds_keeps GameMakerIDE.levels).
    + by apply (load_backgrounds_keeps GameMakerIDE.selected_level_index).
    + by apply (load_backgrounds_keeps GameMakerIDE.selected_object_index).
    + by apply (load_backgrounds_keeps GameMakerIDE.selected_background_index).
Qed.

(** C6 as stated fails: opening [truncated_file] in the default project
    ends with the warning, and the one background and the one sprite of
    the project are gone, while its level still refers to background
    0. *)
Lemma failed_load_clears_backgrounds :
  let s := GameMakerIDE.init in
  let r := open_project (Parsed truncated_file) s in
  snd r = Warning "Error" "Failed to open project"
  /\ length (GameMakerIDE.backgrounds s) = 1%nat
  /\ GameMakerIDE.backgrounds (fst r) = []
  /\ length (GameMakerIDE.sprites s) = 1%nat
  /\ GameMakerIDE.sprites (fst r) = []
  /\ Level.background_index <$> GameMakerIDE.levels (fst r) = [Some 0]
  /\ fst r <> s.
Proof.
  cbv zeta. repeat (split; [vm_compute; reflexivity|]).
  intros H. apply (f_equal (length ∘ GameMakerIDE.backgrounds)) in H.
  vm_compute in H. discriminate.
Qed.

Lemma failed_load_witness :
  snd (reconstruct truncated_file GameMakerIDE.init) = Raise (KeyError "sprites")
  /\ GameMakerIDE.selected_sprite_index
       (fst (open_project (Parsed truncated_file) GameMakerIDE.init))
     = GameMakerIDE.selected_sprite_index GameMakerIDE.init.
Proof.
  split; [vm_compute; reflexivity|].
  apply (proj1 (proj2 failed_load_leaves) truncated_file GameMakerIDE.init
           (KeyError "sprites")).
  - vm_compute. reflexivity.
  - discriminate.
Defined.

(** ** The theorems at [example_doc] *)

Lemma example_doc_integrity : referential_integrity example_doc.
Proof.
  unfold referential_integrity, valid_object, valid_level, valid_instance.
  vm_compute. repeat split; repeat constructor; discriminate.
Defined.

Lemma integrity_after_each_action_witness :
  referential_integrity example_doc
  /\ Forall referential_integrity
       (trace [DeleteSprite true; AddObject ("Coin"%string, true); DeleteObject true;
               SelectBackground 1; DeleteBackground true; RenameLevel ("Start"%string, true)]
          example_doc).
Proof.
  split; [exact example_doc_integrity|].
  apply integrity_after_each_action. exact example_doc_integrity.
Defined.

(** Two sprites, an object type on the second: after the first sprite is
    deleted the object type is on sprite 0. *)
Lemma delete_sprite_cascade_witness :
  GameObjectType.sprite_index
  <$> GameMakerIDE.objects (GameMakerIDE.delete_sprite true example_doc) !! 0%nat
  = Some (Some 0).
Proof.
  destruct (delete_sprite_cascade example_doc 0) as (_ & _ & H);
    [reflexivity|unfold len; simpl; lia|].
  destruct (H 0%nat (GameObjectType.mk "Hero" (Some 1)) eq_refl)
    as (obj' & -> & _ & _ & Hgt & _).
  simpl. f_equal. apply (Hgt 1); [reflexivity|lia].
Defined.

(** Two object types, an instance of each: after the first object type
    is deleted the level holds the second instance alone, now of object
    type 0. *)
Lemma delete_object_cascade_witness :
  Level.instances
  <$> GameMakerIDE.levels (GameMakerIDE.delete_object true example_doc) !! 0%nat
  = Some [GameObjectInstance.mk 32 0 0].
Proof.
  destruct (delete_object_cascade example_doc 0) as (_ & _ & H);
    [reflexivity|unfold len; simpl; lia|].
  destruct (H 0%nat (Level.mk "L1" 640 360 (Some 1)
                       [GameObjectInstance.mk 0 0 0; GameObjectInstance.mk 32 0 1])
              eq_refl) as (lvl' & -> & _ & _ & _ & _ & HF).
  simpl. f_equal.
  change (Forall2
            (fun old new =>
               GameObjectInstance.x new = GameObjectInstance.x old
               /\ GameObjectInstance.y new = GameObjectInstance.y old
               /\ (0 < GameObjectInstance.object_index old ->
                   GameObjectInstance.object_index new
                   = GameObjectInstance.object_index old - 1)
               /\ (GameObjectInstance.object_index old < 0 -> new = old))
            [GameObjectInstance.mk 32 0 1] (Level.instances lvl')) in HF.
  apply Forall2_cons_inv_l in HF as (new & rest & (Hx & Hy & Hgt & _) & Hrest & ->).
  apply Forall2_nil_inv_l in Hrest as ->.
  destruct new as [x y oi]. simpl in *. rewrite Hx, Hy, Hgt by lia. reflexivity.
Defined.

Lemma delete_background_cascade_witness :
  Level.background_index
  <$> GameMakerIDE.levels (GameMakerIDE.delete_background true example_doc) !! 0%nat
  = Some (Some 0).
Proof.
  destruct (proj1 delete_background_cascade example_doc 0) as (_ & _ & H);
    [reflexivity|unfold len; simpl; lia|].
  destruct (H 0%nat (Level.mk "L1" 640 360 (Some 1)
                       [GameObjectInstance.mk 0 0 0; GameObjectInstance.mk 32 0 1])
              eq_refl) as (lvl' & -> & _ & _ & Hgt & _).
  simpl. f_equal. apply (Hgt 1); [reflexivity|lia].
Defined.

Lemma delete_clears_selection_witness :
  GameMakerIDE.selected_background_index (GameMakerIDE.delete_background true example_doc)
  = None.
Proof. apply (proj1 (delete_clears_selection example_doc 0)). reflexivity. Defined.

(** * Properties of the rest of the code *)

(** ** What a delete does to what the references mean *)

Lemma del_lookup_lt {A} (l : list A) (k j : Z) :
  0 <= j < k -> del l k !! Z.to_nat j = l !! Z.to_nat j.
Proof. intros H. unfold del. apply list_lookup_delete_lt. lia. Qed.

Lemma del_lookup_gt {A} (l : list A) (k j : Z) :
  0 <= k < j -> del l k !! Z.to_nat (j - 1) = l !! Z.to_nat j.
Proof.
  intros H. unfold del. rewrite list_lookup_delete_ge by lia.
  f_equal. lia.
Qed.

(** X1. The renumbering of [delete_sprite] is the right one: an object
    type that was on another sprite than the deleted one is, after the
    delete, on the same sprite (the same name, bytes and format), found
    under its new index. *)
Theorem delete_sprite_keeps_other_sprites (s : GameMakerIDE.t) (k : Z) :
  GameMakerIDE.selected_sprite_index s = Some k ->
  0 <= k < len (GameMakerIDE.sprites s) ->
  forall (i : nat) (obj : GameObjectType.t) (j : Z) (sprite : Sprite.t),
    GameMakerIDE.objects s !! i = Some obj ->
    GameObjectType.sprite_index obj = Some j ->
    0 <= j -> j <> k ->
    GameMakerIDE.sprites s !! Z.to_nat j = Some sprite ->
    exists obj' j',
      GameMakerIDE.objects (GameMakerIDE.delete_sprite true s) !! i = Some obj'
      /\ GameObjectType.sprite_index obj' = Some j'
      /\ 0 <= j'
      /\ GameMakerIDE.sprites (GameMakerIDE.delete_sprite true s) !! Z.to_nat j'
         = Some sprite.
Proof.
  intros Hsel Hk i obj j sprite Hobj Hj Hj0 Hne Hsp.
  rewrite (delete_sprite_unfold s k Hsel Hk). simpl.
  exists (GameMakerIDE.cascade_sprite k obj). rewrite list_lookup_fmap, Hobj. simpl.
  destruct (cascade_sprite_cases k obj) as (_ & _ & Hgt & Hother).
  destruct (Z.lt_total j k) as [Hlt|[->|Hgtk]]; [|done|].
  - exists j. rewrite Hother by (right; eauto). split_and!; auto.
    by rewrite del_lookup_lt by lia.
  - exists (j - 1). rewrite (Hgt j Hj) by lia. split_and!; [done..|lia|].
    by rewrite del_lookup_gt by lia.
Qed.

(** X2. The renumbering of [delete_object] is the right one: every
    instance that stays in a level is, after the delete, an instance of
    the same object type as before, found under its new index. *)
Theorem delete_object_keeps_other_types (s : GameMakerIDE.t) (k : Z) :
  GameMakerIDE.selected_object_index s = Some k ->
  0 <= k < len (GameMakerIDE.objects s) ->
  forall (i : nat) (lvl : Level.t),
    GameMakerIDE.levels s !! i = Some lvl ->
    exists lvl',
      GameMakerIDE.levels (GameMakerIDE.delete_object true s) !! i = Some lvl'
      /\ Forall2
           (fun old new =>
              forall obj,
                0 <= GameObjectInstance.object_index old ->
                GameMakerIDE.objects s !! Z.to_nat (GameObjectInstance.object_index old)
                = Some obj ->
                0 <= GameObjectInstance.object_index new
                /\ GameMakerIDE.objects (GameMakerIDE.delete_object true s)
                     !! Z.to_nat (GameObjectInstance.object_index new)
                   = Some obj)
           (filter (fun inst => GameObjectInstance.object_index inst <> k)
              (Level.instances lvl))
           (Level.instances lvl').
Proof.
  intros Hsel Hk i lvl Hlvl.
  rewrite (delete_object_unfold s k Hsel Hk). simpl.
  exists (GameMakerIDE.cascade_object k lvl). rewrite list_lookup_fmap, Hlvl. simpl.
  split; [done|].
  apply Forall2_fmap_r, Forall_Forall2_diag, Forall_forall.
  intros inst [Hne _]%list_elem_of_filter obj H0 Hobj.
  unfold GameMakerIDE.shift_instance.
  destruct (Z.gtb_spec (GameObjectInstance.object_index inst) k); simpl.
  - split; [lia|]. by rewrite del_lookup_gt by lia.
  - split; [lia|]. by rewrite del_lookup_lt by lia.
Qed.

(** X3. The renumbering of [delete_background] is the right one: a
    level that was on another background than the deleted one is, after
    the delete, on the same background, found under its new index. *)
Theorem delete_background_keeps_other_backgrounds (s : GameMakerIDE.t) (k : Z) :
  GameMakerIDE.selected_background_index s = Some k ->
  0 <= k < len (GameMakerIDE.backgrounds s) ->
  forall (i : nat) (lvl : Level.t) (j : Z) (bg : BackgroundResource.t),
    GameMakerIDE.levels s !! i = Some lvl ->
    Level.background_index lvl = Some j ->
    0 <= j -> j <> k ->
    GameMakerIDE.backgrounds s !! Z.to_nat j = Some bg ->
    exists lvl' j',
      GameMakerIDE.levels (GameMakerIDE.delete_background true s) !! i = Some lvl'
      /\ Level.background_index lvl' = Some j'
      /\ 0 <= j'
      /\ GameMakerIDE.backgrounds (GameMakerIDE.delete_background true s) !! Z.to_nat j'
         = Some bg.
Proof.
  intros Hsel Hk i lvl j bg Hlvl Hj Hj0 Hne Hbg.
  rewrite (delete_background_unfold s k Hsel Hk). simpl.
  exists (GameMakerIDE.cascade_background k lvl). rewrite list_lookup_fmap, Hlvl. simpl.
  destruct (cascade_background_cases k lvl) as (_ & _ & _ & _ & _ & Hgt & Hother).
  destruct (Z.lt_total j k) as [Hlt|[->|Hgtk]]; [|done|].
  - exists j. rewrite Hother by (right; eauto). split_and!; auto.
    by rewrite del_lookup_lt by lia.
  - exists (j - 1). rewrite (Hgt j Hj) by lia. split_and!; [done..|lia|].
    by rewrite del_lookup_gt by lia.
Qed.

(** ** The editor keeps its references valid *)

Lemma list_index_spec (val : string) (l : list string) (i : Z) :
  list_index val l = Some i ->
  0 <= i < len l
  /\ l !! Z.to_nat i = Some val
  /\ forall j, 0 <= j < i -> l !! Z.to_nat j <> Some val.
Proof.
  revert i. induction l as [|a l IH]; intros i; simpl; [done|].
  destruct (String.eqb_spec a val) as [->|Hne].
  - intros [= <-]. unfold len. simpl. split_and!; [lia|lia|done|intros; lia].
  - destruct (list_index val l) as [i'|]; [|done]. simpl. intros [= <-].
    destruct (IH i' eq_refl) as (Hr & Hl & Hfirst).
    unfold len in *. simpl. split_and!; [lia|lia| |].
    + replace (Z.to_nat (Z.succ i')) with (S (Z.to_nat i')) by lia. done.
    + intros j Hj. destruct (decide (j = 0)) as [->|Hj0].
      * simpl. congruence.
      * replace (Z.to_nat j) with (S (Z.to_nat (j - 1))) by lia. simpl.
        apply Hfirst. lia.
Qed.

Lemma list_index_elem_of (val : string) (l : list string) :
  val ∈ l -> exists i, list_index val l = Some i.
Proof.
  induction 1 as [a l|a b l Hin [i IH]]; simpl.
  - rewrite String.eqb_refl. eauto.
  - destruct (String.eqb b a); [eauto|]. rewrite IH. simpl. eauto.
Qed.

Lemma valid_ref_len {A B} (t : list A) (t' : list B) (key : option Z) :
  len t = len t' -> valid_ref t key -> valid_ref t' key.
Proof. destruct key; simpl; [lia|done]. Qed.

Lemma valid_level_set_instances b o insts (lvl : Level.t) :
  Forall (valid_instance o) insts ->
  valid_level b o lvl -> valid_level b o (Level.set_instances insts lvl).
Proof. intros Hi [Hb _]. by split. Qed.

Lemma get_current_level_Some (s : GameMakerIDE.t) (lvl : Level.t) :
  GameMakerIDE.get_current_level s = Some lvl ->
  exists cur,
    GameMakerIDE.current_level_index s = Some cur
    /\ 0 <= cur
    /\ GameMakerIDE.levels s !! Z.to_nat cur = Some lvl.
Proof.
  unfold GameMakerIDE.get_current_level.
  destruct (GameMakerIDE.current_level_index s) as [cur|] eqn:Hcur; simpl; [|done].
  intros Hl. exists cur. split_and!; [done| |done].
  unfold GameMakerIDE.current_level_index in Hcur.
  apply selected_in_Some in Hcur. lia.
Qed.

Lemma integrity_no_negative (s : GameMakerIDE.t) :
  referential_integrity s -> no_negative_sprite_index (GameMakerIDE.objects s).
Proof.
  intros [Ho _]. unfold no_negative_sprite_index.
  eapply Forall_impl; [exact Ho|].
  intros obj Hv si Hsi. unfold valid_object in Hv. rewrite Hsi in Hv. simpl in Hv. lia.
Qed.

Lemma current_level_valid (s : GameMakerIDE.t) (lvl : Level.t) :
  referential_integrity s ->
  GameMakerIDE.get_current_level s = Some lvl ->
  Forall (valid_instance (GameMakerIDE.objects s)) (Level.instances lvl).
Proof.
  intros [_ Hl] (cur & _ & _ & Hlook)%get_current_level_Some.
  rewrite Forall_forall in Hl. apply (Hl lvl). eapply list_elem_of_lookup_2, Hlook.
Qed.

Lemma put_instances_invariant (s : GameMakerIDE.t) (cur : Z)
    (insts : list GameObjectInstance.t) :
  editor_invariant s ->
  Forall (valid_instance (GameMakerIDE.objects s)) insts ->
  editor_invariant
    (GameMakerIDE.set_levels
       (setitem (GameMakerIDE.levels s) cur (Level.set_instances insts)) s).
Proof.
  intros ([Ho Hl] & Hsel & Hg) Hi. split_and!; [split|..]; simpl; try done.
  apply Forall_setitem; [|done]. intros lvl. by apply valid_level_set_instances.
Qed.

Lemma mousePressEvent_invariant codec (button : MouseButton) (x y : Z)
    (s : GameMakerIDE.t) :
  editor_invariant s ->
  exists s', mousePressEvent codec button x y s = Ok s' /\ editor_invariant s'.
Proof.
  intros Hinv. pose proof Hinv as (Hint & Hsel & Hg). unfold mousePressEvent.
  destruct (GameMakerIDE.current_level_index s) as [cur|]; [|by eexists].
  destruct (GameMakerIDE.get_current_level s) as [level|] eqn:Hlevel; [|by eexists].
  pose proof (current_level_valid s level Hint Hlevel) as Hvalid.
  destruct (hitTest_topmost codec _ (GameMakerIDE.sprites s) x y
              (integrity_no_negative s Hint) level Hvalid) as (r & Hr & Hspec).
  destruct button; [| |by eexists]; rewrite Hr; simpl.
  - destruct r as [i|].
    + destruct Hspec as [(inst & Hi & _) _]. rewrite Hi. eexists. split; [done|].
      destruct (put_instances_invariant s cur
                  (bringToFront i (Level.instances level)) Hinv) as (H1 & H2 & H3).
      { unfold bringToFront. rewrite Hi. apply Forall_app. split.
        - by apply Forall_delete.
        - constructor; [|done]. rewrite Forall_forall in Hvalid.
          eapply Hvalid, list_elem_of_lookup_2, Hi. }
      by split_and!.
    + destruct (GameMakerIDE.selected_object_index s) as [sel|] eqn:Hs; [|by eexists].
      eexists. split; [done|]. apply put_instances_invariant; [done|].
      apply Forall_app. split; [done|]. constructor; [|done].
      unfold valid_instance. simpl. done.
  - destruct r as [i|]; [|by eexists]. eexists. split; [done|].
    apply put_instances_invariant; [done|]. by apply Forall_delete.
Qed.

Lemma perform_invariant (a : action) (s : GameMakerIDE.t) :
  editor_invariant s -> offered (Button a) s -> editor_invariant (perform a s).
Proof.
  intros (Hint & Hsel & Hg) Hoff.
  split; [by apply perform_keeps_integrity|].
  destruct a; simpl in *;
    unfold GameMakerIDE.add_background, GameMakerIDE.rename_background,
      GameMakerIDE.delete_background, GameMakerIDE.add_sprite,
      GameMakerIDE.rename_sprite, GameMakerIDE.delete_sprite,
      GameMakerIDE.add_object, GameMakerIDE.rename_object,
      GameMakerIDE.delete_object, GameMakerIDE.add_level,
      GameMakerIDE.rename_level, GameMakerIDE.delete_level;
    repeat match goal with
      | |- context [selected_in ?i ?l] => destruct (selected_in i l)
      | |- context [let '(_, _) := ?d in _] => destruct d
      | |- context [if ?b then _ else _] => destruct b
      | |- context [match ?d with Some _ => _ | None => _ end] => destruct d
      | |- context [match ?d with [] => _ | _ :: _ => _ end] => destruct d
      end; simpl; try done;
    split; try done.
  all: try (eapply valid_ref_len; [|exact Hsel]; by rewrite ?len_fmap, ?len_setitem).
  all: rewrite len_app; unfold len; simpl; lia.
Qed.

Lemma set_grid_size_offered (new_size : string) (ok : bool) (s : GameMakerIDE.t) :
  new_size ∈ grid_sizes ->
  exists s',
    set_grid_size (new_size, ok) s = Ok s'
    /\ GameMakerIDE.sprites s' = GameMakerIDE.sprites s
    /\ GameMakerIDE.objects s' = GameMakerIDE.objects s
    /\ GameMakerIDE.levels s' = GameMakerIDE.levels s
    /\ GameMakerIDE.backgrounds s' = GameMakerIDE.backgrounds s
    /\ GameMakerIDE.selected_object_index s' = GameMakerIDE.selected_object_index s
    /\ (0 < GameCanvas.grid_size (GameMakerIDE.canvas s) ->
        0 < GameCanvas.grid_size (GameMakerIDE.canvas s')).
Proof.
  intros Hin. unfold grid_sizes in Hin.
  repeat (apply elem_of_cons in Hin as [->|Hin]); [..|by apply elem_of_nil in Hin];
    destruct ok; eexists; (split; [reflexivity|]); simpl; split_and!;
    try reflexivity; intros; lia.
Qed.

Lemma edit_object_invariant (dlg : option string) (s : GameMakerIDE.t) :
  editor_invariant s -> offered (EditObject dlg) s ->
  exists s', edit_object dlg s = Ok s' /\ editor_invariant s'.
Proof.
  intros Hinv Hoff. pose proof Hinv as ([Ho Hl] & Hsel & Hg). unfold edit_object.
  destruct (selected_in _ _) as [idx|] eqn:Hidx; [|by eexists].
  apply selected_in_Some in Hidx as [_ Hidx].
  destruct (getitem_in_range _ idx Hidx) as (obj & Hobj & ->).
  cbn [mbind result_bind].
  assert (valid_object (GameMakerIDE.sprites s) obj) as Hvo.
  { rewrite Forall_forall in Ho. eapply Ho, list_elem_of_lookup_2, Hobj. }
  assert (len (sprite_choices s) = len (GameMakerIDE.sprites s) + 1) as Hlen.
  { unfold sprite_choices, len. simpl. rewrite length_fmap. lia. }
  pose proof (len_nonneg (GameMakerIDE.sprites s)) as Hnn.
  assert (exists c, match GameObjectType.sprite_index obj with
                    | Some si => getitem (sprite_choices s) (si + 1)
                    | None => getitem (sprite_choices s) 0
                    end = Ok c) as [c ->].
  { unfold valid_object in Hvo.
    destruct (GameObjectType.sprite_index obj) as [si|]; simpl in Hvo.
    - destruct (getitem_in_range (sprite_choices s) (si + 1)) as (c & _ & Hc); [lia|].
      eauto.
    - destruct (getitem_in_range (sprite_choices s) 0) as (c & _ & Hc); [lia|].
      eauto. }
  cbn [mbind result_bind]. destruct dlg as [val|]; [|by eexists].
  cbn [offered] in Hoff. destruct (list_index_elem_of val _ Hoff) as [i Hi]. rewrite Hi.
  apply list_index_spec in Hi as (Hi & _ & _).
  eexists. split; [done|]. split_and!; [split|..]; simpl; try done.
  - apply Forall_setitem; [|done]. intros obj' _. unfold valid_object. simpl.
    destruct (Z.geb_spec (i - 1) 0); simpl; [lia|done].
  - eapply valid_levels_mono; [| |exact Hl]; rewrite ?len_setitem; lia.
  - eapply valid_ref_len; [|exact Hsel]. by rewrite len_setitem.
Qed.

Lemma handle_invariant codec (ev : ui_event) (s : GameMakerIDE.t) :
  editor_invariant s -> offered ev s ->
  exists s', handle codec ev s = Ok s' /\ editor_invariant s'.
Proof.
  intros Hinv Hoff. destruct ev as [a|button x y|dlg|dlg|[idx ok]|[new_size ok]|checked];
    cbn [handle].
  - eexists. split; [done|]. by apply perform_invariant.
  - by apply mousePressEvent_invariant.
  - by apply edit_object_invariant.
  - eexists. split; [done|]. pose proof Hinv as ([Ho Hl] & Hsel & Hg).
    unfold GameMakerIDE.set_level_screen_size.
    destruct (GameMakerIDE.current_level_index s); [|exact Hinv].
    destruct dlg as [text|]; [|exact Hinv].
    destruct (parse_size text) as [[w h]|]; [|exact Hinv]. simpl.
    split_and!; [split|..]; simpl; try done.
    apply Forall_setitem; [|done]. by intros lvl [? ?].
  - eexists. split; [done|]. pose proof Hinv as ([Ho Hl] & Hsel & Hg).
    cbn [offered] in Hoff.
    assert (fst (GameMakerIDE.set_level_background (idx, ok) s) = s
            \/ exists cur,
                 fst (GameMakerIDE.set_level_background (idx, ok) s)
                 = GameMakerIDE.set_levels
                     (setitem (GameMakerIDE.levels s) cur
                        (Level.set_background_index (Some idx))) s) as [->|[cur ->]].
    { unfold GameMakerIDE.set_level_background.
      destruct (GameMakerIDE.current_level_index s) as [cur|]; [|by left].
      destruct (GameMakerIDE.backgrounds s); [by left|].
      destruct ok; [right; by exists cur|by left]. }
    + exact Hinv.
    + split_and!; [split|..]; simpl; try done.
      apply Forall_setitem; [|done]. intros lvl [_ Hi]. by split.
  - cbn [offered] in Hoff. destruct Hinv as ([Ho Hl] & Hsel & Hg).
    destruct (set_grid_size_offered new_size ok s Hoff)
      as (s' & -> & Hsp & Hob & Hlv & Hbk & Hso & Hgrid).
    exists s'. split; [done|]. unfold editor_invariant, referential_integrity.
    rewrite Hsp, Hob, Hlv, Hbk, Hso. auto.
  - eexists. split; [done|]. by destruct Hinv as ([Ho Hl] & Hsel & Hg).
Qed.

(** The project that [__init__] builds satisfies the invariant. *)
Lemma init_invariant : editor_invariant GameMakerIDE.init.
Proof.
  split_and!; [apply init_integrity|vm_compute; split; [discriminate|reflexivity]|reflexivity].
Defined.


(** ** The object dialog *)


(** ** The mouse on the canvas *)



(** ** Painting *)

Lemma py_range_pos (start stop step : Z) :
  0 < step ->
  exists l,
    py_range start stop step = Ok l
    /\ forall v, v ∈ l <-> start <= v < stop /\ (step | v - start).
Proof.
  intros Hs. unfold py_range.
  destruct (Z.eqb_spec step 0) as [|_]; [lia|].
  destruct (Z.ltb_spec 0 step) as [_|]; [|lia].
  eexists. split; [reflexivity|]. intros v.
  rewrite list_elem_of_fmap. setoid_rewrite elem_of_seq.
  set (n := (stop - start + step - 1) / step).
  assert (forall k : Z, 0 <= k -> k < n <-> start + k * step < stop) as Hn.
  { intros k Hk. unfold n. split; intros H.
    - assert (k + 1 <= (stop - start + step - 1) / step) as H1 by lia.
      assert ((k + 1) * step <= stop - start + step - 1).
      { etransitivity; [apply Z.mul_le_mono_nonneg_r; [lia|exact H1]|].
        rewrite Z.mul_comm. apply Z.mul_div_le. lia. }
      lia.
    - assert ((k + 1) * step <= stop - start + step - 1) as H1 by lia.
      apply (Z.div_le_mono _ _ step) in H1; [|lia].
      rewrite Z.div_mul in H1 by lia. lia. }
  split.
  - intros (k & -> & Hk). split.
    + split; [nia|]. apply Hn; lia.
    + exists (Z.of_nat k). lia.
  - intros [[Hlo Hhi] [q Hq]]. exists (Z.to_nat q).
    assert (0 <= q) by nia.
    split; [lia|]. split; [lia|]. simpl.
    assert (q < n); [|lia]. apply Hn; [lia|]. lia.
Qed.

Lemma tiles_spec (pix : QPixmap) (width height : Z) :
  0 < pix_width pix -> 0 < pix_height pix ->
  exists ops,
    tiles pix width height = Ok ops
    /\ forall op, op ∈ ops <->
         exists x y, op = DrawPixmap x y pix
           /\ (0 <= x < width /\ (pix_width pix | x))
           /\ (0 <= y < height /\ (pix_height pix | y)).
Proof.
  intros Hw Hh. unfold tiles.
  destruct (py_range_pos 0 width _ Hw) as (xs & -> & Hxs).
  destruct (py_range_pos 0 height _ Hh) as (ys & Hys_eq & Hys).
  assert (forall x, x ∈ xs <-> 0 <= x < width /\ (pix_width pix | x)) as Hxs'.
  { intros x. rewrite Hxs. by rewrite Z.sub_0_r. }
  assert (forall y, y ∈ ys <-> 0 <= y < height /\ (pix_height pix | y)) as Hys'.
  { intros y. rewrite Hys. by rewrite Z.sub_0_r. }
  clear Hxs Hys.
  destruct xs as [|x0 xs'] eqn:Exs.
  - exists []. split; [done|]. intros op. split; [by intros ?%elem_of_nil|].
    intros (x & _ & _ & Hx%Hxs' & _). by apply elem_of_nil in Hx.
  - rewrite <- Exs in *. clear Exs x0 xs'. rewrite Hys_eq. simpl.
    eexists. split; [reflexivity|]. intros op.
    rewrite list_elem_of_In, in_concat. split.
    + intros (row & Hrow & Hop). apply in_map_iff in Hrow as (x & <- & Hx).
      apply in_map_iff in Hop as (y & <- & Hy).
      exists x, y. split; [done|]. split; [apply Hxs'|apply Hys']; by apply list_elem_of_In.
    + intros (x & y & -> & Hx%Hxs' & Hy%Hys').
      exists (map (fun y => DrawPixmap x y pix) ys). split.
      * apply in_map_iff. exists x. split; [done|]. by apply list_elem_of_In.
      * apply in_map_iff. exists y. split; [done|]. by apply list_elem_of_In.
Qed.

Lemma isNull_false (pix : QPixmap) :
  isNull pix = false <-> 0 < pix_width pix /\ 0 < pix_height pix.
Proof. unfold isNull. rewrite orb_false_iff, !Z.leb_gt. tauto. Qed.

(** X8. A tiled image background covers the level: the repaint draws the
    pixmap only at multiples of its size that start inside the level,
    and every point of the level lies in one of the tiles drawn. *)
Theorem tiled_background_covers codec (level : Level.t)
    (backgrounds : list BackgroundResource.t) (idx : Z) (bg : BackgroundResource.t)
    (b : byte) (bs : bytes) :
  Level.background_index level = Some idx ->
  0 <= idx ->
  backgrounds !! Z.to_nat idx = Some bg ->
  BackgroundResource.mode bg = "image"%string ->
  BackgroundResource.img_bytes bg = Some (b :: bs) ->
  BackgroundResource.tiled bg = true ->
  isNull (Background_pixmap codec bg) = false ->
  let pix := Background_pixmap codec bg in
  exists ops,
    paint_background codec level backgrounds = Ok ops
    /\ (forall op, op ∈ ops ->
        exists x y, op = DrawPixmap x y pix
          /\ 0 <= x < Level.width level /\ (pix_width pix | x)
          /\ 0 <= y < Level.height level /\ (pix_height pix | y))
    /\ (forall px py, 0 <= px < Level.width level -> 0 <= py < Level.height level ->
        exists x y, DrawPixmap x y pix ∈ ops
          /\ x <= px < x + pix_width pix
          /\ y <= py < y + pix_height pix).
Proof.
  intros Hidx H0 Hbg Hmode Hbytes Htiled Hnull pix. subst pix.
  pose proof Hnull as [Hw Hh]%isNull_false.
  assert (0 <= idx < len backgrounds) as Hr.
  { apply lookup_lt_Some in Hbg. unfold len. lia. }
  destruct (getitem_in_range backgrounds idx Hr) as (bg' & Hbg' & Hget).
  assert (bg' = bg) as -> by congruence.
  unfold paint_background.
  assert (selected_in (Level.background_index level) backgrounds = Some idx) as ->.
  { by apply selected_in_Some. }
  rewrite Hget. cbn [mbind result_bind]. rewrite Hmode, Hbytes, Hnull, Htiled.
  cbn [String.eqb Ascii.eqb Bool.eqb].
  destruct (tiles_spec (Background_pixmap codec bg) (Level.width level)
              (Level.height level) Hw Hh) as (ops & -> & Hops).
  exists ops. split; [done|]. split.
  - intros op (x & y & -> & [? ?] & [? ?])%Hops. by exists x, y.
  - intros px py Hpx Hpy.
    set (w := pix_width (Background_pixmap codec bg)) in *.
    set (h := pix_height (Background_pixmap codec bg)) in *.
    exists (w * (px / w)), (h * (py / h)).
    pose proof (Z.mul_div_le px w Hw). pose proof (Z.mul_div_le py h Hh).
    pose proof (Z.mul_succ_div_gt px w Hw). pose proof (Z.mul_succ_div_gt py h Hh).
    assert (0 <= px / w) by (apply Z.div_pos; lia).
    assert (0 <= py / h) by (apply Z.div_pos; lia).
    split; [|lia]. apply Hops. eexists _, _. split; [reflexivity|].
    split; (split; [nia|apply Z.divide_factor_l]).
Qed.

Lemma paint_instance_spec codec (inst : GameObjectInstance.t)
    (objects : list GameObjectType.t) (sprites : list Sprite.t) :
  0 <= GameObjectInstance.object_index inst ->
  exists r,
    paint_instance codec inst objects sprites = Ok r
    /\ forall x y pix,
         r = Some (x, y, pix) <->
         exists sprite,
           resolves_sprite objects sprites inst sprite
           /\ isNull (Sprite_pixmap codec sprite) = false
           /\ x = GameObjectInstance.x inst /\ y = GameObjectInstance.y inst
           /\ pix = Sprite_pixmap codec sprite.
Proof.
  intros H0. unfold paint_instance.
  destruct (Z.geb_spec (GameObjectInstance.object_index inst) (len objects)) as [Hge|Hlt].
  { exists None. split; [done|]. intros x y pix. split; [done|].
    intros (sprite & (obj & si & _ & Hobj & _) & _).
    apply lookup_lt_Some in Hobj. unfold len in Hge. lia. }
  destruct (getitem_in_range objects (GameObjectInstance.object_index inst))
    as (obj & Hobj & ->); [lia|].
  cbn [mbind result_bind].
  destruct (GameObjectType.sprite_index obj) as [si|] eqn:Hsi.
  2:{ exists None. split; [done|]. intros x y pix. split; [done|].
      intros (sprite & (obj' & si & _ & Hobj' & Hsi' & _) & _). congruence. }
  destruct (in_range si sprites) eqn:Hin.
  2:{ exists None. split; [done|]. intros x y pix. split; [done|].
      intros (sprite & (obj' & si' & _ & Hobj' & Hsi' & Hpos & Hsp) & _).
      assert (si' = si) as -> by congruence.
      apply lookup_lt_Some in Hsp.
      assert (in_range si sprites = true); [|congruence].
      apply in_range_spec. unfold len. lia. }
  apply in_range_spec in Hin.
  destruct (getitem_in_range sprites si Hin) as (sprite & Hsp & ->).
  cbn [mbind result_bind].
  assert (forall sprite', resolves_sprite objects sprites inst sprite' -> sprite' = sprite)
    as Huniq.
  { intros sprite' (obj' & si' & _ & Hobj' & Hsi' & _ & Hsp').
    assert (obj' = obj) as -> by congruence.
    assert (si' = si) as -> by congruence. congruence. }
  destruct (isNull (Sprite_pixmap codec sprite)) eqn:Hnull.
  - exists None. split; [done|]. intros x y pix. split; [done|].
    intros (sprite' & ->%Huniq & Hn & _). congruence.
  - eexists. split; [reflexivity|]. intros x y pix. split.
    + intros [= <- <- <-]. exists sprite. split_and!; try done.
      exists obj, si. split_and!; try done; lia.
    + intros (sprite' & ->%Huniq & _ & -> & -> & ->). done.
Qed.

(** X9. A dangling reference is skipped, not an error: the repaint draws,
    for the instances whose object index is not negative, exactly those
    whose object type exists, has a sprite index inside the sprite list
    and whose pixmap is not null, each at its own position. *)
Theorem paint_draws_resolved_instances codec (insts : list GameObjectInstance.t)
    (objects : list GameObjectType.t) (sprites : list Sprite.t) :
  Forall (fun inst => 0 <= GameObjectInstance.object_index inst) insts ->
  exists ops,
    paint_instances codec insts objects sprites = Ok ops
    /\ forall op, op ∈ ops <->
         exists inst sprite,
           inst ∈ insts
           /\ resolves_sprite objects sprites inst sprite
           /\ isNull (Sprite_pixmap codec sprite) = false
           /\ op = DrawPixmap (GameObjectInstance.x inst) (GameObjectInstance.y inst)
                     (Sprite_pixmap codec sprite).
Proof.
  induction 1 as [|inst insts H0 _ IH].
  - exists []. split; [done|]. intros op. split; [by intros ?%elem_of_nil|].
    by intros (inst & _ & ?%elem_of_nil & _).
  - destruct IH as (ops & Hops & Hspec).
    destruct (paint_instance_spec codec inst objects sprites H0) as (r & Hr & Hrspec).
    cbn [paint_instances]. rewrite Hr, Hops. cbn [mbind result_bind].
    eexists. split; [reflexivity|]. intros op.
    destruct r as [[[x y] pix]|].
    + destruct (proj1 (Hrspec x y pix) eq_refl) as (sprite & Hres & Hnull & -> & -> & ->).
      rewrite elem_of_cons, Hspec. split.
      * intros [->|(inst' & sprite' & Hin & ?)].
        -- exists inst, sprite. split_and!; try done. apply elem_of_cons. by left.
        -- exists inst', sprite'. split; [|done]. apply elem_of_cons. by right.
      * intros (inst' & sprite' & [->|Hin]%elem_of_cons & Hres' & Hnull' & ->).
        -- left. pose proof (proj2 (Hrspec _ _ _)
                    (ex_intro _ sprite' (conj Hres' (conj Hnull' (conj eq_refl (conj eq_refl eq_refl))))))
             as Heq. congruence.
        -- right. by exists inst', sprite'.
    + rewrite Hspec. split.
      * intros (inst' & sprite' & Hin & ?). exists inst', sprite'.
        split; [|done]. apply elem_of_cons. by right.
      * intros (inst' & sprite' & [->|Hin]%elem_of_cons & Hres' & Hnull' & ->).
        -- pose proof (proj2 (Hrspec _ _ _)
                    (ex_intro _ sprite' (conj Hres' (conj Hnull' (conj eq_refl (conj eq_refl eq_refl))))))
             as Heq. discriminate.
        -- by exists inst', sprite'.
Qed.

Lemma py_range_ok (start stop step : Z) :
  step <> 0 -> exists l, py_range start stop step = Ok l.
Proof.
  intros H. unfold py_range. destruct (Z.eqb_spec step 0); [done|]. by eexists.
Qed.

Lemma paint_background_ok codec (level : Level.t)
    (backgrounds : list BackgroundResource.t) :
  exists ops, paint_background codec level backgrounds = Ok ops.
Proof.
  unfold paint_background.
  destruct (selected_in _ _) as [idx|] eqn:Hsel; [|by eexists].
  apply selected_in_Some in Hsel as [_ Hr].
  destruct (getitem_in_range backgrounds idx Hr) as (bg & _ & ->).
  cbn [mbind result_bind].
  destruct (String.eqb _ "color"); [by eexists|].
  destruct (String.eqb _ "image"); [|by eexists].
  destruct (BackgroundResource.img_bytes bg) as [[|b bs]|]; try by eexists.
  destruct (isNull _) eqn:Hnull; [by eexists|].
  destruct (BackgroundResource.tiled bg); [|by eexists].
  apply isNull_false in Hnull as [Hw Hh].
  destruct (tiles_spec _ (Level.width level) (Level.height level) Hw Hh) as (ops & -> & _).
  by eexists.
Qed.

Lemma paint_grid_ok (cv : GameCanvas.t) (level : Level.t) :
  (GameCanvas.show_grid cv = true -> GameCanvas.grid_size cv <> 0) ->
  exists ops, paint_grid cv level = Ok ops.
Proof.
  intros Hg. unfold paint_grid. destruct (GameCanvas.show_grid cv); [|by eexists].
  destruct (py_range_ok 0 (Level.width level) _ (Hg eq_refl)) as (xs & ->).
  destruct (py_range_ok 0 (Level.height level) _ (Hg eq_refl)) as (ys & ->).
  by eexists.
Qed.

Lemma paint_grid_lines (cv : GameCanvas.t) (level : Level.t) :
  GameCanvas.show_grid cv = true ->
  0 < GameCanvas.grid_size cv ->
  exists ops,
    paint_grid cv level = Ok ops
    /\ (forall x, 0 <= x < Level.width level -> (GameCanvas.grid_size cv | x) ->
        DrawLine x 0 x (Level.height level) ∈ ops)
    /\ (forall y, 0 <= y < Level.height level -> (GameCanvas.grid_size cv | y) ->
        DrawLine 0 y (Level.width level) y ∈ ops).
Proof.
  intros Hshow Hg. unfold paint_grid. rewrite Hshow.
  destruct (py_range_pos 0 (Level.width level) _ Hg) as (xs & -> & Hxs).
  destruct (py_range_pos 0 (Level.height level) _ Hg) as (ys & -> & Hys).
  eexists. split; [reflexivity|]. split.
  - intros x Hx Hd. apply elem_of_app. left. apply list_elem_of_In, in_map_iff.
    exists x. split; [done|]. apply list_elem_of_In, Hxs. by rewrite Z.sub_0_r.
  - intros y Hy Hd. apply elem_of_app. right. apply list_elem_of_In, in_map_iff.
    exists y. split; [done|]. apply list_elem_of_In, Hys. by rewrite Z.sub_0_r.
Qed.

Lemma paint_instances_ok codec (insts : list GameObjectInstance.t)
    (objects : list GameObjectType.t) (sprites : list Sprite.t) :
  Forall (fun inst => 0 <= GameObjectInstance.object_index inst) insts ->
  exists ops, paint_instances codec insts objects sprites = Ok ops.
Proof.
  induction 1 as [|inst insts H0 _ [ops Hops]]; [by eexists|].
  destruct (paint_instance_spec codec inst objects sprites H0) as (r & Hr & _).
  cbn [paint_instances]. rewrite Hr, Hops. by eexists.
Qed.

(** X10. A repaint of the canvas never raises as long as the grid size
    is not 0 while the grid is shown and no instance of the current
    level has a negative object index: a background index, an object
    index or a sprite index that points past the end of its list only
    leaves something undrawn. *)
Theorem paintEvent_never_raises codec (s : GameMakerIDE.t) :
  (GameCanvas.show_grid (GameMakerIDE.canvas s) = true ->
   GameCanvas.grid_size (GameMakerIDE.canvas s) <> 0) ->
  (forall level, GameMakerIDE.get_current_level s = Some level ->
   Forall (fun inst => 0 <= GameObjectInstance.object_index inst)
     (Level.instances level)) ->
  exists ops, paintEvent codec s = Ok ops.
Proof.
  intros Hg Hinsts. unfold paintEvent.
  destruct (GameMakerIDE.get_current_level s) as [level|]; [|by eexists].
  destruct (paint_background_ok codec level (GameMakerIDE.backgrounds s)) as (bg & ->).
  destruct (paint_grid_ok (GameMakerIDE.canvas s) level Hg) as (grid & ->).
  destruct (paint_instances_ok codec (Level.instances level) (GameMakerIDE.objects s)
              (GameMakerIDE.sprites s) (Hinsts level eq_refl)) as (insts & ->).
  by eexists.
Qed.

(** X11. What is drawn can be clicked: if the repaint draws instance [i]
    of a level, a click anywhere on the rectangle of the drawn pixmap
    (edges included) hits an instance, namely [i] or one later in the
    list. *)
Theorem drawn_instance_can_be_clicked codec (lvl : Level.t)
    (objects : list GameObjectType.t) (sprites : list Sprite.t)
    (i : nat) (inst : GameObjectInstance.t) (x y : Z) (pix : QPixmap) (px py : Z) :
  no_negative_sprite_index objects ->
  Forall (valid_instance objects) (Level.instances lvl) ->
  Level.instances lvl !! i = Some inst ->
  paint_instance codec inst objects sprites = Ok (Some (x, y, pix)) ->
  x <= px <= x + pix_width pix ->
  y <= py <= y + pix_height pix ->
  exists k, hitTest codec lvl px py objects sprites = Ok (Some k) /\ (i <= k)%nat.
Proof.
  intros Hneg Hvalid Hi Hpaint Hpx Hpy.
  assert (valid_instance objects inst) as Hv.
  { rewrite Forall_forall in Hvalid. eapply Hvalid, list_elem_of_lookup_2, Hi. }
  destruct (paint_instance_spec codec inst objects sprites (proj1 Hv)) as (r & Hr & Hspec).
  rewrite Hpaint in Hr. injection Hr as <-.
  destruct (proj1 (Hspec x y pix) eq_refl) as (sprite & Hres & _ & -> & -> & ->).
  assert (in_hit_rectangle codec objects sprites inst px py) as Hhit.
  { exists sprite. by split. }
  destruct (hitTest_topmost codec objects sprites px py Hneg lvl Hvalid) as (r & Hr & Htop).
  destruct r as [k|].
  - exists k. split; [done|]. destruct Htop as [_ Hlater].
    destruct (decide (i <= k)%nat); [done|].
    exfalso. apply (Hlater i inst); [lia|done..].
  - exfalso. by apply (Htop i inst).
Qed.


(** ** What a load makes of a file *)

Lemma load_instances_valid (insts : list json) (objects : list GameObjectType.t) :
  forall lvl lvl',
    load_instances insts objects lvl = Ok lvl' ->
    Forall (valid_instance objects) (Level.instances lvl) ->
    Forall (valid_instance objects) (Level.instances lvl').
Proof.
  induction insts as [|inst rest IH]; intros lvl lvl'; cbn [load_instances].
  - by intros [= <-].
  - destruct (subscript inst "object_index" ≫= as_int) as [oi|e]; [|done].
    cbn [mbind result_bind].
    destruct (in_range oi objects) eqn:Hin; [|apply IH].
    destruct (subscript inst "x" ≫= as_int) as [x|e]; [|done].
    destruct (subscript inst "y" ≫= as_int) as [y|e]; [|done].
    cbn [mbind result_bind]. intros Hload Hv. apply (IH _ _ Hload). simpl.
    apply Forall_app. split; [done|]. apply Forall_singleton.
    by apply in_range_spec in Hin.
Qed.

Lemma Level_from_dict_valid (lvl_info : json) (objects : list GameObjectType.t)
    (lvl : Level.t) :
  Level_from_dict lvl_info objects = Ok lvl ->
  Forall (valid_instance objects) (Level.instances lvl).
Proof.
  unfold Level_from_dict.
  destruct (subscript lvl_info "name" ≫= as_str) as [name|e]; [|done].
  destruct (subscript lvl_info "width" ≫= as_int) as [width|e]; [|done].
  destruct (subscript lvl_info "height" ≫= as_int) as [height|e]; [|done].
  destruct (dict_get lvl_info "background_index" ≫= as_opt_int) as [bg|e]; [|done].
  destruct (subscript lvl_info "instances" ≫= iterate) as [insts|e]; [|done].
  cbn [mbind result_bind]. intros Hload.
  by apply (load_instances_valid _ _ _ _ Hload).
Qed.

Lemma for_each_invariant (P : GameMakerIDE.t -> Prop) (items : list json)
    (body : json -> step) :
  (forall item s, P s -> P (fst (body item s))) ->
  forall s, P s -> P (fst (for_each items body s)).
Proof.
  intros Hbody. induction items as [|item rest IH]; intros s Hs; [done|].
  cbn [for_each]. unfold and_then. specialize (Hbody item s Hs).
  destruct (body item s) as [s1 [[]|e]]; simpl in *; [by apply IH|done].
Qed.

Lemma load_levels_valid (data : json) (s : GameMakerIDE.t) :
  let s' := fst (load_levels data s) in
  GameMakerIDE.objects s' = GameMakerIDE.objects s
  /\ Forall (fun lvl => Forall (valid_instance (GameMakerIDE.objects s))
                          (Level.instances lvl))
       (GameMakerIDE.levels s').
Proof.
  unfold load_levels, rebuild.
  destruct (subscript data "levels" ≫= iterate) as [items|e]; simpl; [|by split].
  apply (for_each_invariant
           (fun s' => GameMakerIDE.objects s' = GameMakerIDE.objects s
                      /\ Forall (fun lvl => Forall (valid_instance (GameMakerIDE.objects s))
                                              (Level.instances lvl))
                           (GameMakerIDE.levels s'))); [|by split].
  intros item s1 [Hobj Hlv]. unfold append_with.
  destruct (Level_from_dict item (GameMakerIDE.objects s1)) as [lvl|e] eqn:Hlvl;
    simpl; [|by split].
  split; [done|]. apply Forall_app. split; [done|]. apply Forall_singleton.
  rewrite <- Hobj. by apply Level_from_dict_valid with item.
Qed.


Lemma load_instances_filter (objects : list GameObjectType.t)
    (insts : list GameObjectInstance.t) :
  forall lvl,
    load_instances (GameObjectInstance_to_dict <$> insts) objects lvl
    = Ok (Level.set_instances
            (Level.instances lvl ++ filter (valid_instance objects) insts) lvl).
Proof.
  induction insts as [|inst insts IH]; intros lvl.
  - simpl. rewrite app_nil_r. by destruct lvl.
  - cbn [fmap list_fmap load_instances]. simpl. rewrite filter_cons.
    destruct (decide (valid_instance objects inst)) as [Hv|Hv].
    + apply in_range_spec in Hv. rewrite Hv, IH. simpl.
      rewrite <- app_assoc. destruct inst. reflexivity.
    + assert (in_range (GameObjectInstance.object_index inst) objects = false) as ->.
      { destruct (in_range _ objects) eqn:E; [|done]. by apply in_range_spec in E. }
      apply IH.
Qed.

(** X14. A level written by a save and read back against a list of
    object types comes back with its name, size and background index and
    with exactly those of its instances whose object index is inside
    that list, in their order; the others are dropped without an
    error. *)
Theorem Level_reload_drops_orphans (objects : list GameObjectType.t) (lvl : Level.t) :
  Level_from_dict (Level_to_dict lvl) objects
  = Ok (Level.set_instances (filter (valid_instance objects) (Level.instances lvl)) lvl).
Proof.
  unfold Level_from_dict.
  destruct lvl as [name width height [b|] insts]; simpl;
    by rewrite (load_instances_filter objects insts).
Qed.

Lemma for_each_append_shape {A V} (get : GameMakerIDE.t -> list A)
    (set : list A -> GameMakerIDE.t -> GameMakerIDE.t) (view : GameMakerIDE.t -> V)
    (build : json -> V -> result A) (items : list json) (v0 : V) :
  (forall l s, get (set l s) = l) ->
  (forall l l' s, set l (set l' s) = set l s) ->
  (forall s, set (get s) s = s) ->
  (forall l s, view (set l s) = view s) ->
  exists l r, forall s, view s = v0 ->
    for_each items
      (fun item s => append_with (build item (view s))
                       (fun a s => set (get s ++ [a]) s) s) s
    = (set (get s ++ l) s, r).
Proof.
  intros Hgs Hss Hsg Hv. induction items as [|item rest (l & r & IH)].
  - exists [], (Ok ()). intros s _. simpl. by rewrite app_nil_r, Hsg.
  - destruct (build item v0) as [a|e] eqn:Hb.
    + exists (a :: l), r. intros s Hs. cbn [for_each]. unfold and_then, append_with at 1.
      rewrite Hs, Hb. rewrite IH by (by rewrite Hv).
      by rewrite Hgs, Hss, <- app_assoc.
    + exists [], (Raise e). intros s Hs. cbn [for_each]. unfold and_then, append_with at 1.
      rewrite Hs, Hb. by rewrite app_nil_r, Hsg.
Qed.

Lemma rebuild_shape {A V} (get : GameMakerIDE.t -> list A)
    (set : list A -> GameMakerIDE.t -> GameMakerIDE.t) (view : GameMakerIDE.t -> V)
    (build : json -> V -> result A) (data : json) (key : string) (v0 : V) :
  (forall l s, get (set l s) = l) ->
  (forall l l' s, set l (set l' s) = set l s) ->
  (forall s, set (get s) s = s) ->
  (forall l s, view (set l s) = view s) ->
  exists l r, forall s, view s = v0 ->
    rebuild (set []) data key
      (fun item s => append_with (build item (view s))
                       (fun a s => set (get s ++ [a]) s) s) s
    = (set l s, r).
Proof.
  intros Hgs Hss Hsg Hv. unfold rebuild.
  destruct (subscript data key ≫= iterate) as [items|e].
  - destruct (for_each_append_shape get set view build items v0 Hgs Hss Hsg Hv)
      as (l & r & Hshape).
    exists l, r. intros s Hs. rewrite Hshape by (by rewrite Hv).
    by rewrite Hgs, Hss.
  - by exists [], (Raise e).
Qed.

Lemma load_backgrounds_shape (data : json) :
  exists l r, forall s,
    load_backgrounds data s = (GameMakerIDE.set_backgrounds l s, r).
Proof.
  destruct (rebuild_shape GameMakerIDE.backgrounds GameMakerIDE.set_backgrounds
              (fun _ => ()) (fun item _ => BackgroundResource_from_dict item)
              data "backgrounds" ()) as (l & r & H); try done.
  - by intros [].
  - exists l, r. intros s. by apply H.
Qed.

Lemma load_sprites_shape (data : json) :
  exists l r, forall s, load_sprites data s = (GameMakerIDE.set_sprites l s, r).
Proof.
  destruct (rebuild_shape GameMakerIDE.sprites GameMakerIDE.set_sprites
              (fun _ => ()) (fun item _ => Sprite_from_dict item)
              data "sprites" ()) as (l & r & H); try done.
  - by intros [].
  - exists l, r. intros s. by apply H.
Qed.

Lemma load_objects_shape (data : json) :
  exists l r, forall s, load_objects data s = (GameMakerIDE.set_objects l s, r).
Proof.
  destruct (rebuild_shape GameMakerIDE.objects GameMakerIDE.set_objects
              (fun _ => ()) (fun item _ => GameObjectType_from_dict item)
              data "objects" ()) as (l & r & H); try done.
  - by intros [].
  - exists l, r. intros s. by apply H.
Qed.

Lemma load_levels_shape (data : json) (objs : list GameObjectType.t) :
  exists l r, forall s, GameMakerIDE.objects s = objs ->
    load_levels data s = (GameMakerIDE.set_levels l s, r).
Proof.
  destruct (rebuild_shape GameMakerIDE.levels GameMakerIDE.set_levels
              GameMakerIDE.objects (fun item objs => Level_from_dict item objs)
              data "levels" objs) as (l & r & H); try done.
  - by intros [].
  - exists l, r. intros s. by apply H.
Qed.

Lemma load_selection_shape (data : json) (s t : GameMakerIDE.t) :
  GameMakerIDE.levels s = GameMakerIDE.levels t ->
  GameMakerIDE.objects s = GameMakerIDE.objects t ->
  GameMakerIDE.backgrounds s = GameMakerIDE.backgrounds t ->
  snd (load_selection data s) = snd (load_selection data t)
  /\ (snd (load_selection data s) = Ok () ->
      let s' := fst (load_selection data s) in
      let t' := fst (load_selection data t) in
      GameMakerIDE.selected_level_index t' = GameMakerIDE.selected_level_index s'
      /\ GameMakerIDE.selected_object_index t' = GameMakerIDE.selected_object_index s'
      /\ GameMakerIDE.selected_background_index t'
         = GameMakerIDE.selected_background_index s').
Proof.
  intros Hl Ho Hb. unfold load_selection, and_then, assign_selection, settle_selection.
  destruct (dict_get data "selected_level_index" ≫= as_opt_int) as [lvl|e]; [|done].
  destruct (dict_get data "selected_object_index" ≫= as_opt_int) as [obj|e]; [|done].
  destruct (dict_get data "selected_background_index" ≫= as_opt_int) as [bg|e]; [|done].
  simpl. by rewrite Hl, Ho, Hb.
Qed.

(** X15. A successful load depends on the file alone: had the window
    held any other project, the same file would have loaded as well and
    given the same backgrounds, sprites, object types, levels and the
    same three selections.  What remains of the window as it was is the
    selected sprite row and the canvas with its grid settings. *)
Theorem load_forgets_previous_document (data : json) (s s' t : GameMakerIDE.t) :
  reconstruct data s = (s', Ok ()) ->
  exists t',
    reconstruct data t = (t', Ok ())
    /\ GameMakerIDE.backgrounds t' = GameMakerIDE.backgrounds s'
    /\ GameMakerIDE.sprites t' = GameMakerIDE.sprites s'
    /\ GameMakerIDE.objects t' = GameMakerIDE.objects s'
    /\ GameMakerIDE.levels t' = GameMakerIDE.levels s'
    /\ GameMakerIDE.selected_level_index t' = GameMakerIDE.selected_level_index s'
    /\ GameMakerIDE.selected_object_index t' = GameMakerIDE.selected_object_index s'
    /\ GameMakerIDE.selected_background_index t'
       = GameMakerIDE.selected_background_index s'
    /\ GameMakerIDE.selected_sprite_index t' = GameMakerIDE.selected_sprite_index t
    /\ GameMakerIDE.canvas t' = GameMakerIDE.canvas t.
Proof.
  unfold reconstruct, and_then.
  destruct (load_backgrounds_shape data) as (lb & rb & Hb). rewrite !Hb.
  destruct rb as [[]|e]; [|done].
  destruct (load_sprites_shape data) as (ls & rs & Hs). rewrite !Hs.
  destruct rs as [[]|e]; [|done].
  destruct (load_objects_shape data) as (lo & ro & Ho). rewrite !Ho.
  destruct ro as [[]|e]; [|done].
  destruct (load_levels_shape data lo) as (ll & rl & Hl). rewrite !Hl by done.
  destruct rl as [[]|e]; [|done].
  set (s4 := GameMakerIDE.set_levels ll _). set (t4 := GameMakerIDE.set_levels ll _).
  destruct (load_selection_shape data s4 t4) as [Hr Hsel]; [done..|].
  pose proof (fun X (part : GameMakerIDE.t -> X) H1 H2 H3 =>
                load_selection_keeps part data H1 H2 H3 s4) as Hks.
  pose proof (fun X (part : GameMakerIDE.t -> X) H1 H2 H3 =>
                load_selection_keeps part data H1 H2 H3 t4) as Hkt.
  destruct (load_selection data s4) as [s5 r5]. intros [= -> ->].
  destruct (load_selection data t4) as [t5 r5]. simpl in *. subst r5.
  destruct (Hsel eq_refl) as (? & ? & ?).
  exists t5. split_and!; try done.
  - rewrite (Hkt _ GameMakerIDE.backgrounds), (Hks _ GameMakerIDE.backgrounds); done.
  - rewrite (Hkt _ GameMakerIDE.sprites), (Hks _ GameMakerIDE.sprites); done.
  - rewrite (Hkt _ GameMakerIDE.objects), (Hks _ GameMakerIDE.objects); done.
  - rewrite (Hkt _ GameMakerIDE.levels), (Hks _ GameMakerIDE.levels); done.
  - rewrite (Hkt _ GameMakerIDE.selected_sprite_index); done.
  - rewrite (Hkt _ GameMakerIDE.canvas); done.
Qed.



(** ** Deleting, then painting *)

Lemma getitem_lookup {A} (l : list A) (i : Z) :
  0 <= i -> getitem l i = match l !! Z.to_nat i with
                          | Some a => Ok a
                          | None => Raise IndexError
                          end.
Proof.
  intros H. unfold getitem. destruct (Z.ltb_spec i 0); [lia|].
  destruct (in_range i l) eqn:E; [done|].
  destruct (l !! Z.to_nat i) eqn:El; [|done].
  apply lookup_lt_Some in El.
  assert (in_range i l = true); [|congruence].
  apply in_range_spec. unfold len. lia.
Qed.

Lemma selected_in_None {A} (idx : option Z) (l : list A) :
  selected_in idx l = None <-> (forall k, idx = Some k -> ~ 0 <= k < len l).
Proof.
  unfold selected_in. destruct idx as [i|]; [|split; [by intros|done]].
  destruct (in_range i l) eqn:E.
  - apply in_range_spec in E. split; [done|]. intros H. by destruct (H i).
  - split; [|done]. intros _ k [= <-] Hk. apply in_range_spec in Hk. congruence.
Qed.

(** X18. Deleting a background does to the canvas what its question
    says: a level that used the deleted background is painted white
    from then on, and every other level is painted as it was before,
    renumbered index or not. *)
Theorem delete_background_repaint codec (s : GameMakerIDE.t) (k : Z) (i : nat)
    (lvl : Level.t) :
  GameMakerIDE.selected_background_index s = Some k ->
  0 <= k < len (GameMakerIDE.backgrounds s) ->
  GameMakerIDE.levels s !! i = Some lvl ->
  let s' := GameMakerIDE.delete_background true s in
  exists lvl',
    GameMakerIDE.levels s' !! i = Some lvl'
    /\ (Level.background_index lvl = Some k ->
        paint_background codec lvl' (GameMakerIDE.backgrounds s')
        = Ok [FillRect 0 0 (Level.width lvl) (Level.height lvl) White])
    /\ (Level.background_index lvl <> Some k ->
        paint_background codec lvl' (GameMakerIDE.backgrounds s')
        = paint_background codec lvl (GameMakerIDE.backgrounds s)).
Proof.
  intros Hsel Hk Hlvl s'. subst s'.
  rewrite (delete_background_unfold s k Hsel Hk). simpl.
  rewrite list_lookup_fmap, Hlvl. simpl. eexists. split; [reflexivity|].
  set (bgs := GameMakerIDE.backgrounds s) in *.
  pose proof (len_del bgs k Hk) as Hlen.
  destruct (cascade_background_cases k lvl) as (_ & Hw & Hh & _ & Heq & Hgt & Hother).
  unfold paint_background. rewrite Hw, Hh. split.
  - intros Hb. by rewrite (Heq Hb).
  - intros Hne. destruct (Level.background_index lvl) as [j|] eqn:Hj.
    2:{ rewrite Hother by auto. by rewrite Hj. }
    destruct (Z.lt_total j k) as [Hlt|[->|Hgtk]]; [|done|].
    + rewrite Hother by (right; eauto). rewrite Hj.
      destruct (decide (0 <= j)) as [H0|H0].
      * assert (selected_in (Some j) (del bgs k) = Some j) as ->
          by (apply selected_in_Some; split; [done|lia]).
        assert (selected_in (Some j) bgs = Some j) as ->
          by (apply selected_in_Some; split; [done|lia]).
        rewrite !getitem_lookup by done. by rewrite del_lookup_lt by lia.
      * assert (selected_in (Some j) (del bgs k) = None) as ->
          by (apply selected_in_None; intros ? [= <-]; lia).
        assert (selected_in (Some j) bgs = None) as ->
          by (apply selected_in_None; intros ? [= <-]; lia).
        done.
    + rewrite (Hgt j eq_refl) by lia.
      destruct (decide (j < len bgs)) as [Hin|Hout].
      * assert (selected_in (Some (j - 1)) (del bgs k) = Some (j - 1)) as ->
          by (apply selected_in_Some; split; [done|lia]).
        assert (selected_in (Some j) bgs = Some j) as ->
          by (apply selected_in_Some; split; [done|lia]).
        rewrite !getitem_lookup by lia. by rewrite del_lookup_gt by lia.
      * assert (selected_in (Some (j - 1)) (del bgs k) = None) as ->
          by (apply selected_in_None; intros ? [= <-]; lia).
        assert (selected_in (Some j) bgs = None) as ->
          by (apply selected_in_None; intros ? [= <-]; lia).
        done.
Qed.

(** X19. After the current level is deleted the editor shows the level
    that followed it, or the one before it when it was the last, or no
    level when it was the only one. *)
Theorem delete_level_selects_neighbour (s : GameMakerIDE.t) (k : Z) :
  GameMakerIDE.selected_level_index s = Some k ->
  0 <= k < len (GameMakerIDE.levels s) ->
  GameMakerIDE.get_current_level (GameMakerIDE.delete_level true s)
  = match GameMakerIDE.levels s !! S (Z.to_nat k) with
    | Some next => Some next
    | None => if k =? 0 then None else GameMakerIDE.levels s !! Z.to_nat (k - 1)
    end.
Proof.
  intros Hsel Hk. unfold GameMakerIDE.delete_level.
  assert (selected_in (GameMakerIDE.selected_level_index s) (GameMakerIDE.levels s)
          = Some k) as -> by (by apply selected_in_Some).
  set (lv := GameMakerIDE.levels s) in *. unfold len in Hk.
  assert (length (del lv k) = (length lv - 1)%nat) as Hlen.
  { unfold del. rewrite length_delete; [done|]. apply lookup_lt_is_Some. lia. }
  cbn [GameMakerIDE.levels GameMakerIDE.set_levels].
  destruct (del lv k) as [|l0 rest] eqn:Hdel.
  - simpl in Hlen. assert (k = 0) as -> by lia.
    unfold GameMakerIDE.get_current_level, GameMakerIDE.current_level_index.
    cbn [GameMakerIDE.levels GameMakerIDE.set_levels GameMakerIDE.selected_level_index
         GameMakerIDE.set_selected_level_index selected_in mbind option_bind].
    change (Z.to_nat 0) with 0%nat.
    rewrite (lookup_ge_None_2 lv 1); [done|]. lia.
  - assert (0 < length lv - 1)%nat as Hpos by (simpl in Hlen; lia).
    rewrite <- Hdel in *. clear Hdel l0 rest.
    unfold GameMakerIDE.get_current_level, GameMakerIDE.current_level_index.
    cbn [GameMakerIDE.levels GameMakerIDE.set_levels GameMakerIDE.selected_level_index
         GameMakerIDE.set_selected_level_index].
    assert (selected_in (Some (k `min` (len (del lv k) - 1))) (del lv k)
            = Some (k `min` (len (del lv k) - 1))) as ->
      by (apply selected_in_Some; split; [done|unfold len; lia]).
    simpl. unfold len. rewrite Hlen. unfold del.
    destruct (lv !! S (Z.to_nat k)) as [next|] eqn:Hnext.
    + pose proof (lookup_lt_Some _ _ _ Hnext).
      rewrite Z.min_l by lia. rewrite list_lookup_delete_ge by lia.
      by rewrite Hnext.
    + apply lookup_ge_None_1 in Hnext.
      rewrite Z.min_r by lia.
      destruct (Z.eqb_spec k 0) as [->|Hk0]; [simpl in *; lia|].
      rewrite list_lookup_delete_lt by lia. f_equal. lia.
Qed.

(** ** The playback program *)

Lemma getitem_fmap {A B} (f : A -> B) (l : list A) (i : Z) (a : A) :
  0 <= i -> l !! Z.to_nat i = Some a -> getitem (f <$> l) i = Ok (f a).
Proof.
  intros H0 Hl. rewrite getitem_lookup by done. by rewrite list_lookup_fmap, Hl.
Qed.

Section RunnerProofs.
Context {Surface : Type} (Surface_40 : Surface).
Context (image_load : bytes -> option Surface).
Context (set_mode : json -> json -> bool).
Context (blit : Surface -> json -> json -> bool).

Lemma load_image_saved (sp : Sprite.t) :
  load_image Surface Surface_40 image_load (Sprite_to_dict sp)
  = match surface_of Surface Surface_40 image_load sp with
    | Some surface => Done surface
    | None => PygameRaise
    end.
Proof.
  unfold load_image, surface_of.
  change (subscript (Sprite_to_dict sp) "img_bytes")
    with (Ok (A:=json) (encode_image (Sprite.img_bytes sp))).
  cbn [py mbind run_bind].
  destruct (Sprite.img_bytes sp) as [[|b bs]|]; try done.
  cbn [encode_image truthy]. rewrite b64encode_nonempty. cbn [negb].
  rewrite b64_roundtrip. cbn [py mbind result_bind run_bind].
  by destruct (image_load (b :: bs)).
Qed.

Lemma load_images_saved (sprites : list Sprite.t) (surfaces : list Surface) :
  Forall2 (fun sp surface => surface_of Surface Surface_40 image_load sp = Some surface)
    sprites surfaces ->
  load_images Surface Surface_40 image_load (Sprite_to_dict <$> sprites) = Done surfaces.
Proof.
  induction 1 as [|sp surface sprites surfaces Hsp _ IH]; [done|].
  cbn [fmap list_fmap load_images]. rewrite load_image_saved, Hsp.
  cbn [mbind run_bind]. change (list_fmap _ _ Sprite_to_dict sprites)
    with (Sprite_to_dict <$> sprites). by rewrite IH.
Qed.

Lemma first_level_saved (doc : GameMakerIDE.t) :
  first_level (project_data doc)
  = match GameMakerIDE.levels doc with
    | lvl :: _ => Ok (Level_to_dict lvl)
    | [] => Raise IndexError
    end.
Proof.
  unfold first_level.
  change (subscript (project_data doc) "levels")
    with (Ok (A:=json) (JList (Level_to_dict <$> GameMakerIDE.levels doc))).
  cbn [mbind result_bind item list_item as_index].
  rewrite getitem_lookup by done.
  by destruct (GameMakerIDE.levels doc).
Qed.

Lemma blit_instance_saved (doc : GameMakerIDE.t) (surfaces : list Surface)
    (inst : GameObjectInstance.t) :
  Forall (fun obj => valid_ref surfaces (GameObjectType.sprite_index obj))
    (GameMakerIDE.objects doc) ->
  valid_instance (GameMakerIDE.objects doc) inst ->
  (forall surface x y, blit surface (JInt x) (JInt y) = true) ->
  blit_instance Surface blit (project_data doc) surfaces (GameObjectInstance_to_dict inst)
  = Done (expected_blit Surface doc surfaces inst).
Proof.
  intros Hobjs Hv Hblit. unfold blit_instance, expected_blit.
  change (subscript (project_data doc) "objects")
    with (Ok (A:=json) (JList (GameObjectType_to_dict <$> GameMakerIDE.objects doc))).
  change (subscript (GameObjectInstance_to_dict inst) "object_index")
    with (Ok (A:=json) (JInt (GameObjectInstance.object_index inst))).
  change (subscript (GameObjectInstance_to_dict inst) "x")
    with (Ok (A:=json) (JInt (GameObjectInstance.x inst))).
  change (subscript (GameObjectInstance_to_dict inst) "y")
    with (Ok (A:=json) (JInt (GameObjectInstance.y inst))).
  cbn [py mbind run_bind item list_item as_index].
  destruct (getitem_in_range _ _ Hv) as (obj & Hobj & _).
  rewrite (getitem_fmap _ _ _ obj) by (done || apply Hv).
  rewrite Hobj. cbn [py mbind run_bind option_bind].
  change (subscript (GameObjectType_to_dict obj) "sprite_index")
    with (Ok (A:=json) (opt_int (GameObjectType.sprite_index obj))).
  cbn [py mbind run_bind].
  assert (valid_ref surfaces (GameObjectType.sprite_index obj)) as Hvo.
  { rewrite Forall_forall in Hobjs. eapply Hobjs, list_elem_of_lookup_2, Hobj. }
  destruct (GameObjectType.sprite_index obj) as [si|]; [|done].
  cbn [opt_int list_item as_index valid_ref] in *.
  destruct (getitem_in_range _ _ Hvo) as (surface & Hsurf & ->).
  cbn [py mbind run_bind option_bind]. rewrite Hsurf. cbn [py mbind run_bind option_bind]. by rewrite Hblit.
Qed.

Lemma blit_instances_saved (doc : GameMakerIDE.t) (surfaces : list Surface)
    (insts : list GameObjectInstance.t) :
  Forall (fun obj => valid_ref surfaces (GameObjectType.sprite_index obj))
    (GameMakerIDE.objects doc) ->
  Forall (valid_instance (GameMakerIDE.objects doc)) insts ->
  (forall surface x y, blit surface (JInt x) (JInt y) = true) ->
  blit_instances Surface blit (project_data doc) surfaces
    (GameObjectInstance_to_dict <$> insts)
  = Done (omap (expected_blit Surface doc surfaces) insts).
Proof.
  intros Hobjs Hv Hblit. induction Hv as [|inst insts Hinst _ IH]; [done|].
  cbn [fmap list_fmap blit_instances omap list_omap].
  rewrite (blit_instance_saved doc surfaces inst Hobjs Hinst Hblit).
  cbn [mbind run_bind].
  change (list_fmap _ _ GameObjectInstance_to_dict insts)
    with (GameObjectInstance_to_dict <$> insts). rewrite IH.
  cbn [mbind run_bind]. by destruct (expected_blit Surface doc surfaces inst).
Qed.

(** X20. The playback program can play what the editor saves.  For a
    document whose references are valid and that has a level, if pygame
    opens the window, loads every sprite image and accepts integer blit
    positions, the script gets through its set-up and a pass of its
    drawing loop: it draws the first level of the file (whichever level
    was selected in the editor), and blits, in the order of the
    instances, the surface of the sprite of each instance whose object
    type has a sprite, at the position of the instance. *)
Theorem runner_plays_saved_project (doc : GameMakerIDE.t) (lvl : Level.t)
    (rest : list Level.t) (surfaces : list Surface) :
  referential_integrity doc ->
  GameMakerIDE.levels doc = lvl :: rest ->
  set_mode (JInt (Level.width lvl)) (JInt (Level.height lvl)) = true ->
  Forall2 (fun sp surface => surface_of Surface Surface_40 image_load sp = Some surface)
    (GameMakerIDE.sprites doc) surfaces ->
  (forall surface x y, blit surface (JInt x) (JInt y) = true) ->
  setup Surface Surface_40 image_load set_mode (project_data doc)
  = Done (surfaces, Level_to_dict lvl)
  /\ frame Surface blit (project_data doc) surfaces (Level_to_dict lvl)
     = Done (omap (expected_blit Surface doc surfaces) (Level.instances lvl)).
Proof.
  intros [Hobjs Hlvls] Hlevels Hmode Hload Hblit. split.
  - unfold setup. rewrite first_level_saved, Hlevels.
    cbn [py mbind result_bind run_bind].
    change (subscript (Level_to_dict lvl) "width")
      with (Ok (A:=json) (JInt (Level.width lvl))).
    change (subscript (Level_to_dict lvl) "height")
      with (Ok (A:=json) (JInt (Level.height lvl))).
    cbn [py mbind run_bind]. rewrite Hmode.
    change (subscript (project_data doc) "sprites")
      with (Ok (A:=json) (JList (Sprite_to_dict <$> GameMakerIDE.sprites doc))).
    cbn [py mbind result_bind run_bind iterate].
    by rewrite (load_images_saved _ _ Hload).
  - unfold frame.
    change (subscript (Level_to_dict lvl) "instances")
      with (Ok (A:=json) (JList (GameObjectInstance_to_dict <$> Level.instances lvl))).
    cbn [py mbind result_bind run_bind iterate].
    apply blit_instances_saved; [| |done].
    + eapply Forall_impl; [exact Hobjs|]. intros obj Hv. unfold valid_object in *.
      eapply valid_ref_len; [|exact Hv].
      unfold len. by rewrite (Forall2_length _ _ _ Hload).
    + rewrite Hlevels in Hlvls. apply Forall_cons in Hlvls as [[_ Hinsts] _]. exact Hinsts.
Qed.

(** X21. A project without a level cannot be played.  The editor lets
    its only level be deleted and saves the project all the same; on
    that file the playback program ends with an [IndexError] before it
    opens its window. *)
Theorem runner_needs_a_level (doc : GameMakerIDE.t) (lvl : Level.t) :
  GameMakerIDE.levels doc = [lvl] ->
  GameMakerIDE.selected_level_index doc = Some 0 ->
  exists file,
    save_project true true (GameMakerIDE.delete_level true doc)
    = (Some file, Information "Save" "Project saved successfully!")
    /\ setup Surface Surface_40 image_load set_mode file = PyRaise IndexError.
Proof.
  intros Hlevels Hsel. eexists. split; [reflexivity|].
  unfold setup. rewrite first_level_saved.
  unfold GameMakerIDE.delete_level. rewrite Hlevels, Hsel. reflexivity.
Qed.
End RunnerProofs.

(** ** Deleting, then painting the instances *)

Lemma getitem_fmap_result {A B} (f : A -> B) (l : list A) (i : Z) :
  getitem (f <$> l) i = match getitem l i with
                        | Ok a => Ok (f a)
                        | Raise e => Raise e
                        end.
Proof.
  unfold getitem, in_range. rewrite len_fmap, list_lookup_fmap.
  destruct (_ && _); [|done]. by destruct (l !! _).
Qed.

Lemma in_range_false {A} (i : Z) (l : list A) :
  in_range i l = false <-> ~ 0 <= i < len l.
Proof.
  rewrite <- in_range_spec. destruct (in_range i l); naive_solver.
Qed.

(** X22. Deleting a sprite changes on the canvas only what was drawn
    with it: an instance whose object type was on the deleted sprite is
    no longer drawn, and every other instance is drawn exactly as
    before, whether the sprite index of its object type was renumbered
    or not. *)
Theorem delete_sprite_repaint codec (s : GameMakerIDE.t) (k : Z)
    (inst : GameObjectInstance.t) (obj : GameObjectType.t) :
  GameMakerIDE.selected_sprite_index s = Some k ->
  0 <= k < len (GameMakerIDE.sprites s) ->
  0 <= GameObjectInstance.object_index inst ->
  GameMakerIDE.objects s !! Z.to_nat (GameObjectInstance.object_index inst) = Some obj ->
  let s' := GameMakerIDE.delete_sprite true s in
  (GameObjectType.sprite_index obj = Some k ->
   paint_instance codec inst (GameMakerIDE.objects s') (GameMakerIDE.sprites s') = Ok None)
  /\ (GameObjectType.sprite_index obj <> Some k ->
      paint_instance codec inst (GameMakerIDE.objects s') (GameMakerIDE.sprites s')
      = paint_instance codec inst (GameMakerIDE.objects s) (GameMakerIDE.sprites s)).
Proof.
  intros Hsel Hk H0 Hobj s'. subst s'.
  rewrite (delete_sprite_unfold s k Hsel Hk). simpl.
  set (sps := GameMakerIDE.sprites s) in *. set (objs := GameMakerIDE.objects s) in *.
  pose proof (len_del sps k Hk) as Hlen.
  pose proof (lookup_lt_Some _ _ _ Hobj) as Hlt.
  unfold paint_instance. rewrite len_fmap.
  destruct (Z.geb_spec (GameObjectInstance.object_index inst) (len objs)) as [Hge|_];
    [unfold len in Hge; lia|].
  rewrite getitem_fmap_result, (getitem_lookup objs) by done. rewrite Hobj.
  cbn [mbind result_bind].
  destruct (cascade_sprite_cases k obj) as (_ & Heq & Hgt & Hother).
  split.
  - intros Hsi. by rewrite (Heq Hsi).
  - intros Hne. destruct (GameObjectType.sprite_index obj) as [j|] eqn:Hj.
    2:{ rewrite Hother by auto. by rewrite Hj. }
    destruct (Z.lt_total j k) as [Hjk|[->|Hkj]]; [|done|].
    + rewrite Hother by (right; eauto). rewrite Hj.
      destruct (decide (0 <= j)) as [Hj0|Hj0].
      * assert (in_range j (del sps k) = true) as -> by (apply in_range_spec; lia).
        assert (in_range j sps = true) as -> by (apply in_range_spec; lia).
        rewrite !getitem_lookup by done. by rewrite del_lookup_lt by lia.
      * assert (in_range j (del sps k) = false) as -> by (apply in_range_false; lia).
        assert (in_range j sps = false) as -> by (apply in_range_false; lia).
        done.
    + rewrite (Hgt j eq_refl) by lia.
      destruct (decide (j < len sps)) as [Hin|Hout].
      * assert (in_range (j - 1) (del sps k) = true) as -> by (apply in_range_spec; lia).
        assert (in_range j sps = true) as -> by (apply in_range_spec; lia).
        rewrite !getitem_lookup by lia. by rewrite del_lookup_gt by lia.
      * assert (in_range (j - 1) (del sps k) = false) as -> by (apply in_range_false; lia).
        assert (in_range j sps = false) as -> by (apply in_range_false; lia).
        done.
Qed.

Lemma paint_instance_shift codec (k : Z) (inst : GameObjectInstance.t)
    (objects : list GameObjectType.t) (sprites : list Sprite.t) :
  0 <= k < len objects ->
  0 <= GameObjectInstance.object_index inst ->
  GameObjectInstance.object_index inst <> k ->
  paint_instance codec (GameMakerIDE.shift_instance k inst) (del objects k) sprites
  = paint_instance codec inst objects sprites.
Proof.
  intros Hk H0 Hne. pose proof (len_del objects k Hk) as Hlen.
  unfold paint_instance, GameMakerIDE.shift_instance.
  set (oi := GameObjectInstance.object_index inst) in *.
  destruct (Z.gtb_spec oi k) as [Hgt|Hle]; cbn [GameObjectInstance.object_index
    GameObjectInstance.set_object_index GameObjectInstance.x GameObjectInstance.y].
  - rewrite Hlen.
    destruct (Z.geb_spec (oi - 1) (len objects - 1)), (Z.geb_spec oi (len objects));
      try lia; [done|].
    rewrite !getitem_lookup by lia. by rewrite del_lookup_gt by lia.
  - fold oi. rewrite Hlen.
    destruct (Z.geb_spec oi (len objects - 1)), (Z.geb_spec oi (len objects));
      try lia.
    rewrite !getitem_lookup by lia. by rewrite del_lookup_lt by lia.
Qed.

(** X23. Deleting an object type changes on the canvas only its own
    instances: in every level the instances of the other object types
    are drawn after the delete exactly as they were before, in the same
    order. *)
Theorem delete_object_repaint codec (s : GameMakerIDE.t) (k : Z) (i : nat)
    (lvl : Level.t) :
  GameMakerIDE.selected_object_index s = Some k ->
  0 <= k < len (GameMakerIDE.objects s) ->
  GameMakerIDE.levels s !! i = Some lvl ->
  Forall (fun inst => 0 <= GameObjectInstance.object_index inst) (Level.instances lvl) ->
  let s' := GameMakerIDE.delete_object true s in
  exists lvl',
    GameMakerIDE.levels s' !! i = Some lvl'
    /\ paint_instances codec (Level.instances lvl') (GameMakerIDE.objects s')
         (GameMakerIDE.sprites s')
       = paint_instances codec
           (filter (fun inst => GameObjectInstance.object_index inst <> k)
              (Level.instances lvl))
           (GameMakerIDE.objects s) (GameMakerIDE.sprites s).
Proof.
  intros Hsel Hk Hlvl Hpos s'. subst s'.
  rewrite (delete_object_unfold s k Hsel Hk). simpl.
  rewrite list_lookup_fmap, Hlvl. simpl. eexists. split; [reflexivity|].
  unfold GameMakerIDE.cascade_object. cbn [Level.instances Level.set_instances].
  revert Hpos. generalize (Level.instances lvl). intros insts Hpos.
  induction Hpos as [|inst insts H0 _ IH]; [done|].
  rewrite filter_cons. destruct (decide (GameObjectInstance.object_index inst <> k)) as [Hne|_];
    [|exact IH].
  cbn [fmap list_fmap paint_instances].
  rewrite (paint_instance_shift codec k inst _ _ Hk H0 Hne).
  destruct (paint_instance codec inst _ _) as [drawn|e]; [|done].
  cbn [mbind result_bind].
  change (list_fmap _ _ (GameMakerIDE.shift_instance k) ?l)
    with (GameMakerIDE.shift_instance k <$> l).
  by rewrite IH.
Qed.

(** ** The size dialog *)

Lemma digit_char_cases (d : Z) :
  0 <= d < 10 ->
  is_digit (digit_char d) = true
  /\ digit_value (digit_char d) = d
  /\ is_space (digit_char d) = false
  /\ Ascii.eqb (digit_char d) "," = false
  /\ Ascii.eqb (digit_char d) "-" = false
  /\ Ascii.eqb (digit_char d) "+" = false.
Proof.
  intros H.
  assert (d = 0 \/ d = 1 \/ d = 2 \/ d = 3 \/ d = 4 \/ d = 5 \/ d = 6 \/ d = 7
          \/ d = 8 \/ d = 9) as Hd by lia.
  repeat destruct Hd as [->|Hd]; try subst d; vm_compute; by repeat split.
Qed.

Lemma int_digits_str_digits (f : nat) :
  forall (n : Z) (acc : string),
    0 <= n < 2 ^ Z.of_nat (S f) ->
    exists m, forall a after,
      int_digits (str_digits (S f) n acc) a after = int_digits acc (a * m + n) true.
Proof.
  induction f as [|f IH]; intros n acc Hn.
  - exists 10. intros a after. cbn [str_digits].
    assert (n < 10) as Hlt by (simpl in Hn; lia).
    destruct (Z.ltb_spec n 10) as [_|]; [|lia].
    rewrite Z.mod_small by lia.
    destruct (digit_char_cases n) as (Hd & Hv & _); [lia|].
    cbn [int_digits]. by rewrite Hd, Hv.
  - cbn [str_digits].
    assert (0 <= n mod 10 < 10) as Hmod by (apply Z.mod_pos_bound; lia).
    destruct (digit_char_cases (n mod 10) Hmod) as (Hd & Hv & _).
    destruct (Z.ltb_spec n 10) as [Hlt|Hge].
    + exists 10. intros a after. cbn [int_digits]. rewrite Hd, Hv.
      by rewrite Z.mod_small by lia.
    + destruct (IH (n / 10) (String (digit_char (n mod 10)) acc)) as (m & Hm).
      { split; [apply Z.div_pos; lia|].
        apply Z.div_lt_upper_bound; [lia|].
        rewrite Nat2Z.inj_succ, Z.pow_succ_r in Hn by lia. lia. }
      exists (m * 10). intros a after. rewrite Hm. cbn [int_digits]. rewrite Hd, Hv.
      f_equal. pose proof (Z.div_mod n 10). lia.
Qed.

Lemma str_digits_head (f : nat) :
  forall (n : Z) (acc : string),
    exists d rest, 0 <= d < 10 /\ str_digits (S f) n acc = String (digit_char d) rest.
Proof.
  induction f as [|f IH]; intros n acc; cbn [str_digits].
  - exists (n mod 10), acc. split; [apply Z.mod_pos_bound; lia|]. by destruct (n <? 10).
  - destruct (n <? 10).
    + exists (n mod 10), acc. split; [apply Z.mod_pos_bound; lia|done].
    + apply IH.
Qed.

Lemma fuel_enough (n : Z) : 0 <= n -> 0 <= n < 2 ^ Z.of_nat (S (Z.to_nat (Z.log2 n))).
Proof.
  intros H. split; [done|].
  rewrite Nat2Z.inj_succ, Z2Nat.id by apply Z.log2_nonneg.
  destruct (decide (n = 0)) as [->|]; [done|].
  apply Z.log2_spec. lia.
Qed.

Lemma int_digits_py_str (n : Z) :
  0 <= n ->
  int_digits (str_digits (S (Z.to_nat (Z.log2 n))) n EmptyString) 0 false = Some n.
Proof.
  intros H.
  destruct (int_digits_str_digits _ n EmptyString (fuel_enough n H)) as (m & Hm).
  by rewrite Hm.
Qed.

(** [int(str(n))] is [n]. *)
Lemma py_int_py_str (n : Z) : py_int (py_str n) = Some n.
Proof.
  unfold py_str. destruct (Z.ltb_spec n 0) as [Hneg|Hpos].
  - unfold py_int. cbn [lstrip]. change (is_space "-") with false. cbv iota.
    rewrite int_digits_py_str by lia. simpl. f_equal. lia.
  - pose proof (int_digits_py_str n Hpos) as Hint.
    destruct (str_digits_head (Z.to_nat (Z.log2 n)) n EmptyString) as (d & rest & Hd & Heq).
    rewrite Heq in *. destruct (digit_char_cases d Hd) as (_ & _ & Hsp & _ & Hm & Hp).
    unfold py_int. cbn [lstrip]. rewrite Hsp.
    destruct (digit_char d) as [b0 b1 b2 b3 b4 b5 b6 b7] eqn:Hc.
    destruct b0, b1, b2, b3, b4, b5, b6, b7; try exact Hint; discriminate.
Qed.

Lemma string_app_nil_r (a : string) : (a ++ "" = a)%string.
Proof.
  induction a as [|x a IH]; [done|].
  change (String x (a ++ "") = String x a)%string. by rewrite IH.
Qed.

Lemma rev_app_append (cur acc s : string) :
  (String.rev_app cur acc ++ s = String.rev_app cur (acc ++ s))%string.
Proof.
  revert acc. induction cur as [|c cur IH]; intros acc; [done|].
  cbn [String.rev_app]. by rewrite IH.
Qed.

Lemma split_comma_aux_piece (s : string) :
  Forall (fun c => Ascii.eqb c "," = false) (list_ascii_of_string s) ->
  forall cur,
    split_comma_aux s cur = [(String.rev cur ++ s)%string]
    /\ forall t, split_comma_aux (s ++ String "," t) cur
                 = (String.rev cur ++ s)%string :: split_comma_aux t EmptyString.
Proof.
  induction s as [|c s IH]; intros Hs cur.
  - rewrite string_app_nil_r. split; [done|]. intros t.
    by change ("" ++ String "," t)%string with (String "," t).
  - apply Forall_cons in Hs as [Hc Hs]. destruct (IH Hs (String c cur)) as [H1 H2].
    assert (String.rev (String c cur) ++ s = String.rev cur ++ String c s)%string as Hrev.
    { unfold String.rev. cbn [String.rev_app]. by rewrite !rev_app_append. }
    split.
    + cbn [split_comma_aux]. by rewrite Hc, H1, Hrev.
    + intros t. change (String c s ++ String "," t)%string
        with (String c (s ++ String "," t))%string.
      cbn [split_comma_aux]. by rewrite Hc, H2, Hrev.
Qed.

Lemma str_digits_no_comma (f : nat) :
  forall (n : Z) (acc : string),
    Forall (fun c => Ascii.eqb c "," = false) (list_ascii_of_string acc) ->
    Forall (fun c => Ascii.eqb c "," = false)
      (list_ascii_of_string (str_digits f n acc)).
Proof.
  induction f as [|f IH]; intros n acc Hacc; [done|]. cbn [str_digits].
  assert (Forall (fun c => Ascii.eqb c "," = false)
            (list_ascii_of_string (String (digit_char (n mod 10)) acc))) as H.
  { simpl. apply Forall_cons. split; [|done].
    apply digit_char_cases, Z.mod_pos_bound. lia. }
  destruct (n <? 10); [done|]. by apply IH.
Qed.

Lemma py_str_no_comma (n : Z) :
  Forall (fun c => Ascii.eqb c "," = false) (list_ascii_of_string (py_str n)).
Proof.
  unfold py_str. destruct (n <? 0).
  - cbn [list_ascii_of_string]. apply Forall_cons. split; [done|].
    by apply str_digits_no_comma.
  - by apply str_digits_no_comma.
Qed.

Lemma parse_size_size_text (w h : Z) : parse_size (size_text w h) = Some (w, h).
Proof.
  unfold parse_size, split_comma.
  change (size_text w h) with (py_str w ++ String "," (py_str h))%string.
  destruct (split_comma_aux_piece (py_str w) (py_str_no_comma w) EmptyString) as [_ ->].
  destruct (split_comma_aux_piece (py_str h) (py_str_no_comma h) EmptyString) as [-> _].
  change (String.rev "" ++ py_str w)%string with (py_str w).
  change (String.rev "" ++ py_str h)%string with (py_str h).
  by rewrite !py_int_py_str.
Qed.

Lemma setitem_same {A} (l : list A) (k : Z) (f : A -> A) (a : A) :
  l !! Z.to_nat k = Some a -> f a = a -> setitem l k f = l.
Proof.
  intros Hl Hf. unfold setitem. apply list_eq. intros i.
  destruct (decide (i = Z.to_nat k)) as [->|Hne].
  - by rewrite list_lookup_alter_eq, Hl; simpl; rewrite Hf.
  - by rewrite list_lookup_alter_ne.
Qed.


(** ** Renaming, then painting *)

Lemma getitem_setitem_view {A V} (view : A -> V) (l : list A) (k : Z) (f : A -> A)
    (i : Z) :
  (forall a, view (f a) = view a) ->
  match getitem (setitem l k f) i, getitem l i with
  | Ok a', Ok a => view a' = view a
  | Raise e', Raise e => e' = e
  | _, _ => False
  end.
Proof.
  intros Hview. unfold getitem, in_range. rewrite len_setitem.
  destruct (_ && _); [|done]. unfold setitem.
  set (j := Z.to_nat (if i <? 0 then i + len l else i)).
  destruct (decide (j = Z.to_nat k)) as [->|Hne].
  - rewrite list_lookup_alter_eq. destruct (l !! Z.to_nat k); simpl; [apply Hview|done].
  - rewrite list_lookup_alter_ne by done. by destruct (l !! j).
Qed.

Lemma paint_instance_rename_sprite codec (inst : GameObjectInstance.t)
    (objects : list GameObjectType.t) (sprites : list Sprite.t) (k : Z) (n : string) :
  paint_instance codec inst objects (setitem sprites k (Sprite.set_name n))
  = paint_instance codec inst objects sprites.
Proof.
  unfold paint_instance. destruct (_ >=? _); [done|].
  destruct (getitem objects _) as [obj|e]; [|done]. cbn [mbind result_bind].
  destruct (GameObjectType.sprite_index obj) as [si|]; [|done].
  unfold in_range. rewrite len_setitem. destruct (_ && _); [|done].
  pose proof (getitem_setitem_view (Sprite_pixmap codec) sprites k (Sprite.set_name n) si
                (fun _ => eq_refl)) as H.
  destruct (getitem (setitem _ _ _) si), (getitem sprites si); try done; simpl.
  - by rewrite H.
  - by rewrite H.
Qed.

Lemma paint_instance_rename_object codec (inst : GameObjectInstance.t)
    (objects : list GameObjectType.t) (sprites : list Sprite.t) (k : Z) (n : string) :
  paint_instance codec inst (setitem objects k (GameObjectType.set_name n)) sprites
  = paint_instance codec inst objects sprites.
Proof.
  unfold paint_instance. rewrite len_setitem. destruct (_ >=? _); [done|].
  pose proof (getitem_setitem_view GameObjectType.sprite_index objects k
                (GameObjectType.set_name n) (GameObjectInstance.object_index inst)
                (fun _ => eq_refl)) as H.
  destruct (getitem (setitem _ _ _) _), (getitem objects _); try done; simpl.
  - by rewrite H.
  - by rewrite H.
Qed.

Lemma paint_instances_ext codec (insts : list GameObjectInstance.t)
    (objects objects' : list GameObjectType.t) (sprites sprites' : list Sprite.t) :
  (forall inst, paint_instance codec inst objects' sprites'
                = paint_instance codec inst objects sprites) ->
  paint_instances codec insts objects' sprites'
  = paint_instances codec insts objects sprites.
Proof.
  intros H. induction insts as [|inst insts IH]; [done|].
  cbn [paint_instances]. by rewrite H, IH.
Qed.

Lemma paint_background_rename codec (level : Level.t)
    (backgrounds : list BackgroundResource.t) (k : Z) (n : string) :
  paint_background codec level (setitem backgrounds k (BackgroundResource.set_name n))
  = paint_background codec level backgrounds.
Proof.
  unfold paint_background, selected_in, in_range. rewrite len_setitem.
  destruct (Level.background_index level) as [bg_idx|]; [|done].
  destruct (_ && _); [|done].
  set (rest := fun bg : BackgroundResource.t =>
    if String.eqb (BackgroundResource.mode bg) "color" then
      Ok [FillRect 0 0 (Level.width level) (Level.height level)
            (Colour (BackgroundResource.color bg))]
    else if String.eqb (BackgroundResource.mode bg) "image" then
      match BackgroundResource.img_bytes bg with
      | Some (_ :: _) =>
          let pix := Background_pixmap codec bg in
          if isNull pix then Ok []
          else if BackgroundResource.tiled bg
               then tiles pix (Level.width level) (Level.height level)
               else Ok [DrawPixmap 0 0 (scaled pix (Level.width level) (Level.height level))]
      | Some [] | None => Ok []
      end
    else Ok []).
  pose proof (getitem_setitem_view rest backgrounds k (BackgroundResource.set_name n) bg_idx
                (fun _ => eq_refl)) as H.
  change (getitem (setitem backgrounds k (BackgroundResource.set_name n)) bg_idx ≫= rest
          = getitem backgrounds bg_idx ≫= rest).
  destruct (getitem (setitem _ _ _) bg_idx), (getitem backgrounds bg_idx); try done; simpl.
  by rewrite H.
Qed.

Lemma paintEvent_rename_level codec (s : GameMakerIDE.t) (k : Z) (n : string) :
  paintEvent codec
    (GameMakerIDE.set_levels (setitem (GameMakerIDE.levels s) k (Level.set_name n)) s)
  = paintEvent codec s.
Proof.
  unfold paintEvent, GameMakerIDE.get_current_level, GameMakerIDE.current_level_index,
    selected_in, in_range.
  cbn [GameMakerIDE.levels GameMakerIDE.set_levels GameMakerIDE.selected_level_index
       GameMakerIDE.backgrounds GameMakerIDE.canvas GameMakerIDE.objects
       GameMakerIDE.sprites].
  rewrite len_setitem.
  destruct (GameMakerIDE.selected_level_index s) as [idx|]; [|done].
  destruct (_ && _); [|done]. cbn [mbind option_bind]. unfold setitem.
  destruct (decide (Z.to_nat idx = Z.to_nat k)) as [->|Hne].
  - rewrite list_lookup_alter_eq. by destruct (GameMakerIDE.levels s !! Z.to_nat k).
  - by rewrite list_lookup_alter_ne.
Qed.

(** X25. A rename changes nothing on the canvas: after a sprite, a
    background, an object type or a level is renamed, whatever the
    answer of the dialog, the repaint makes the same draw calls as
    before (a sprite or background keeps the pixmap it was prepared
    with, also when its new name ends in ".gif"). *)
Theorem rename_keeps_canvas codec (dlg : string * bool) (s : GameMakerIDE.t) :
  paintEvent codec (GameMakerIDE.rename_sprite dlg s) = paintEvent codec s
  /\ paintEvent codec (GameMakerIDE.rename_background dlg s) = paintEvent codec s
  /\ paintEvent codec (GameMakerIDE.rename_object dlg s) = paintEvent codec s
  /\ paintEvent codec (GameMakerIDE.rename_level dlg s) = paintEvent codec s.
Proof.
  destruct dlg as [n ok]. split_and!.
  - unfold GameMakerIDE.rename_sprite.
    destruct (selected_in _ _) as [idx|]; [|done]. destruct (_ && _); [|done].
    unfold paintEvent, GameMakerIDE.get_current_level, GameMakerIDE.current_level_index.
    cbn [GameMakerIDE.levels GameMakerIDE.set_sprites GameMakerIDE.selected_level_index
         GameMakerIDE.backgrounds GameMakerIDE.canvas GameMakerIDE.objects
         GameMakerIDE.sprites].
    destruct (_ ≫= _) as [level|]; [|done].
    rewrite (paint_instances_ext codec _ (GameMakerIDE.objects s) (GameMakerIDE.objects s)
               (GameMakerIDE.sprites s)); [done|].
    intros inst. apply paint_instance_rename_sprite.
  - unfold GameMakerIDE.rename_background.
    destruct (selected_in _ _) as [idx|]; [|done]. destruct (_ && _); [|done].
    unfold paintEvent, GameMakerIDE.get_current_level, GameMakerIDE.current_level_index.
    cbn [GameMakerIDE.levels GameMakerIDE.set_backgrounds GameMakerIDE.selected_level_index
         GameMakerIDE.backgrounds GameMakerIDE.canvas GameMakerIDE.objects
         GameMakerIDE.sprites].
    destruct (_ ≫= _) as [level|]; [|done].
    by rewrite paint_background_rename.
  - unfold GameMakerIDE.rename_object.
    destruct (selected_in _ _) as [idx|]; [|done]. destruct (_ && _); [|done].
    unfold paintEvent, GameMakerIDE.get_current_level, GameMakerIDE.current_level_index.
    cbn [GameMakerIDE.levels GameMakerIDE.set_objects GameMakerIDE.selected_level_index
         GameMakerIDE.backgrounds GameMakerIDE.canvas GameMakerIDE.objects
         GameMakerIDE.sprites].
    destruct (_ ≫= _) as [level|]; [|done].
    rewrite (paint_instances_ext codec _ (GameMakerIDE.objects s) _
               (GameMakerIDE.sprites s) (GameMakerIDE.sprites s)); [done|].
    intros inst. apply paint_instance_rename_object.
  - unfold GameMakerIDE.rename_level.
    destruct (selected_in _ _) as [idx|]; [|done]. destruct (_ && _); [|done].
    apply paintEvent_rename_level.
Qed.

(** ** Adding, then deleting *)

Lemma cascade_object_unused (k : Z) (lvl : Level.t) :
  Forall (fun inst => GameObjectInstance.object_index inst < k) (Level.instances lvl) ->
  GameMakerIDE.cascade_object k lvl = lvl.
Proof.
  intros H. unfold GameMakerIDE.cascade_object.
  assert (forall insts,
             Forall (fun inst => GameObjectInstance.object_index inst < k) insts ->
             GameMakerIDE.shift_instance k
             <$> filter (fun inst => GameObjectInstance.object_index inst <> k) insts
             = insts) as Hsame.
  { induction 1 as [|inst insts Hlt _ IH]; [done|].
    rewrite filter_cons. destruct (decide (_ <> k)) as [_|Heq]; [|lia].
    cbn [fmap list_fmap]. change (list_fmap _ _ ?f ?l) with (f <$> l). rewrite IH.
    unfold GameMakerIDE.shift_instance.
    destruct (Z.gtb_spec (GameObjectInstance.object_index inst) k); [lia|done]. }
  rewrite (Hsame _ H). by destruct lvl.
Qed.


(** ** The playback program and the canvas of the editor *)

Section RunnerAndCanvas.
Context {Surface : Type} (blit : Surface -> json -> json -> bool).
Context (codec : bool -> bytes -> QPixmap).

Lemma blit_paint_agree (doc : GameMakerIDE.t) (surfaces : list Surface)
    (inst : GameObjectInstance.t) :
  Forall (valid_object (GameMakerIDE.sprites doc)) (GameMakerIDE.objects doc) ->
  valid_instance (GameMakerIDE.objects doc) inst ->
  length surfaces = length (GameMakerIDE.sprites doc) ->
  Forall (fun sp => isNull (Sprite_pixmap codec sp) = false) (GameMakerIDE.sprites doc) ->
  match expected_blit Surface doc surfaces inst with
  | Some b =>
      exists x y pix,
        paint_instance codec inst (GameMakerIDE.objects doc) (GameMakerIDE.sprites doc)
        = Ok (Some (x, y, pix))
        /\ same_place b (DrawPixmap x y pix)
  | None =>
      paint_instance codec inst (GameMakerIDE.objects doc) (GameMakerIDE.sprites doc)
      = Ok None
  end.
Proof.
  intros Hobjs Hv Hlen Hpix. unfold expected_blit, paint_instance.
  destruct (getitem_in_range _ _ Hv) as (obj & Hobj & ->). rewrite Hobj.
  destruct (Z.geb_spec (GameObjectInstance.object_index inst)
              (len (GameMakerIDE.objects doc))) as [Hge|_];
    [unfold valid_instance in Hv; lia|].
  cbn [mbind option_bind result_bind].
  assert (valid_object (GameMakerIDE.sprites doc) obj) as Hvo.
  { rewrite Forall_forall in Hobjs. eapply Hobjs, list_elem_of_lookup_2, Hobj. }
  unfold valid_object in Hvo.
  destruct (GameObjectType.sprite_index obj) as [si|]; [|done].
  cbn [valid_ref] in Hvo. cbn [mbind option_bind].
  assert (in_range si (GameMakerIDE.sprites doc) = true) as -> by (by apply in_range_spec).
  destruct (getitem_in_range _ _ Hvo) as (sp & Hsp & ->).
  destruct (lookup_lt_is_Some_2 surfaces (Z.to_nat si)) as [surface Hsurf].
  { rewrite Hlen. unfold len in Hvo. lia. }
  rewrite Hsurf. cbn [mbind option_bind result_bind].
  assert (isNull (Sprite_pixmap codec sp) = false) as ->.
  { rewrite Forall_forall in Hpix. eapply Hpix, list_elem_of_lookup_2, Hsp. }
  eexists _, _, _. split; [reflexivity|]. by eexists _, _, _, _.
Qed.

(** X27. The game shows what the editor shows.  For a saved document
    with valid references, sprite pixmaps that are not null and a pygame
    that accepts integer blit positions, a pass of the drawing loop of
    the playback program over a level and the instance loop of the
    editor's repaint over the same level draw the same instances, in the
    same order and at the same positions. *)
Theorem runner_draws_where_editor_draws (doc : GameMakerIDE.t) (lvl : Level.t)
    (surfaces : list Surface) :
  Forall (valid_object (GameMakerIDE.sprites doc)) (GameMakerIDE.objects doc) ->
  Forall (valid_instance (GameMakerIDE.objects doc)) (Level.instances lvl) ->
  length surfaces = length (GameMakerIDE.sprites doc) ->
  Forall (fun sp => isNull (Sprite_pixmap codec sp) = false) (GameMakerIDE.sprites doc) ->
  (forall surface x y, blit surface (JInt x) (JInt y) = true) ->
  exists blits ops,
    frame Surface blit (project_data doc) surfaces (Level_to_dict lvl) = Done blits
    /\ paint_instances codec (Level.instances lvl) (GameMakerIDE.objects doc)
         (GameMakerIDE.sprites doc) = Ok ops
    /\ Forall2 same_place blits ops.
Proof.
  intros Hobjs Hinsts Hlen Hpix Hblit.
  assert (frame Surface blit (project_data doc) surfaces (Level_to_dict lvl)
          = Done (omap (expected_blit Surface doc surfaces) (Level.instances lvl))) as ->.
  { unfold frame.
    change (subscript (Level_to_dict lvl) "instances")
      with (Ok (A:=json) (JList (GameObjectInstance_to_dict <$> Level.instances lvl))).
    cbn [py mbind result_bind run_bind iterate].
    apply blit_instances_saved; [|done..].
    eapply Forall_impl; [exact Hobjs|]. intros obj Hv. unfold valid_object in Hv.
    eapply valid_ref_len; [|exact Hv]. unfold len. by rewrite Hlen. }
  exists (omap (expected_blit Surface doc surfaces) (Level.instances lvl)).
  assert (exists ops,
             paint_instances codec (Level.instances lvl) (GameMakerIDE.objects doc)
               (GameMakerIDE.sprites doc) = Ok ops
             /\ Forall2 same_place
                  (omap (expected_blit Surface doc surfaces) (Level.instances lvl)) ops)
    as (ops & Hops & Hall); [|by exists ops].
  revert Hinsts. generalize (Level.instances lvl). intros insts Hinsts.
  induction Hinsts as [|inst insts Hv _ (ops & Hops & Hall)].
  - exists []. split; [done|constructor].
  - pose proof (blit_paint_agree doc surfaces inst Hobjs Hv Hlen Hpix) as Hagree.
    cbn [omap list_omap paint_instances].
    change (list_omap _ _ ?f ?l) with (omap f l).
    destruct (expected_blit Surface doc surfaces inst) as [b|].
    + destruct Hagree as (x & y & pix & -> & Hsame). rewrite Hops.
      cbn [mbind result_bind]. eexists. split; [done|]. by constructor.
    + rewrite Hagree, Hops. cbn [mbind result_bind]. by eexists.
Qed.
End RunnerAndCanvas.

(** ** Opening what the editor saved *)

Lemma redefault_valid {A} (l : list A) (key : option Z) :
  valid_ref l key -> valid_ref l (redefault l key).
Proof.
  destruct l as [|a l], key as [i|]; simpl; try done;
    intros _; unfold len; simpl; lia.
Qed.


(** ** Instances of an object type without sprite *)

(** X29. An instance of an object type that has no sprite can be
    neither seen nor clicked: the repaint draws nothing for it, no point
    of the canvas hits it, and so no right click removes it from its
    level. *)
Theorem spriteless_instance_unreachable codec (s : GameMakerIDE.t) (level : Level.t)
    (inst : GameObjectInstance.t) (obj : GameObjectType.t) :
  referential_integrity s ->
  GameMakerIDE.get_current_level s = Some level ->
  inst ∈ Level.instances level ->
  GameMakerIDE.objects s !! Z.to_nat (GameObjectInstance.object_index inst) = Some obj ->
  GameObjectType.sprite_index obj = None ->
  paint_instance codec inst (GameMakerIDE.objects s) (GameMakerIDE.sprites s) = Ok None
  /\ forall x y,
       contains_point codec inst x y (GameMakerIDE.objects s) (GameMakerIDE.sprites s)
       = Ok false
       /\ exists s' level',
            mousePressEvent codec RightButton x y s = Ok s'
            /\ GameMakerIDE.get_current_level s' = Some level'
            /\ inst ∈ Level.instances level'.
Proof.
  intros Hint Hlevel Hin Hobj Hnone.
  pose proof (current_level_valid s level Hint Hlevel) as Hvalid.
  assert (valid_instance (GameMakerIDE.objects s) inst) as Hv.
  { rewrite Forall_forall in Hvalid. by apply Hvalid. }
  destruct (getitem_in_range _ _ Hv) as (obj' & Hobj' & Hget).
  assert (obj' = obj) as -> by congruence.
  split.
  { unfold paint_instance.
    destruct (Z.geb_spec (GameObjectInstance.object_index inst)
                (len (GameMakerIDE.objects s))) as [Hge|_];
      [unfold valid_instance in Hv; lia|].
    rewrite Hget. cbn [mbind result_bind]. by rewrite Hnone. }
  intros x y. split.
  { unfold contains_point. rewrite Hget. cbn [mbind result_bind]. by rewrite Hnone. }
  assert (~ in_hit_rectangle codec (GameMakerIDE.objects s) (GameMakerIDE.sprites s)
            inst x y) as Hmiss.
  { intros (sprite & (obj' & si & _ & Hobj'' & Hsi & _) & _). congruence. }
  destruct (get_current_level_Some s level Hlevel) as (cur & Hcur & Hcur0 & Hlook).
  unfold mousePressEvent. rewrite Hcur, Hlevel.
  destruct (hitTest_topmost codec _ (GameMakerIDE.sprites s) x y
              (integrity_no_negative s Hint) level Hvalid) as (r & -> & Hspec).
  cbn [mbind result_bind]. destruct r as [i|].
  - destruct Hspec as [(hit & Hi & Hhit) _].
    eexists _, (Level.set_instances (delete i (Level.instances level)) level).
    split; [reflexivity|]. split.
    + unfold GameMakerIDE.get_current_level, GameMakerIDE.current_level_index in *.
      cbn [GameMakerIDE.levels GameMakerIDE.selected_level_index GameMakerIDE.set_levels].
      apply selected_in_Some in Hcur as [Hc Hr].
      assert (selected_in (GameMakerIDE.selected_level_index s)
                (setitem (GameMakerIDE.levels s) cur
                   (Level.set_instances (delete i (Level.instances level)))) = Some cur)
        as -> by (apply selected_in_Some; split; [done|by rewrite len_setitem]).
      simpl. by apply setitem_lookup.
    + cbn [Level.instances Level.set_instances].
      apply list_elem_of_lookup in Hin as [j Hj].
      assert (j <> i) as Hne by (intros ->; congruence).
      destruct (decide (j < i)%nat).
      * apply (list_elem_of_lookup_2 _ j). by rewrite list_lookup_delete_lt.
      * apply (list_elem_of_lookup_2 _ (j - 1)%nat).
        rewrite list_lookup_delete_ge by lia. rewrite <- Hj. f_equal. lia.
  - exists s, level. by split_and!.
Qed.

(** ** Placing an instance and taking it away again *)

Lemma delete_last {A} (l : list A) (a : A) : delete (length l) (l ++ [a]) = l.
Proof.
  rewrite delete_take_drop, take_app_length.
  rewrite drop_ge by (rewrite length_app; simpl; lia). by rewrite app_nil_r.
Qed.

(** X30. A right click undoes a placement.  Where a left click has put
    a new instance (it hit no instance and an object type was selected)
    and the pixmap of the sprite of that object type is not smaller than
    a grid cell less one pixel, a right click at the same point removes
    the new instance again and the document is exactly as it was before
    the two clicks. *)
Theorem right_click_undoes_placement codec (x y : Z) (s : GameMakerIDE.t)
    (level : Level.t) (sel si : Z) (obj : GameObjectType.t) (sprite : Sprite.t) :
  editor_invariant s ->
  GameMakerIDE.get_current_level s = Some level ->
  GameMakerIDE.selected_object_index s = Some sel ->
  GameMakerIDE.objects s !! Z.to_nat sel = Some obj ->
  GameObjectType.sprite_index obj = Some si ->
  GameMakerIDE.sprites s !! Z.to_nat si = Some sprite ->
  GameCanvas.grid_size (GameMakerIDE.canvas s) - 1 <= pix_width (Sprite_pixmap codec sprite) ->
  GameCanvas.grid_size (GameMakerIDE.canvas s) - 1 <= pix_height (Sprite_pixmap codec sprite) ->
  (forall j inst, Level.instances level !! j = Some inst ->
   ~ in_hit_rectangle codec (GameMakerIDE.objects s) (GameMakerIDE.sprites s) inst x y) ->
  exists s1 level1 placed,
    mousePressEvent codec LeftButton x y s = Ok s1
    /\ GameMakerIDE.get_current_level s1 = Some level1
    /\ Level.instances level1 = Level.instances level ++ [placed]
    /\ mousePressEvent codec RightButton x y s1 = Ok s.
Proof.
  intros Hinv Hlevel Hsel Hobj Hsi Hsp Hw Hh Hmiss.
  pose proof Hinv as (Hint & Hselv & Hg).
  destruct (get_current_level_Some s level Hlevel) as (cur & Hcur & Hcur0 & Hlook).
  pose proof (current_level_valid s level Hint Hlevel) as Hvalid.
  destruct (mousePressEvent_invariant codec LeftButton x y s Hinv) as (s1 & Hclick & Hinv1).
  pose proof Hclick as Hs1. unfold mousePressEvent in Hs1. rewrite Hcur, Hlevel in Hs1.
  destruct (hitTest_topmost codec _ (GameMakerIDE.sprites s) x y
              (integrity_no_negative s Hint) level Hvalid) as (r & Hr & Hspec).
  rewrite Hr in Hs1. destruct r as [i|].
  { destruct Hspec as [(inst & Hi & Hhit) _]. by destruct (Hmiss i inst Hi). }
  cbn [mbind result_bind] in Hs1. rewrite Hsel in Hs1. injection Hs1 as Hs1.
  set (g := GameCanvas.grid_size (GameMakerIDE.canvas s)) in *.
  set (placed := GameObjectInstance.mk (x / g * g) (y / g * g) sel) in *.
  set (insts := Level.instances level) in *.
  set (level1 := Level.set_instances (insts ++ [placed]) level).
  assert (GameMakerIDE.current_level_index s1 = Some cur) as Hcur1.
  { subst s1. unfold GameMakerIDE.current_level_index in *.
    cbn [GameMakerIDE.levels GameMakerIDE.selected_level_index GameMakerIDE.set_levels].
    apply selected_in_Some in Hcur as [Hc Hrange].
    apply selected_in_Some. split; [done|]. by rewrite len_setitem. }
  assert (GameMakerIDE.get_current_level s1 = Some level1) as Hlevel1.
  { unfold GameMakerIDE.get_current_level. rewrite Hcur1. subst s1. simpl.
    by apply setitem_lookup. }
  exists s1, level1, placed. split_and!; [done..|].
  pose proof Hinv1 as (Hint1 & _ & _).
  pose proof (current_level_valid s1 level1 Hint1 Hlevel1) as Hvalid1.
  assert (GameMakerIDE.objects s1 = GameMakerIDE.objects s) as Hobjs1 by (by subst s1).
  assert (GameMakerIDE.sprites s1 = GameMakerIDE.sprites s) as Hsps1 by (by subst s1).
  assert (in_hit_rectangle codec (GameMakerIDE.objects s1) (GameMakerIDE.sprites s1)
            placed x y) as Hhit.
  { rewrite Hobjs1, Hsps1. exists sprite. split.
    - exists obj, si. cbn [valid_ref] in Hselv. rewrite Hsel in Hselv. simpl in Hselv.
      assert (valid_object (GameMakerIDE.sprites s) obj) as Hvo.
      { destruct Hint as [Ho _]. rewrite Forall_forall in Ho.
        eapply Ho, list_elem_of_lookup_2, Hobj. }
      unfold valid_object in Hvo. rewrite Hsi in Hvo. simpl in Hvo.
      subst placed. cbn [GameObjectInstance.object_index].
      split_and!; try done; lia.
    - subst placed. cbn [GameObjectInstance.x GameObjectInstance.y].
      pose proof (Z.mul_div_le x g Hg). pose proof (Z.mul_succ_div_gt x g Hg).
      pose proof (Z.mul_div_le y g Hg). pose proof (Z.mul_succ_div_gt y g Hg).
      lia. }
  unfold mousePressEvent. rewrite Hcur1, Hlevel1.
  destruct (hitTest_topmost codec _ (GameMakerIDE.sprites s1) x y
              (integrity_no_negative s1 Hint1) level1 Hvalid1) as (r & -> & Hspec1).
  cbn [mbind result_bind].
  assert (Level.instances level1 !! length insts = Some placed) as Hlast.
  { subst level1. simpl. by rewrite lookup_app_r, Nat.sub_diag by lia. }
  destruct r as [k|]; [|by destruct (Hspec1 _ _ Hlast)].
  destruct Hspec1 as [(hit & Hk & _) Hlater].
  assert (k = length insts) as ->.
  { pose proof (lookup_lt_Some _ _ _ Hk) as Hlt. subst level1. simpl in Hlt.
    rewrite length_app in Hlt. simpl in Hlt.
    destruct (decide (k = length insts)) as [|Hne]; [done|].
    destruct (Hlater (length insts) placed); [lia|done..]. }
  f_equal. subst level1. cbn [Level.instances Level.set_instances].
  rewrite delete_last. subst s1. unfold setitem.
  cbn [GameMakerIDE.levels GameMakerIDE.set_levels].
  rewrite list_alter_alter_eq.
  assert (alter (Level.set_instances insts ∘ Level.set_instances (insts ++ [placed]))
            (Z.to_nat cur) (GameMakerIDE.levels s) = GameMakerIDE.levels s) as ->.
  { apply (setitem_same _ cur _ level Hlook). subst insts. by destruct level. }
  by destruct s.
Qed.

(** ** The theorems of this part at the examples *)

Lemma delete_sprite_keeps_other_sprites_witness :
  exists obj' j',
    GameMakerIDE.objects (GameMakerIDE.delete_sprite true example_doc) !! 0%nat = Some obj'
    /\ GameObjectType.sprite_index obj' = Some j'
    /\ 0 <= j'
    /\ GameMakerIDE.sprites (GameMakerIDE.delete_sprite true example_doc) !! Z.to_nat j'
       = Some (Sprite.new "B" None "PNG").
Proof.
  apply (delete_sprite_keeps_other_sprites example_doc 0 eq_refl
           ltac:(unfold len; simpl; lia) 0%nat (GameObjectType.mk "Hero" (Some 1)) 1).
  - reflexivity.
  - reflexivity.
  - lia.
  - lia.
  - reflexivity.
Defined.

Lemma delete_object_keeps_other_types_witness :
  exists lvl',
    GameMakerIDE.levels (GameMakerIDE.delete_object true example_doc) !! 0%nat = Some lvl'
    /\ Forall2
         (fun old new =>
            forall obj,
              0 <= GameObjectInstance.object_index old ->
              GameMakerIDE.objects example_doc
                !! Z.to_nat (GameObjectInstance.object_index old) = Some obj ->
              0 <= GameObjectInstance.object_index new
              /\ GameMakerIDE.objects (GameMakerIDE.delete_object true example_doc)
                   !! Z.to_nat (GameObjectInstance.object_index new) = Some obj)
         (filter (fun inst => GameObjectInstance.object_index inst <> 0)
            [GameObjectInstance.mk 0 0 0; GameObjectInstance.mk 32 0 1])
         (Level.instances lvl').
Proof.
  apply (delete_object_keeps_other_types example_doc 0 eq_refl
           ltac:(unfold len; simpl; lia) 0%nat
           (Level.mk "L1" 640 360 (Some 1)
              [GameObjectInstance.mk 0 0 0; GameObjectInstance.mk 32 0 1])).
  reflexivity.
Defined.

Lemma delete_background_keeps_other_backgrounds_witness :
  exists lvl' j',
    GameMakerIDE.levels (GameMakerIDE.delete_background true example_doc) !! 0%nat
    = Some lvl'
    /\ Level.background_index lvl' = Some j'
    /\ 0 <= j'
    /\ GameMakerIDE.backgrounds (GameMakerIDE.delete_background true example_doc)
         !! Z.to_nat j'
       = Some (BackgroundResource.new "Night" "color" (Some (mkQColor 0 0 32 255)) None
                 "PNG" true).
Proof.
  apply (delete_background_keeps_other_backgrounds example_doc 0 eq_refl
           ltac:(unfold len; simpl; lia) 0%nat
           (Level.mk "L1" 640 360 (Some 1)
              [GameObjectInstance.mk 0 0 0; GameObjectInstance.mk 32 0 1]) 1).
  - reflexivity.
  - reflexivity.
  - lia.
  - lia.
  - reflexivity.
Defined.





Lemma tiled_background_covers_witness :
  exists ops,
    paint_background codec16 tiled_level tiled_backgrounds = Ok ops
    /\ forall px py, 0 <= px < 100 -> 0 <= py < 50 ->
       exists x y, DrawPixmap x y (mkQPixmap 16 16) ∈ ops
         /\ x <= px < x + 16 /\ y <= py < y + 16.
Proof.
  destruct (tiled_background_covers codec16 tiled_level tiled_backgrounds 0
              (BackgroundResource.new "bricks.png" "image" None (Some ["x"%byte]) "PNG" true)
              "x"%byte [])
    as (ops & Hops & _ & Hcover).
  - reflexivity.
  - lia.
  - reflexivity.
  - reflexivity.
  - reflexivity.
  - reflexivity.
  - reflexivity.
  - exists ops. split; [exact Hops|exact Hcover].
Defined.

Lemma paint_draws_resolved_instances_witness :
  exists ops,
    paint_instances codec16 [GameObjectInstance.mk 0 0 0; GameObjectInstance.mk 32 0 1]
      (GameMakerIDE.objects example_doc) (GameMakerIDE.sprites example_doc) = Ok ops
    /\ forall op, op ∈ ops <->
         exists inst sprite,
           inst ∈ [GameObjectInstance.mk 0 0 0; GameObjectInstance.mk 32 0 1]
           /\ resolves_sprite (GameMakerIDE.objects example_doc)
                (GameMakerIDE.sprites example_doc) inst sprite
           /\ isNull (Sprite_pixmap codec16 sprite) = false
           /\ op = DrawPixmap (GameObjectInstance.x inst) (GameObjectInstance.y inst)
                     (Sprite_pixmap codec16 sprite).
Proof.
  apply (paint_draws_resolved_instances codec16).
  repeat (constructor; [simpl; lia|]). constructor.
Defined.

Lemma paintEvent_never_raises_witness :
  exists ops, paintEvent codec16 example_doc = Ok ops.
Proof.
  apply (paintEvent_never_raises codec16 example_doc).
  - intros _. simpl. lia.
  - intros level Hlevel. vm_compute in Hlevel. injection Hlevel as <-.
    repeat (constructor; [simpl; lia|]). constructor.
Defined.

Lemma drawn_instance_can_be_clicked_witness :
  exists k,
    hitTest codec16
      (Level.mk "L1" 640 360 (Some 1)
         [GameObjectInstance.mk 0 0 0; GameObjectInstance.mk 32 0 1])
      5 5 (GameMakerIDE.objects example_doc) (GameMakerIDE.sprites example_doc)
    = Ok (Some k)
    /\ (0 <= k)%nat.
Proof.
  apply (drawn_instance_can_be_clicked codec16 _ _ _ 0%nat (GameObjectInstance.mk 0 0 0)
           0 0 (mkQPixmap 40 40) 5 5).
  - apply (integrity_no_negative example_doc example_doc_integrity).
  - repeat (constructor; [unfold valid_instance, len; simpl; lia|]). constructor.
  - reflexivity.
  - reflexivity.
  - simpl. lia.
  - simpl. lia.
Defined.



Lemma load_forgets_previous_document_witness :
  exists t',
    reconstruct (project_data example_doc) GameMakerIDE.empty = (t', Ok ())
    /\ GameMakerIDE.levels t'
       = GameMakerIDE.levels (fst (reconstruct (project_data example_doc) GameMakerIDE.init))
    /\ GameMakerIDE.selected_sprite_index t' = None.
Proof.
  destruct (load_forgets_previous_document (project_data example_doc) GameMakerIDE.init
              (fst (reconstruct (project_data example_doc) GameMakerIDE.init))
              GameMakerIDE.empty)
    as (t' & Ht & _ & _ & _ & Hl & _ & _ & _ & Hs & _).
  - vm_compute. reflexivity.
  - exists t'. split; [exact Ht|]. split; [exact Hl|exact Hs].
Defined.

Lemma delete_background_repaint_witness :
  exists lvl',
    GameMakerIDE.levels (GameMakerIDE.delete_background true example_doc) !! 0%nat
    = Some lvl'
    /\ paint_background codec16 lvl'
         (GameMakerIDE.backgrounds (GameMakerIDE.delete_background true example_doc))
       = paint_background codec16
           (Level.mk "L1" 640 360 (Some 1)
              [GameObjectInstance.mk 0 0 0; GameObjectInstance.mk 32 0 1])
           (GameMakerIDE.backgrounds example_doc).
Proof.
  destruct (delete_background_repaint codec16 example_doc 0 0%nat
              (Level.mk "L1" 640 360 (Some 1)
                 [GameObjectInstance.mk 0 0 0; GameObjectInstance.mk 32 0 1]))
    as (lvl' & Hlvl & _ & Hsame).
  - reflexivity.
  - unfold len. simpl. lia.
  - reflexivity.
  - exists lvl'. split; [exact Hlvl|]. apply Hsame. discriminate.
Defined.

Lemma delete_level_selects_neighbour_witness :
  GameMakerIDE.get_current_level (GameMakerIDE.delete_level true example_doc) = None.
Proof.
  apply (delete_level_selects_neighbour example_doc 0).
  - reflexivity.
  - unfold len. simpl. lia.
Defined.

Lemma runner_plays_saved_project_witness :
  frame (option bytes) example_blit (project_data example_doc) [None; None]
    (Level_to_dict
       (Level.mk "L1" 640 360 (Some 1)
          [GameObjectInstance.mk 0 0 0; GameObjectInstance.mk 32 0 1]))
  = Done [(None, JInt 0, JInt 0)].
Proof.
  apply (runner_plays_saved_project None example_image_load example_set_mode example_blit
           example_doc
           (Level.mk "L1" 640 360 (Some 1)
              [GameObjectInstance.mk 0 0 0; GameObjectInstance.mk 32 0 1])
           [] [None; None]).
  - exact example_doc_integrity.
  - reflexivity.
  - reflexivity.
  - repeat constructor.
  - reflexivity.
Defined.

Lemma runner_needs_a_level_witness :
  exists file,
    save_project true true (GameMakerIDE.delete_level true example_doc)
    = (Some file, Information "Save" "Project saved successfully!")
    /\ setup (option bytes) None example_image_load example_set_mode file
       = PyRaise IndexError.
Proof.
  apply (runner_needs_a_level None example_image_load example_set_mode example_doc
           (Level.mk "L1" 640 360 (Some 1)
              [GameObjectInstance.mk 0 0 0; GameObjectInstance.mk 32 0 1])).
  - reflexivity.
  - reflexivity.
Defined.


Lemma delete_sprite_repaint_witness :
  paint_instance codec16 (GameObjectInstance.mk 0 0 0)
    (GameMakerIDE.objects (GameMakerIDE.delete_sprite true example_doc))
    (GameMakerIDE.sprites (GameMakerIDE.delete_sprite true example_doc))
  = paint_instance codec16 (GameObjectInstance.mk 0 0 0)
      (GameMakerIDE.objects example_doc) (GameMakerIDE.sprites example_doc).
Proof.
  apply (delete_sprite_repaint codec16 example_doc 0 (GameObjectInstance.mk 0 0 0)
           (GameObjectType.mk "Hero" (Some 1))).
  - reflexivity.
  - unfold len. simpl. lia.
  - simpl. lia.
  - reflexivity.
  - discriminate.
Defined.

Lemma delete_object_repaint_witness :
  exists lvl',
    GameMakerIDE.levels (GameMakerIDE.delete_object true example_doc) !! 0%nat = Some lvl'
    /\ paint_instances codec16 (Level.instances lvl')
         (GameMakerIDE.objects (GameMakerIDE.delete_object true example_doc))
         (GameMakerIDE.sprites (GameMakerIDE.delete_object true example_doc))
       = paint_instances codec16
           (filter (fun inst => GameObjectInstance.object_index inst <> 0)
              [GameObjectInstance.mk 0 0 0; GameObjectInstance.mk 32 0 1])
           (GameMakerIDE.objects example_doc) (GameMakerIDE.sprites example_doc).
Proof.
  apply (delete_object_repaint codec16 example_doc 0 0%nat
           (Level.mk "L1" 640 360 (Some 1)
              [GameObjectInstance.mk 0 0 0; GameObjectInstance.mk 32 0 1])).
  - reflexivity.
  - unfold len. simpl. lia.
  - reflexivity.
  - repeat (constructor; [simpl; lia|]). constructor.
Defined.


Lemma runner_draws_where_editor_draws_witness :
  exists blits ops,
    frame (option bytes) example_blit (project_data example_doc) [None; None]
      (Level_to_dict
         (Level.mk "L1" 640 360 (Some 1)
            [GameObjectInstance.mk 0 0 0; GameObjectInstance.mk 32 0 1]))
    = Done blits
    /\ paint_instances codec16 [GameObjectInstance.mk 0 0 0; GameObjectInstance.mk 32 0 1]
         (GameMakerIDE.objects example_doc) (GameMakerIDE.sprites example_doc) = Ok ops
    /\ Forall2 same_place blits ops.
Proof.
  apply (runner_draws_where_editor_draws example_blit codec16 example_doc
           (Level.mk "L1" 640 360 (Some 1)
              [GameObjectInstance.mk 0 0 0; GameObjectInstance.mk 32 0 1])
           [None; None]).
  - exact (proj1 example_doc_integrity).
  - repeat (constructor; [unfold valid_instance, len; simpl; lia|]). constructor.
  - reflexivity.
  - repeat (constructor; [reflexivity|]). constructor.
  - reflexivity.
Defined.


Lemma spriteless_instance_unreachable_witness :
  paint_instance codec16 (GameObjectInstance.mk 32 0 1)
    (GameMakerIDE.objects example_doc) (GameMakerIDE.sprites example_doc) = Ok None
  /\ forall x y,
       contains_point codec16 (GameObjectInstance.mk 32 0 1) x y
         (GameMakerIDE.objects example_doc) (GameMakerIDE.sprites example_doc) = Ok false
       /\ exists s' level',
            mousePressEvent codec16 RightButton x y example_doc = Ok s'
            /\ GameMakerIDE.get_current_level s' = Some level'
            /\ GameObjectInstance.mk 32 0 1 ∈ Level.instances level'.
Proof.
  apply (spriteless_instance_unreachable codec16 example_doc
           (Level.mk "L1" 640 360 (Some 1)
              [GameObjectInstance.mk 0 0 0; GameObjectInstance.mk 32 0 1])
           (GameObjectInstance.mk 32 0 1) (GameObjectType.mk "Wall" None)).
  - exact example_doc_integrity.
  - reflexivity.
  - apply list_elem_of_further, list_elem_of_here.
  - reflexivity.
  - reflexivity.
Defined.

Lemma right_click_undoes_placement_witness :
  exists s1 level1 placed,
    mousePressEvent codec16 LeftButton 100 100 example_doc = Ok s1
    /\ GameMakerIDE.get_current_level s1 = Some level1
    /\ Level.instances level1
       = [GameObjectInstance.mk 0 0 0; GameObjectInstance.mk 32 0 1] ++ [placed]
    /\ mousePressEvent codec16 RightButton 100 100 s1 = Ok example_doc.
Proof.
  apply (right_click_undoes_placement codec16 100 100 example_doc
           (Level.mk "L1" 640 360 (Some 1)
              [GameObjectInstance.mk 0 0 0; GameObjectInstance.mk 32 0 1])
           0 1 (GameObjectType.mk "Hero" (Some 1)) (Sprite.new "B" None "PNG")).
  - split; [exact example_doc_integrity|]. split.
    + vm_compute. split; [discriminate|reflexivity].
    + reflexivity.
  - reflexivity.
  - reflexivity.
  - reflexivity.
  - reflexivity.
  - reflexivity.
  - simpl. lia.
  - simpl. lia.
  - intros j inst Hj (sprite & (obj & si & _ & Hobj & Hsi & _ & Hsp) & Hx & Hy).
    destruct j as [|[|j]]; simpl in Hj; [| |discriminate].
    + injection Hj as <-. simpl in Hobj, Hx. injection Hobj as <-.
      simpl in Hsi. injection Hsi as <-. simpl in Hsp. injection Hsp as <-.
      simpl in Hx. lia.
    + injection Hj as <-. simpl in Hobj. injection Hobj as <-. discriminate.
Defined.
